(** * The local service orchestrator of the desktop shell (electron/main.js,
      electron/preload.js)

    The main process supervises three local services: the language-model
    runtime (Ollama, port 11434), the Python backend (port 8000) and, in
    development mode, the front-end dev server (port 3000).  This file embeds
    the orchestration code as programs over a small effect signature, gives
    them an event-loop semantics, and states the properties of the
    specification against that embedding.

    Layout:
    - [Net]   the port prober [checkService] as a promise settled by the
              events of the HTTP request;
    - [Js]    the effect signature, the program monad and the world the main
              process mutates;
    - [Main]  the functions and handlers of main.js, and the bridge of
              preload.js;
    - [Loop]  the event loop: tasks suspended at an [await], child exits,
              renderer requests;
    - [Obs]   the vocabulary of the properties: what a run did, the program
              logic for invariants of the loop, concrete configurations;
    - the properties, one section per component.

    Conventions of the embedding: a JavaScript number that counts or names a
    port is a [Z]; [log] keeps the message and drops the timestamp; the text
    a child writes is taken as already trimmed. *)

From Stdlib Require Import ZArith List Bool Lia.
From stdpp Require Import base tactics option list strings pretty.

Local Open Scope Z_scope.

(* ===================================================================== *)
(** ** The port prober *)
(* ===================================================================== *)

Module Net.

(** What happens on the wire when [http.request({host: 'localhost', port,
    timeout: 2000})] is issued and ended.  This is the environment's side of
    a probe. *)
Inductive NetOutcome : Type :=
| Responded       (* connection established, response head received *)
| Silent          (* connection established, nothing answered for 2000 ms *)
| Refused         (* ECONNREFUSED *)
| ConnectTimeout  (* no connection within 2000 ms *)
| OtherError.     (* any other socket or parse error *)

(** The TCP connection itself was established. *)
Definition established (o : NetOutcome) : bool :=
  match o with
  | Responded | Silent => true
  | Refused | ConnectTimeout | OtherError => false
  end.

(** The events a [ClientRequest] can deliver to the listeners that
    [checkService] installs: the callback given to [http.request] is the
    listener of 'response'. *)
Inductive ReqEvent : Type := EvResponse | EvError | EvTimeout.

(** Node's http client: which events the request emits, in order.  An idle
    socket emits 'timeout'; the listener then destroys the request, which
    makes it emit 'error' (socket hang up) afterwards. *)
Definition request_events (o : NetOutcome) : list ReqEvent :=
  match o with
  | Responded => [EvResponse]
  | Silent => [EvTimeout; EvError]
  | Refused => [EvError]
  | ConnectTimeout => [EvTimeout; EvError]
  | OtherError => [EvError]
  end.

Inductive PromiseState (A : Type) : Type :=
| Pending
| Resolved (a : A)
| Rejected (err : string).
Arguments Pending {A}.
Arguments Resolved {A} a.
Arguments Rejected {A} err.

(** [resolve(v)] settles a pending promise and is ignored afterwards. *)
Definition resolve {A : Type} (v : A) (st : PromiseState A) : PromiseState A :=
  match st with
  | Pending => Resolved v
  | _ => st
  end.

(** The three listeners of [checkService]:
    - response callback: [resolve(true)];
    - 'error':   [resolve(false)];
    - 'timeout': [req.destroy(); resolve(false)]. *)
Definition on_request_event (st : PromiseState bool) (ev : ReqEvent)
  : PromiseState bool :=
  match ev with
  | EvResponse => resolve true st
  | EvError => resolve false st
  | EvTimeout => resolve false st
  end.

(** The promise returned by [checkService(port)] after the request has
    delivered the events [evs]. *)
Definition checkService_promise (evs : list ReqEvent) : PromiseState bool :=
  fold_left on_request_event evs Pending.

(** The ports [http.request] accepts.  For any other port it throws
    ERR_SOCKET_BAD_PORT at once. *)
Definition valid_port (port : Z) : bool :=
  (0 <=? port) && (port <=? 65535).

(** [checkService(port)] against an environment answering [o].  The call of
    [http.request] is made inside the executor of the promise: when it throws
    because of the port, the promise is rejected with that error and no
    listener is ever installed.  Otherwise the port only selects the socket;
    the listeners do not look at it. *)
Definition checkService (port : Z) (o : NetOutcome) : PromiseState bool :=
  if valid_port port then checkService_promise (request_events o)
  else Rejected "ERR_SOCKET_BAD_PORT".

End Net.
Export Net.

(* ===================================================================== *)
(** ** Effects, programs and the world of the main process *)
(* ===================================================================== *)

Module Js.

(** A [ChildProcess] object is identified by its position in the table of
    children spawned so far. *)
Abbreviation Handle := nat (only parsing).

Record SpawnSpec : Type := mkSpawn {
  sp_cmd : string;
  sp_args : list string;
  sp_cwd : option string;
  sp_env : list (string * string);   (* entries added to process.env *)
  sp_detached : bool;
  sp_shell : bool;
  sp_piped : bool                    (* stdio ['ignore','pipe','pipe'] *)
}.

(** Listeners the program attaches to a child. *)
Inductive HandlerKind : Type :=
| OnStdout (tag : string)       (* child.stdout.on('data', log `[tag] ...`) *)
| OnStderr (tag : string)       (* child.stderr.on('data', log `[tag] ...`) *)
| OnErrorLog                    (* child.on('error', log) *)
| OnExitClearBackend.           (* child.on('exit', log; backendProcess = null) *)

Record Proc : Type := mkProc {
  p_spec : SpawnSpec;
  p_handlers : list HandlerKind;
  p_unref : bool;
  p_signalled : bool;                 (* kill() has sent SIGTERM *)
  p_exit : option (option Z)          (* Some code once it has exited *)
}.

Definition live (p : Proc) : bool :=
  match p_exit p with None => true | Some _ => false end.

(** The object sent on the 'services-status' channel. *)
Record StatusMsg : Type := mkStatusMsg {
  msg_ollama : bool;
  msg_backend : bool;
  msg_frontend : bool
}.

(** The object returned by [checkAllServices]: [{ ollama, backend }]. *)
Record StatusResult : Type := mkStatusResult {
  res_ollama : bool;
  res_backend : bool
}.

(** Property lookup on the returned object, as the renderer sees it. *)
Definition result_field (r : StatusResult) (name : string) : option bool :=
  if String.eqb name "ollama" then Some (res_ollama r)
  else if String.eqb name "backend" then Some (res_backend r)
  else None.

Definition msg_field (m : StatusMsg) (name : string) : option bool :=
  if String.eqb name "ollama" then Some (msg_ollama m)
  else if String.eqb name "backend" then Some (msg_backend m)
  else if String.eqb name "frontend" then Some (msg_frontend m)
  else None.

(** The module-level variables that hold child handles. *)
Inductive Slot : Type := backendSlot | frontendSlot.

(** Everything the program does to the outside, in order. *)
Inductive Action : Type :=
| ALog (msg : string)
| AProbe (port : Z)
| ATimer (ms : Z)
| ASpawn (h : Handle) (s : SpawnSpec)
| AUnref (h : Handle)
| AKill (h : Handle)
| AOn (h : Handle) (hk : HandlerKind)
| AErrorBox (title : string)
| ASend (m : StatusMsg)
| AOpenDialog
| ACreateMenu
| ACreateWindow
| ACreateTray
| AQuit.

Record Config : Type := mkConfig {
  isDev : bool;              (* process.env.NODE_ENV === 'development' *)
  platform : string;         (* process.platform *)
  trayIconExists : bool;     (* fs.existsSync(iconPath) *)
  userDataPath : string;
  resourcesPath : string
}.

Record World : Type := mkWorld {
  mainWindow : bool;                   (* null, or a BrowserWindow *)
  tray : bool;
  backendProcess : option Handle;
  frontendProcess : option Handle;
  children : list Proc;
  history : list Action                (* oldest first *)
}.

Definition initial_world : World :=
  mkWorld false false None None [] [].

Definition record (a : Action) (w : World) : World :=
  mkWorld (mainWindow w) (tray w) (backendProcess w) (frontendProcess w)
          (children w) (history w ++ [a]).

Definition set_children (cs : list Proc) (w : World) : World :=
  mkWorld (mainWindow w) (tray w) (backendProcess w) (frontendProcess w)
          cs (history w).

Definition set_mainWindow (b : bool) (w : World) : World :=
  mkWorld b (tray w) (backendProcess w) (frontendProcess w)
          (children w) (history w).

Definition set_tray (b : bool) (w : World) : World :=
  mkWorld (mainWindow w) b (backendProcess w) (frontendProcess w)
          (children w) (history w).

Definition read_slot (sl : Slot) (w : World) : option Handle :=
  match sl with
  | backendSlot => backendProcess w
  | frontendSlot => frontendProcess w
  end.

Definition write_slot (sl : Slot) (v : option Handle) (w : World) : World :=
  match sl with
  | backendSlot =>
      mkWorld (mainWindow w) (tray w) v (frontendProcess w)
              (children w) (history w)
  | frontendSlot =>
      mkWorld (mainWindow w) (tray w) (backendProcess w) v
              (children w) (history w)
  end.

Definition fresh_proc (s : SpawnSpec) : Proc :=
  mkProc s [] false false None.

(** [child.kill()]: SIGTERM is sent to a child that has not exited; on a
    child that has exited the call does nothing (it returns false). *)
Definition signal (p : Proc) : Proc :=
  if live p
  then mkProc (p_spec p) (p_handlers p) (p_unref p) true (p_exit p)
  else p.

Definition add_handler (hk : HandlerKind) (p : Proc) : Proc :=
  mkProc (p_spec p) (p_handlers p ++ [hk]) (p_unref p) (p_signalled p)
         (p_exit p).

Definition mark_unref (p : Proc) : Proc :=
  mkProc (p_spec p) (p_handlers p) true (p_signalled p) (p_exit p).

Definition mark_exit (code : option Z) (p : Proc) : Proc :=
  mkProc (p_spec p) (p_handlers p) (p_unref p) (p_signalled p) (Some code).

Definition update_child (h : Handle) (f : Proc -> Proc) (w : World) : World :=
  set_children (alter f h (children w)) w.

(** Synchronous operations: they run to completion on the loop. *)
Inductive Eff : Type -> Type :=
| ELog (msg : string) : Eff unit
| ESpawn (s : SpawnSpec) : Eff Handle
| EUnref (h : Handle) : Eff unit
| EReadSlot (sl : Slot) : Eff (option Handle)
| EWriteSlot (sl : Slot) (v : option Handle) : Eff unit
| EKillSlot (sl : Slot) : Eff unit          (* slot.kill() *)
| EOnSlot (sl : Slot) (hk : HandlerKind) : Eff unit
| EShowErrorBox (title : string) : Eff unit
| EHasWindow : Eff bool                     (* if (mainWindow) *)
| ESendStatus (m : StatusMsg) : Eff unit    (* mainWindow.webContents.send *)
| ECreateMenu : Eff unit
| ECreateWindow : Eff unit
| ECreateTray (iconExists : bool) : Eff unit
| EQuit : Eff unit.

(** What a task can be suspended on. *)
Inductive Awaitable : Type -> Type :=
| PCheck (port : Z) : Awaitable bool          (* await checkService(port) *)
| PTimer (ms : Z) : Awaitable unit            (* await setTimeout *)
| POpenDialog : Awaitable (list string).      (* await dialog.showOpenDialog *)

Inductive Prog (A : Type) : Type :=
| Ret (a : A)
| Throw (err : string)
| Do {X : Type} (e : Eff X) (k : X -> Prog A)
| Await {X : Type} (pd : Awaitable X) (k : X -> Prog A).
Arguments Ret {A} a.
Arguments Throw {A} err.
Arguments Do {A X} e k.
Arguments Await {A X} pd k.

Fixpoint bind {A B : Type} (p : Prog A) (f : A -> Prog B) : Prog B :=
  match p with
  | Ret a => f a
  | Throw err => Throw err
  | Do e k => Do e (fun x => bind (k x) f)
  | Await pd k => Await pd (fun x => bind (k x) f)
  end.

Definition call {X : Type} (e : Eff X) : Prog X := Do e Ret.
Definition await {X : Type} (pd : Awaitable X) : Prog X := Await pd Ret.

Declare Scope prog_scope.
Delimit Scope prog_scope with prog.
Bind Scope prog_scope with Prog.

Notation "x <- p ;; q" := (bind p (fun x => q))
  (at level 100, p at next level, right associativity) : prog_scope.
Notation "p ;; q" := (bind p (fun _ => q))
  (at level 100, right associativity) : prog_scope.

(** Dereferencing [null] raises a TypeError. *)
Definition type_error : string := "TypeError".

(** One synchronous operation on the world; [None] is a thrown TypeError. *)
Definition perform {X : Type} (e : Eff X) (w : World) : option X * World :=
  match e in Eff T return option T * World with
  | ELog msg => (Some tt, record (ALog msg) w)
  | ESpawn s =>
      let h := length (children w) in
      (Some h, record (ASpawn h s) (set_children (children w ++ [fresh_proc s]) w))
  | EUnref h => (Some tt, record (AUnref h) (update_child h mark_unref w))
  | EReadSlot sl => (Some (read_slot sl w), w)
  | EWriteSlot sl v => (Some tt, write_slot sl v w)
  | EKillSlot sl =>
      match read_slot sl w with
      | Some h => (Some tt, record (AKill h) (update_child h signal w))
      | None => (None, w)
      end
  | EOnSlot sl hk =>
      match read_slot sl w with
      | Some h => (Some tt, record (AOn h hk) (update_child h (add_handler hk) w))
      | None => (None, w)
      end
  | EShowErrorBox title => (Some tt, record (AErrorBox title) w)
  | EHasWindow => (Some (mainWindow w), w)
  | ESendStatus m =>
      if mainWindow w then (Some tt, record (ASend m) w) else (None, w)
  | ECreateMenu => (Some tt, record ACreateMenu w)
  | ECreateWindow => (Some tt, record ACreateWindow (set_mainWindow true w))
  | ECreateTray iconExists =>
      if iconExists then (Some tt, record ACreateTray (set_tray true w))
      else (Some tt, w)
  | EQuit => (Some tt, record AQuit w)
  end.

(** Issuing an awaited operation: the request or timer is created when the
    call is made, before the task is suspended. *)
Definition issue {X : Type} (pd : Awaitable X) (w : World) : World :=
  match pd with
  | PCheck port => record (AProbe port) w
  | PTimer ms => record (ATimer ms) w
  | POpenDialog => record AOpenDialog w
  end.

(** Run a task up to its next suspension point (or to its end). *)
Fixpoint advance {A : Type} (p : Prog A) (w : World) : Prog A * World :=
  match p with
  | Ret a => (Ret a, w)
  | Throw err => (Throw err, w)
  | Do e k =>
      match perform e w with
      | (Some x, w') => advance (k x) w'
      | (None, w') => (Throw type_error, w')
      end
  | Await pd k => (Await pd k, issue pd w)
  end.

(** How a task ends: it returns, it throws (an async function then rejects
    its promise), or it stays suspended on a promise that never settles. *)
Inductive Result (A : Type) : Type :=
| Returned (a : A)
| Threw (err : string)
| Hung.
Arguments Returned {A} a.
Arguments Threw {A} err.
Arguments Hung {A}.

(** Run one task alone to its end: probe number [n] is answered by
    [oracle n], timers fire, the file dialog is cancelled.  The last
    component counts the probes issued so far. *)
Fixpoint exec {A : Type} (p : Prog A) (oracle : nat -> NetOutcome)
    (n : nat) (w : World) : Result A * World * nat :=
  match p with
  | Ret a => (Returned a, w, n)
  | Throw err => (Threw err, w, n)
  | Do e k =>
      match perform e w with
      | (Some x, w') => exec (k x) oracle n w'
      | (None, w') => (Threw type_error, w', n)
      end
  | Await pd k =>
      match pd in Awaitable T return (T -> Prog A) -> Result A * World * nat with
      | PCheck port => fun k =>
          match checkService port (oracle n) with
          | Resolved b => exec (k b) oracle (S n) (record (AProbe port) w)
          | Rejected err => (Threw err, record (AProbe port) w, S n)
          | Pending => (Hung, record (AProbe port) w, S n)
          end
      | PTimer ms => fun k => exec (k tt) oracle n (record (ATimer ms) w)
      | POpenDialog => fun k => exec (k []) oracle n (record AOpenDialog w)
      end k
  end.

End Js.
Export Js.

(* ===================================================================== *)
(** ** main.js and preload.js *)
(* ===================================================================== *)

Module Main.

Local Open Scope prog_scope.

Definition BACKEND_PORT : Z := 8000.
Definition FRONTEND_PORT : Z := 3000.
Definition OLLAMA_PORT : Z := 11434.

(** Default value of the parameter [maxAttempts] of [waitForService]. *)
Definition DEFAULT_MAX_ATTEMPTS : Z := 30.

Definition path_join (a b : string) : string := a +:+ "/" +:+ b.

(** [log(message)]: the message goes to the console and, behind a timestamp,
    to app.log. *)
Definition log (message : string) : Prog unit := call (ELog message).

(** The body of the [for] loop of [waitForService], entered with counter
    [i].  [fuel] bounds the iterations; running out of it while the loop
    condition still holds is reported as a throw, and [waitForService] gives
    enough of it (lemma [waitForService_returns]). *)
Fixpoint waitForService_loop (fuel : nat) (port i maxAttempts : Z)
  : Prog bool :=
  if i <? maxAttempts then
    match fuel with
    | O => Throw "out of fuel"
    | S fuel' =>
        ok <- await (PCheck port) ;;
        if ok : bool then Ret true
        else await (PTimer 1000) ;;
             waitForService_loop fuel' port (i + 1) maxAttempts
    end
  else Ret false.

Definition waitForService (port maxAttempts : Z) : Prog bool :=
  waitForService_loop (Z.to_nat maxAttempts) port 0 maxAttempts.

Definition ollamaSpec : SpawnSpec :=
  mkSpawn "ollama" ["serve"] None [] true false false.

Definition checkOllama : Prog bool :=
  isRunning <- await (PCheck OLLAMA_PORT) ;;
  if isRunning : bool then
    log "Ollama is already running" ;;
    Ret true
  else
    log "Attempting to start Ollama..." ;;
    ollamaProcess <- call (ESpawn ollamaSpec) ;;
    call (EUnref ollamaProcess) ;;
    await (PTimer 3000) ;;
    started <- await (PCheck OLLAMA_PORT) ;;
    if started : bool then
      log "Ollama started successfully" ;;
      Ret true
    else
      log "Failed to start Ollama" ;;
      Ret false.

Section WithConfig.

Variable cfg : Config.

Definition backendPath : string := path_join (resourcesPath cfg) "backend".
Definition frontendPath : string := path_join (resourcesPath cfg) "frontend".

Definition pythonCmd : string :=
  if String.eqb (platform cfg) "darwin" then "python3" else "python".

Definition backendSpec : SpawnSpec :=
  mkSpawn pythonCmd ["-m"; "app.main"] (Some backendPath)
    [("PYTHONUNBUFFERED", "1");
     ("CHROMA_DB_PATH", path_join (userDataPath cfg) "chroma_db");
     ("UPLOAD_DIR", path_join (userDataPath cfg) "uploads")]
    false false true.

Definition frontendSpec : SpawnSpec :=
  mkSpawn "npm" ["run"; "dev"] (Some frontendPath) [] false true true.

Definition startBackend : Prog bool :=
  running <- await (PCheck BACKEND_PORT) ;;
  if running : bool then
    log "Backend already running" ;;
    Ret true
  else
    log "Starting backend..." ;;
    child <- call (ESpawn backendSpec) ;;
    call (EWriteSlot backendSlot (Some child)) ;;
    call (EOnSlot backendSlot (OnStdout "Backend")) ;;
    call (EOnSlot backendSlot (OnStderr "Backend Error")) ;;
    call (EOnSlot backendSlot OnErrorLog) ;;
    call (EOnSlot backendSlot OnExitClearBackend) ;;
    waitForService BACKEND_PORT DEFAULT_MAX_ATTEMPTS.

Definition startFrontend : Prog bool :=
  if isDev cfg then
    running <- await (PCheck FRONTEND_PORT) ;;
    if running : bool then
      log "Frontend dev server already running" ;;
      Ret true
    else
      log "Starting frontend dev server..." ;;
      child <- call (ESpawn frontendSpec) ;;
      call (EWriteSlot frontendSlot (Some child)) ;;
      call (EOnSlot frontendSlot (OnStdout "Frontend")) ;;
      call (EOnSlot frontendSlot (OnStderr "Frontend Error")) ;;
      waitForService FRONTEND_PORT DEFAULT_MAX_ATTEMPTS
  else Ret true.

Definition createWindow : Prog unit := call ECreateWindow.
Definition createMenu : Prog unit := call ECreateMenu.
Definition createTray : Prog unit := call (ECreateTray (trayIconExists cfg)).

Definition checkAllServices : Prog StatusResult :=
  ollama <- await (PCheck OLLAMA_PORT) ;;
  backend <- await (PCheck BACKEND_PORT) ;;
  hasWindow <- call EHasWindow ;;
  (if hasWindow : bool
   then call (ESendStatus (mkStatusMsg ollama backend true))
   else Ret tt) ;;
  Ret (mkStatusResult ollama backend).

(** [if (slot) { slot.kill(); slot = null; }] *)
Definition killAndClear (sl : Slot) : Prog unit :=
  v <- call (EReadSlot sl) ;;
  match v with
  | Some _ => call (EKillSlot sl) ;; call (EWriteSlot sl None)
  | None => Ret tt
  end.

(** The handler of 'restart-backend'. *)
Definition restartBackendHandler : Prog bool :=
  killAndClear backendSlot ;;
  startBackend.

(** The callback of [app.whenReady()]. *)
Definition whenReady : Prog unit :=
  log "App starting..." ;;
  createMenu ;;
  createWindow ;;
  ollamaReady <- checkOllama ;;
  (if negb ollamaReady then call (EShowErrorBox "Ollama Not Found")
   else Ret tt) ;;
  backendReady <- startBackend ;;
  (if negb backendReady then call (EShowErrorBox "Backend Error")
   else Ret tt) ;;
  (if isDev cfg then startFrontend ;; Ret tt else Ret tt) ;;
  createTray ;;
  log "App ready".

(** The listener of 'before-quit'. *)
Definition beforeQuit : Prog unit :=
  log "App quitting..." ;;
  killAndClear backendSlot ;;
  killAndClear frontendSlot.

(** The listener of 'window-all-closed'. *)
Definition windowAllClosed : Prog unit :=
  if negb (String.eqb (platform cfg) "darwin") then call EQuit else Ret tt.

(** *** The IPC surface *)

Inductive Channel : Type :=
| ChGetServicesStatus     (* 'get-services-status' *)
| ChRestartBackend        (* 'restart-backend' *)
| ChOpenFileDialog        (* 'open-file-dialog' *)
| ChGetUserDataPath.      (* 'get-user-data-path' *)

(** Values the renderer can pass to a bridge method. *)
Inductive JsVal : Type :=
| JUndefined
| JString (s : string)
| JBool (b : bool)
| JNumber (z : Z).

Inductive Reply : Type :=
| RBool (b : bool)
| RStatus (r : StatusResult)
| RPaths (l : list string)
| RString (s : string).

(** [ipcMain.handle(channel, handler)].  None of the handlers declares a
    parameter for the arguments of the invocation. *)
Definition ipcHandler (ch : Channel) (args : list JsVal) : Prog Reply :=
  match ch with
  | ChGetServicesStatus => r <- checkAllServices ;; Ret (RStatus r)
  | ChRestartBackend => b <- restartBackendHandler ;; Ret (RBool b)
  | ChOpenFileDialog => paths <- await POpenDialog ;; Ret (RPaths paths)
  | ChGetUserDataPath => Ret (RString (userDataPath cfg))
  end.

(** The methods of [window.electronAPI] that invoke a channel (preload.js).
    Each is an arrow function without parameters calling
    [ipcRenderer.invoke(channel)]: what the renderer passes is dropped.  A
    name that is not a method of the object cannot be called at all. *)
Definition electronAPI (method : string) (args : list JsVal)
  : option (Channel * list JsVal) :=
  if String.eqb method "getServicesStatus" then Some (ChGetServicesStatus, [])
  else if String.eqb method "restartBackend" then Some (ChRestartBackend, [])
  else if String.eqb method "openFileDialog" then Some (ChOpenFileDialog, [])
  else if String.eqb method "getUserDataPath" then Some (ChGetUserDataPath, [])
  else None.

(** The main-process task started by a renderer call, if any. *)
Definition bridgeTask (method : string) (args : list JsVal)
  : option (Prog Reply) :=
  match electronAPI method args with
  | Some (ch, forwarded) => Some (ipcHandler ch forwarded)
  | None => None
  end.

End WithConfig.

End Main.
Export Main.

(* ===================================================================== *)
(** ** The event loop *)
(* ===================================================================== *)

Module Loop.

(** What the environment hands back when an awaited operation completes. *)
Inductive Answer : Type :=
| AnsNet (o : NetOutcome)
| AnsTimer
| AnsFiles (paths : list string).

Definition settle {X : Type} (pd : Awaitable X) (a : Answer)
  : option (PromiseState X) :=
  match pd in Awaitable T return option (PromiseState T) with
  | PCheck port =>
      match a with AnsNet o => Some (checkService port o) | _ => None end
  | PTimer _ =>
      match a with AnsTimer => Some (Resolved tt) | _ => None end
  | POpenDialog =>
      match a with AnsFiles l => Some (Resolved l) | _ => None end
  end.

(** The code that runs when the promise a task waits on settles. *)
Definition resume {A : Type} (t : Prog A) (a : Answer) : option (Prog A) :=
  match t with
  | Await pd k =>
      match settle pd a with
      | Some (Resolved x) => Some (k x)
      | Some (Rejected err) => Some (Throw err)
      | Some Pending => None
      | None => None
      end
  | _ => None
  end.

(** A task of the loop ends with the reply of an IPC handler, or with
    nothing for a lifecycle callback. *)
Definition Task : Type := Prog (option Reply).

Definition replying (p : Prog Reply) : Task :=
  bind p (fun r => Ret (Some r)).

Definition silent {A : Type} (p : Prog A) : Task :=
  bind p (fun _ => Ret None).

Record State : Type := mkState {
  world : World;
  tasks : list Task;     (* suspended at an await, or finished *)
  started : bool;        (* the whenReady callback has run *)
  quitting : bool        (* 'before-quit' has been delivered *)
}.

Definition initial : State := mkState initial_world [] false false.

Inductive Event : Type :=
| EvReady
| EvInvoke (method : string) (args : list JsVal)  (* renderer calls the bridge *)
| EvTrayCheck                                     (* tray item 'Check Services' *)
| EvResume (i : nat) (a : Answer)                 (* task i's promise settles *)
| EvChildExit (h : Handle) (code : option Z)
| EvChildStdout (h : Handle) (data : string)
| EvChildStderr (h : Handle) (data : string)
| EvChildError (h : Handle) (message : string)
| EvWindowClosed
| EvActivate
| EvWindowAllClosed
| EvBeforeQuit.

Definition code_text (code : option Z) : string :=
  match code with
  | Some z => pretty z
  | None => "null"
  end.

Definition is_exit_handler (hk : HandlerKind) : bool :=
  match hk with OnExitClearBackend => true | _ => false end.

Definition is_error_handler (hk : HandlerKind) : bool :=
  match hk with OnErrorLog => true | _ => false end.

(** The 'exit' listener installed by [startBackend]:
    [log(`Backend exited with code ${code}`); backendProcess = null]. *)
Definition onBackendExit (code : option Z) (w : World) : World :=
  write_slot backendSlot None
    (record (ALog ("Backend exited with code " +:+ code_text code)) w).

Definition run_exit_handlers (p : Proc) (code : option Z) (w : World) : World :=
  fold_left
    (fun w hk => if is_exit_handler hk then onBackendExit code w else w)
    (p_handlers p) w.

Definition run_stdout_handlers (p : Proc) (data : string) (w : World) : World :=
  fold_left
    (fun w hk =>
       match hk with
       | OnStdout tag => record (ALog ("[" +:+ tag +:+ "] " +:+ data)) w
       | _ => w
       end)
    (p_handlers p) w.

Definition run_stderr_handlers (p : Proc) (data : string) (w : World) : World :=
  fold_left
    (fun w hk =>
       match hk with
       | OnStderr tag => record (ALog ("[" +:+ tag +:+ "] " +:+ data)) w
       | _ => w
       end)
    (p_handlers p) w.

(** An 'error' event without a listener is thrown and reaches the
    'uncaughtException' listener of the process, which logs it. *)
Definition run_error_handlers (p : Proc) (message : string) (w : World) : World :=
  if existsb is_error_handler (p_handlers p)
  then record (ALog ("Backend process error: " +:+ message)) w
  else record (ALog ("Uncaught exception: " +:+ message)) w.

Section WithConfig.

Variable cfg : Config.

(** Start a task: it runs synchronously up to its first [await]. *)
Definition start_task (p : Task) (st : State) : State :=
  let '(t, w) := advance p (world st) in
  mkState w (tasks st ++ [t]) (started st) (quitting st).

Definition with_world (w : World) (st : State) : State :=
  mkState w (tasks st) (started st) (quitting st).

(** Run a synchronous listener; an exception it throws is logged by the
    'uncaughtException' listener. *)
Definition run_listener (p : Prog unit) (w : World) : World :=
  snd (advance p w).

Definition deliver_quit (st : State) : State :=
  mkState (run_listener (beforeQuit) (world st)) (tasks st) (started st) true.

Definition step (ev : Event) (st : State) : option State :=
  if quitting st then None else
  match ev with
  | EvReady =>
      if started st then None
      else Some (start_task (silent (whenReady cfg))
                   (mkState (world st) (tasks st) true (quitting st)))
  | EvInvoke method args =>
      if mainWindow (world st) then
        match bridgeTask cfg method args with
        | Some p => Some (start_task (replying p) st)
        | None => Some st
        end
      else None
  | EvTrayCheck =>
      if tray (world st) then Some (start_task (silent checkAllServices) st)
      else None
  | EvResume i a =>
      match tasks st !! i with
      | Some t =>
          match resume t a with
          | Some p =>
              let '(t', w) := advance p (world st) in
              Some (mkState w (<[i := t']> (tasks st)) (started st) (quitting st))
          | None => None
          end
      | None => None
      end
  | EvChildExit h code =>
      match children (world st) !! h with
      | Some p =>
          if live p then
            Some (with_world
                    (run_exit_handlers p code
                       (update_child h (mark_exit code) (world st))) st)
          else None
      | None => None
      end
  | EvChildStdout h data =>
      match children (world st) !! h with
      | Some p => Some (with_world (run_stdout_handlers p data (world st)) st)
      | None => None
      end
  | EvChildStderr h data =>
      match children (world st) !! h with
      | Some p => Some (with_world (run_stderr_handlers p data (world st)) st)
      | None => None
      end
  | EvChildError h message =>
      match children (world st) !! h with
      | Some p => Some (with_world (run_error_handlers p message (world st)) st)
      | None => None
      end
  | EvWindowClosed =>
      if mainWindow (world st)
      then Some (with_world (set_mainWindow false (world st)) st)
      else None
  | EvActivate =>
      if mainWindow (world st) then Some st
      else Some (with_world (run_listener createWindow (world st)) st)
  | EvWindowAllClosed =>
      if mainWindow (world st) then None
      else
        let w := run_listener (windowAllClosed cfg) (world st) in
        if negb (String.eqb (platform cfg) "darwin")
        then Some (deliver_quit (with_world w st))
        else Some (with_world w st)
  | EvBeforeQuit => Some (deliver_quit st)
  end.

(** Deliver a list of events in order. *)
Fixpoint run (evs : list Event) (st : State) : option State :=
  match evs with
  | [] => Some st
  | ev :: evs' =>
      match step ev st with
      | Some st' => run evs' st'
      | None => None
      end
  end.

Inductive reachable : State -> Prop :=
| reachable_initial : reachable initial
| reachable_step ev st st' :
    reachable st -> step ev st = Some st' -> reachable st'.

End WithConfig.

End Loop.
Export Loop.

(* ===================================================================== *)
(** ** Observations on runs *)
(* ===================================================================== *)

(** The definitions below are the vocabulary of the properties: what a run
    did, read off the history and the table of children. *)

Module Obs.

(** The boolean [checkService] resolves to on the outcome [o]. *)
Definition responded (o : NetOutcome) : bool :=
  match o with Responded => true | _ => false end.

(** The ports probed by a list of actions, in order. *)
Definition probes (acts : list Action) : list Z :=
  omap (fun a => match a with AProbe port => Some port | _ => None end) acts.

(** The commands spawned by a list of actions, in order. *)
Definition spawns (acts : list Action) : list string :=
  omap (fun a => match a with ASpawn _ s => Some (sp_cmd s) | _ => None end)
       acts.

(** The children signalled by a list of actions, in order. *)
Definition kills (acts : list Action) : list Handle :=
  omap (fun a => match a with AKill h => Some h | _ => None end) acts.

(** A world that differs from [w] by further actions only. *)
Definition with_actions (acts : list Action) (w : World) : World :=
  mkWorld (mainWindow w) (tray w) (backendProcess w) (frontendProcess w)
          (children w) (history w ++ acts).

(** [m] failed attempts: a probe, then the pause of one second. *)
Fixpoint failed_attempts (port : Z) (m : nat) : list Action :=
  match m with
  | O => []
  | S m' => AProbe port :: ATimer 1000 :: failed_attempts port m'
  end.

(** The outcome of a call of [waitForService]: [m] failed attempts, then
    either a successful probe or the end of the loop. *)
Definition wait_actions (port : Z) (b : bool) (m : nat) : list Action :=
  if b then failed_attempts port m ++ [AProbe port] else failed_attempts port m.

(** A probe of [port] answered by [o] resolves to true, respectively to
    false. *)
Definition probe_succeeds (port : Z) (o : NetOutcome) : Prop :=
  checkService port o = Resolved true.

Definition probe_fails (port : Z) (o : NetOutcome) : Prop :=
  checkService port o = Resolved false.

(** The child, the actions and the world of the fallback launch in
    [checkOllama], up to its second probe. *)
Definition ollama_child : Proc :=
  mkProc ollamaSpec [] true false None.

Definition ollama_launch (h : Handle) : list Action :=
  [AProbe OLLAMA_PORT; ALog "Attempting to start Ollama..."; ASpawn h ollamaSpec;
   AUnref h; ATimer 3000; AProbe OLLAMA_PORT].

Definition after_ollama_launch (w : World) : World :=
  mkWorld (mainWindow w) (tray w) (backendProcess w) (frontendProcess w)
          (children w ++ [ollama_child])
          (history w ++ ollama_launch (length (children w))).

(** [if (slot) { slot.kill(); slot = null; }] on a world. *)
Definition kill_and_clear (sl : Slot) (w : World) : World :=
  match read_slot sl w with
  | Some h => write_slot sl None (record (AKill h) (update_child h signal w))
  | None => w
  end.

(** The signal sent to a stored handle, if one is stored. *)
Definition kill_of (v : option Handle) : list Action :=
  match v with Some h => [AKill h] | None => [] end.

(** The three services the shell supervises. *)
Inductive Service : Type := Runtime | Backend | Assets.

(** The child was launched as [ollama serve]. *)
Definition is_runtime (p : Proc) : bool :=
  String.eqb (sp_cmd (p_spec p)) "ollama".

(** No runtime child has been signalled, and the stored handles refer to
    children that are not the runtime. *)
Definition runtime_untouched (w : World) : Prop :=
  (forall (h : Handle) (p : Proc),
     children w !! h = Some p -> is_runtime p = true -> p_signalled p = false)
  /\ (forall (sl : Slot) (h : Handle),
        read_slot sl w = Some h ->
        exists p : Proc, children w !! h = Some p /\ is_runtime p = false).

(** The number of children spawned so far is [N]. *)
Definition children_count (N : nat) (w : World) : Prop :=
  length (children w) = N.

(** The events whose callbacks call [startBackend]: the start of the
    application and a restart request of the renderer. *)
Definition starts_backend (ev : Event) : bool :=
  match ev with
  | EvReady => true
  | EvInvoke method _ => String.eqb method "restartBackend"
  | _ => false
  end.

(** The task has run to its end. *)
Definition finished (t : Task) : Prop :=
  match t with
  | Ret _ | Throw _ => True
  | Do _ _ | Await _ _ => False
  end.

(** The total of the pauses started by a list of actions, in milliseconds. *)
Definition timer_total (acts : list Action) : Z :=
  fold_right (fun a t => match a with ATimer ms => ms + t | _ => t end) 0 acts.

(** The titles of the error boxes shown by a list of actions, in order. *)
Definition error_boxes (acts : list Action) : list string :=
  omap (fun a => match a with AErrorBox title => Some title | _ => None end)
       acts.

(** One of the [k] probes numbered from [n] on gets a response. *)
Fixpoint any_responded (oracle : nat -> NetOutcome) (n k : nat) : bool :=
  match k with
  | O => false
  | S k' => responded (oracle n) || any_responded oracle (S n) k'
  end.

(** [wpt p Q w]: started in [w], the task [p] never throws, whatever the
    world is each time it is resumed, and [Q] holds if it returns.  A promise
    it awaits must be one that is never rejected. *)
Fixpoint wpt {A : Type} (p : Prog A) (Q : A -> World -> Prop) (w : World)
  : Prop :=
  match p with
  | Ret a => Q a w
  | Throw _ => False
  | Do e k =>
      match perform e w with
      | (Some x, w') => wpt (k x) Q w'
      | (None, _) => False
      end
  | Await pd k =>
      (forall (a : Answer) (err : string), settle pd a <> Some (Rejected err))
      /\ forall x w', wpt (k x) Q w'
  end.

(** The task throws in no world. *)
Definition never_throws {A : Type} (p : Prog A) : Prop :=
  forall w : World, wpt p (fun _ _ => True) w.

(** A task of the loop that has not thrown and will not throw when it is
    resumed. *)
Definition task_fine (t : Task) : Prop :=
  (forall err : string, t <> Throw err)
  /\ forall (a : Answer) (p : Task), resume t a = Some p -> never_throws p.

Section WithConfig.

Variable cfg : Config.

(** The backend child once [startBackend] has attached its listeners. *)
Definition backend_child : Proc :=
  mkProc (backendSpec cfg)
    [OnStdout "Backend"; OnStderr "Backend Error"; OnErrorLog; OnExitClearBackend]
    false false None.

Definition frontend_child : Proc :=
  mkProc (frontendSpec cfg) [OnStdout "Frontend"; OnStderr "Frontend Error"]
    false false None.

(** What [startBackend] does between a failed first probe and the call of
    [waitForService], for the new handle [h]. *)
Definition backend_launch (h : Handle) : list Action :=
  [AProbe BACKEND_PORT; ALog "Starting backend..."; ASpawn h (backendSpec cfg);
   AOn h (OnStdout "Backend"); AOn h (OnStderr "Backend Error");
   AOn h OnErrorLog; AOn h OnExitClearBackend].

Definition after_backend_launch (w : World) : World :=
  mkWorld (mainWindow w) (tray w) (Some (length (children w)))
          (frontendProcess w) (children w ++ [backend_child])
          (history w ++ backend_launch (length (children w))).

Definition frontend_launch (h : Handle) : list Action :=
  [AProbe FRONTEND_PORT; ALog "Starting frontend dev server...";
   ASpawn h (frontendSpec cfg);
   AOn h (OnStdout "Frontend"); AOn h (OnStderr "Frontend Error")].

Definition after_frontend_launch (w : World) : World :=
  mkWorld (mainWindow w) (tray w) (backendProcess w)
          (Some (length (children w))) (children w ++ [frontend_child])
          (history w ++ frontend_launch (length (children w))).

(** A probe concerns the service of its port, a spawn the service of its
    command; the other actions concern none. *)
Definition service_of (a : Action) : option Service :=
  match a with
  | AProbe port =>
      if port =? OLLAMA_PORT then Some Runtime
      else if port =? BACKEND_PORT then Some Backend
      else if port =? FRONTEND_PORT then Some Assets
      else None
  | ASpawn _ s =>
      if String.eqb (sp_cmd s) "ollama" then Some Runtime
      else if String.eqb (sp_cmd s) (pythonCmd cfg) then Some Backend
      else if String.eqb (sp_cmd s) "npm" then Some Assets
      else None
  | _ => None
  end.

Definition service_steps (acts : list Action) : list Service :=
  omap service_of acts.

(** The actions of [createTray(); log('App ready')]. *)
Definition startup_tail : list Action :=
  (if trayIconExists cfg then [ACreateTray] else []) ++ [ALog "App ready"].

(** The body of [startBackend] after its first [await]. *)
Definition startBackend_after_probe (running : bool) : Prog bool :=
  (if running then
     log "Backend already running" ;;
     Ret true
   else
     log "Starting backend..." ;;
     child <- call (ESpawn (backendSpec cfg)) ;;
     call (EWriteSlot backendSlot (Some child)) ;;
     call (EOnSlot backendSlot (OnStdout "Backend")) ;;
     call (EOnSlot backendSlot (OnStderr "Backend Error")) ;;
     call (EOnSlot backendSlot OnErrorLog) ;;
     call (EOnSlot backendSlot OnExitClearBackend) ;;
     waitForService BACKEND_PORT DEFAULT_MAX_ATTEMPTS)%prog.

(** The restart task as it sits in the loop after its synchronous part. *)
Definition restart_suspended : Task :=
  Await (PCheck BACKEND_PORT)
    (fun running =>
       replying (bind (startBackend_after_probe running)
                      (fun b => Ret (RBool b)))).

(** The child was launched with the backend command. *)
Definition is_backend (p : Proc) : bool :=
  String.eqb (sp_cmd (p_spec p)) (pythonCmd cfg).

(** The backend children that have not exited. *)
Definition live_backends (w : World) : list Proc :=
  filter (fun p => live p && is_backend p = true) (children w).

(** The three shapes a child can have between two callbacks: the runtime
    launched by [checkOllama], detached, unreferenced and without listeners;
    the backend with its four listeners; the dev server with its two. *)
Definition child_ok (p : Proc) : Prop :=
  (p_spec p = ollamaSpec /\ p_handlers p = [] /\ p_unref p = true)
  \/ (p_spec p = backendSpec cfg
      /\ p_handlers p
         = [OnStdout "Backend"; OnStderr "Backend Error"; OnErrorLog;
            OnExitClearBackend]
      /\ p_unref p = false)
  \/ (p_spec p = frontendSpec cfg
      /\ p_handlers p = [OnStdout "Frontend"; OnStderr "Frontend Error"]
      /\ p_unref p = false).

(** Every child has one of the three shapes, [backendProcess] refers to a
    backend child and [frontendProcess] to a dev-server child. *)
Definition well_formed (w : World) : Prop :=
  Forall child_ok (children w)
  /\ (forall h : Handle,
        backendProcess w = Some h ->
        exists p : Proc, children w !! h = Some p /\ p_spec p = backendSpec cfg)
  /\ (forall h : Handle,
        frontendProcess w = Some h ->
        exists p : Proc, children w !! h = Some p /\ p_spec p = frontendSpec cfg).

End WithConfig.

Section WithInvariant.

(** [Inv] is a property of the world that is to hold whenever the loop is
    between two callbacks. *)
Variable Inv : World -> Prop.

(** [wp p Q w]: started in [w], the task [p] keeps [Inv] at each of its
    suspension points, whatever the other callbacks did to the world while it
    was suspended (as long as they kept [Inv]), and [Q] holds if it returns.
    A throw ends the task and must leave [Inv]. *)
Fixpoint wp {A : Type} (p : Prog A) (Q : A -> World -> Prop) (w : World)
  : Prop :=
  match p with
  | Ret a => Q a w
  | Throw _ => Inv w
  | Do e k =>
      match perform e w with
      | (Some x, w') => wp (k x) Q w'
      | (None, w') => Inv w'
      end
  | Await pd k =>
      Inv (issue pd w) /\ forall x w', Inv w' -> wp (k x) Q w'
  end.

(** A task is safe when it keeps [Inv] from any world satisfying it. *)
Definition safe {A : Type} (p : Prog A) : Prop :=
  forall w : World, Inv w -> wp p (fun _ w' => Inv w') w.

(** A suspended task is safe when what runs at its resumption is. *)
Definition resumable_safe (t : Task) : Prop :=
  forall (a : Answer) (p : Task), resume t a = Some p -> safe p.

(** The invariant of a state of the loop. *)
Definition state_inv (st : State) : Prop :=
  Inv (world st) /\ Forall resumable_safe (tasks st).

(** The closure properties an invariant needs for the callbacks that start
    no child: bookkeeping, window changes, exits, signalling and clearing a
    stored handle all keep it. *)
Record stable : Prop := mkStable {
  stable_record : forall a w, Inv w -> Inv (record a w);
  stable_window : forall b w, Inv w -> Inv (set_mainWindow b w);
  stable_tray : forall b w, Inv w -> Inv (set_tray b w);
  stable_exit : forall h code w, Inv w -> Inv (update_child h (mark_exit code) w);
  stable_clear : forall sl w, Inv w -> Inv (write_slot sl None w);
  stable_signal : forall sl h w,
    Inv w -> read_slot sl w = Some h -> Inv (update_child h signal w)
}.

End WithInvariant.

(** *** Concrete configurations, worlds and runs *)

(** A packaged macOS build, and a development build on another platform. *)
Definition mac_release : Config :=
  mkConfig false "darwin" true "/Users/u/Library/Application Support/app" "/res".

Definition linux_dev : Config :=
  mkConfig true "linux" false "/home/u/.config/app" "/src".

(** A world in which the backend child 0 of a macOS build is running and
    its handle is stored. *)
Definition backend_running : World :=
  mkWorld true true (Some 0%nat) None [backend_child mac_release] [].

(** The application starts; the runtime answers; the backend port is down,
    so the backend is spawned (child 0); its port then answers. *)
Definition startup_events : list Event :=
  [EvReady; EvResume 0%nat (AnsNet Responded); EvResume 0%nat (AnsNet Refused);
   EvResume 0%nat (AnsNet Responded)].

(** Then the renderer asks for a restart, and the probe made by the restart
    finds the port down: the signalled child has closed its listener and has
    not exited yet. *)
Definition restart_events : list Event :=
  startup_events
  ++ [EvInvoke "restartBackend" []; EvResume 1%nat (AnsNet Refused)].

(** Then the old child exits. *)
Definition restart_then_exit_events : list Event :=
  restart_events ++ [EvChildExit 0%nat None].

(** After start-up the backend exits with code 1; the tray and the renderer
    then check the status and find the backend port down. *)
Definition exit_then_checks : list Event :=
  [EvChildExit 0%nat (Some 1);
   EvTrayCheck; EvResume 1%nat (AnsNet Responded); EvResume 1%nat (AnsNet Refused);
   EvInvoke "getServicesStatus" [];
   EvResume 2%nat (AnsNet Responded); EvResume 2%nat (AnsNet Refused)].

(** After a start-up on macOS: the state the witnesses below use. *)
Definition after_startup : State :=
  Eval vm_compute in
    match run mac_release startup_events initial with
    | Some st => st
    | None => initial
    end.

(** After a start-up and a restart whose probe found the port down: child 0
    is signalled and alive, child 1 is stored. *)
Definition after_restart : State :=
  Eval vm_compute in
    match run mac_release restart_events initial with
    | Some st => st
    | None => initial
    end.

(** After a start-up and two restart requests sent one after the other:
    tasks 1 and 2 are the two restart handlers, each suspended on its
    probe. *)
Definition two_requests_events : list Event :=
  startup_events
  ++ [EvInvoke "restartBackend" []; EvInvoke "restartBackend" []].

Definition after_two_requests : State :=
  Eval vm_compute in
    match run mac_release two_requests_events initial with
    | Some st => st
    | None => initial
    end.

(** The boolean a request event settles the probe to, when it comes
    first. *)
Definition event_value (ev : ReqEvent) : bool :=
  match ev with EvResponse => true | EvError | EvTimeout => false end.

End Obs.
Export Obs.

(* ===================================================================== *)
(** ** Properties of the port prober *)
(* ===================================================================== *)

Section PortProber.

(** Once settled, a promise ignores every later event. *)
Lemma settled_promise_is_final (evs : list ReqEvent) (b : bool) :
  fold_left on_request_event evs (Resolved b) = Resolved b.
Proof.
  induction evs as [|ev evs IH]; simpl; [reflexivity|].
  destruct ev; simpl; exact IH.
Qed.

(** The first event decides, whatever follows it. *)
Lemma checkService_promise_first (ev : ReqEvent) (evs : list ReqEvent) :
  checkService_promise (ev :: evs)
  = Resolved (match ev with EvResponse => true | _ => false end).
Proof.
  unfold checkService_promise; simpl.
  destruct ev; simpl; apply settled_promise_is_final.
Qed.

Lemma checkService_value (port : Z) (o : NetOutcome) :
  valid_port port = true -> checkService port o = Resolved (responded o).
Proof. unfold checkService. intros ->. destruct o; reflexivity. Qed.

Lemma checkService_bad_port (port : Z) (o : NetOutcome) :
  valid_port port = false -> checkService port o = Rejected "ERR_SOCKET_BAD_PORT".
Proof. unfold checkService. intros ->. reflexivity. Qed.

(** A probe that settles to a boolean was made on a port in range. *)
Lemma resolved_valid_port (port : Z) (o : NetOutcome) (b : bool) :
  checkService port o = Resolved b -> valid_port port = true.
Proof.
  unfold checkService. destruct (valid_port port); [reflexivity|discriminate].
Qed.

(** C3, as amended.  For every port that [http.request] accepts (0 to
    65535) and every outcome of the request, [checkService] settles to a
    boolean and is not rejected; the boolean is true exactly when the HTTP
    response arrived, and it is false in every other case, an established
    connection that stays silent included.  For any other port the promise is
    rejected, whatever listens. *)
Theorem checkService_true_iff_response (port : Z) (o : NetOutcome) :
  if valid_port port
  then exists b : bool,
         checkService port o = Resolved b
         /\ (b = true <-> o = Responded)
         /\ (b = false <-> o = Silent \/ established o = false)
  else checkService port o = Rejected "ERR_SOCKET_BAD_PORT".
Proof.
  destruct (valid_port port) eqn:Hv; [|apply checkService_bad_port, Hv].
  exists (responded o). split; [apply checkService_value, Hv|].
  destruct o; simpl; split; split; intros H;
    try reflexivity; try discriminate; auto;
    destruct H as [H|H]; discriminate.
Qed.

(** C3, as stated, fails: a listener that accepts the connection and never
    answers gives an established connection and a probe that is false; and a
    port out of range gives a rejected promise. *)
Lemma checkService_established_but_false :
  established Silent = true
  /\ checkService 8000 Silent = Resolved false
  /\ checkService 70000 Responded = Rejected "ERR_SOCKET_BAD_PORT"
  /\ ~ (forall (port : Z) (o : NetOutcome),
          checkService port o = Resolved true <-> established o = true).
Proof.
  split; [reflexivity|]. split; [reflexivity|]. split; [reflexivity|].
  intros H. destruct (H 8000 Silent) as [_ H2].
  specialize (H2 eq_refl). discriminate H2.
Qed.

End PortProber.

(* ===================================================================== *)
(** ** Running one task *)
(* ===================================================================== *)

Section Exec.

Lemma probes_app (l1 l2 : list Action) :
  probes (l1 ++ l2) = probes l1 ++ probes l2.
Proof. apply omap_app. Qed.

Lemma spawns_app (l1 l2 : list Action) :
  spawns (l1 ++ l2) = spawns l1 ++ spawns l2.
Proof. apply omap_app. Qed.

Lemma kills_app (l1 l2 : list Action) :
  kills (l1 ++ l2) = kills l1 ++ kills l2.
Proof. apply omap_app. Qed.

Lemma exec_bind {A B : Type} (p : Prog A) (f : A -> Prog B)
    (oracle : nat -> NetOutcome) (n : nat) (w : World) :
  exec (bind p f) oracle n w
  = match exec p oracle n w with
    | (Returned a, w', n') => exec (f a) oracle n' w'
    | (Threw err, w', n') => (Threw err, w', n')
    | (Hung, w', n') => (Hung, w', n')
    end.
Proof.
  revert n w.
  induction p as [a|err|X e k IH|X pd k IH]; intros n w; simpl.
  - reflexivity.
  - reflexivity.
  - destruct (perform e w) as [[x|] w']; [apply IH|reflexivity].
  - destruct pd; simpl.
    + destruct (checkService port (oracle n)); [reflexivity|apply IH|reflexivity].
    + apply IH.
    + apply IH.
Qed.

(** One awaited probe. *)
Lemma exec_probe {A : Type} (port : Z) (k : bool -> Prog A)
    (oracle : nat -> NetOutcome) (n : nat) (w : World) :
  valid_port port = true ->
  exec (Await (PCheck port) k) oracle n w
  = exec (k (responded (oracle n))) oracle (S n) (record (AProbe port) w).
Proof. intros Hv. simpl. rewrite checkService_value by exact Hv. reflexivity. Qed.

End Exec.

(* ===================================================================== *)
(** ** The readiness waiter *)
(* ===================================================================== *)

Section ReadinessWaiter.

Lemma record_with_actions (a : Action) (w : World) :
  record a w = with_actions [a] w.
Proof. reflexivity. Qed.

Lemma with_actions_app (l1 l2 : list Action) (w : World) :
  with_actions l2 (with_actions l1 w) = with_actions (l1 ++ l2) w.
Proof. unfold with_actions; simpl. rewrite <- app_assoc. reflexivity. Qed.

Lemma with_actions_nil (w : World) : with_actions [] w = w.
Proof. destruct w; unfold with_actions; simpl. rewrite app_nil_r. reflexivity. Qed.

Lemma probes_failed_attempts (port : Z) (m : nat) :
  probes (failed_attempts port m) = repeat port m.
Proof. induction m as [|m IH]; simpl; [reflexivity|]. f_equal. exact IH. Qed.

Lemma spawns_failed_attempts (port : Z) (m : nat) :
  spawns (failed_attempts port m) = [].
Proof. induction m as [|m IH]; simpl; [reflexivity|exact IH]. Qed.

Lemma kills_failed_attempts (port : Z) (m : nat) :
  kills (failed_attempts port m) = [].
Proof. induction m as [|m IH]; simpl; [reflexivity|exact IH]. Qed.

Lemma probe_succeeds_responded port o :
  probe_succeeds port o -> responded o = true.
Proof.
  unfold probe_succeeds. intros H.
  rewrite (checkService_value _ _ (resolved_valid_port _ _ _ H)) in H.
  injection H as H. exact H.
Qed.

Lemma probe_fails_responded port o :
  probe_fails port o -> responded o = false.
Proof.
  unfold probe_fails. intros H.
  rewrite (checkService_value _ _ (resolved_valid_port _ _ _ H)) in H.
  injection H as H. exact H.
Qed.

(** One turn of the loop whose condition holds. *)
Lemma waitForService_loop_turn (fuel : nat) (port i maxAttempts : Z)
    (oracle : nat -> NetOutcome) (n : nat) (w : World) :
  valid_port port = true ->
  i < maxAttempts ->
  exec (waitForService_loop (S fuel) port i maxAttempts) oracle n w
  = if responded (oracle n)
    then (Returned true, with_actions [AProbe port] w, S n)
    else exec (waitForService_loop fuel port (i + 1) maxAttempts) oracle (S n)
           (with_actions [AProbe port; ATimer 1000] w).
Proof.
  intros Hv Hlt. apply Z.ltb_lt in Hlt.
  cbn [waitForService_loop]. rewrite Hlt.
  cbn [await bind]. rewrite exec_probe by exact Hv.
  destruct (responded (oracle n)).
  - reflexivity.
  - cbn [exec bind].
    rewrite !record_with_actions, with_actions_app. reflexivity.
Qed.

(** The [k]-th probe is the first to succeed. *)
Lemma waitForService_loop_success (port maxAttempts : Z)
    (oracle : nat -> NetOutcome) (k : nat) :
  forall (fuel : nat) (i : Z) (n : nat) (w : World),
    (S k <= fuel)%nat -> i + Z.of_nat k < maxAttempts ->
    (forall j : nat, (j < k)%nat -> probe_fails port (oracle (n + j)%nat)) ->
    probe_succeeds port (oracle (n + k)%nat) ->
    exec (waitForService_loop fuel port i maxAttempts) oracle n w
    = (Returned true,
       with_actions (failed_attempts port k ++ [AProbe port]) w,
       (n + S k)%nat).
Proof.
  induction k as [|k IH]; intros fuel i n w Hfuel Hi Hfail Hok;
    pose proof (resolved_valid_port _ _ _ Hok) as Hv.
  - destruct fuel as [|fuel]; [lia|].
    rewrite (waitForService_loop_turn _ _ _ _ _ _ _ Hv) by lia.
    rewrite Nat.add_0_r in Hok.
    rewrite (probe_succeeds_responded _ _ Hok).
    simpl. rewrite Nat.add_1_r. reflexivity.
  - destruct fuel as [|fuel]; [lia|].
    rewrite (waitForService_loop_turn _ _ _ _ _ _ _ Hv) by lia.
    pose proof (Hfail O ltac:(lia)) as H0. rewrite Nat.add_0_r in H0.
    rewrite (probe_fails_responded _ _ H0).
    rewrite (IH fuel (i + 1) (S n)).
    + rewrite with_actions_app. simpl. f_equal. lia.
    + lia.
    + lia.
    + intros j Hj. replace (S n + j)%nat with (n + S j)%nat by lia.
      apply Hfail. lia.
    + replace (S n + k)%nat with (n + S k)%nat by lia. exact Hok.
Qed.

(** Every probe fails until the loop condition does. *)
Lemma waitForService_loop_exhausted (port maxAttempts : Z)
    (oracle : nat -> NetOutcome) (r : nat) :
  forall (fuel : nat) (i : Z) (n : nat) (w : World),
    (r <= fuel)%nat -> i + Z.of_nat r = maxAttempts ->
    (forall j : nat, (j < r)%nat -> probe_fails port (oracle (n + j)%nat)) ->
    exec (waitForService_loop fuel port i maxAttempts) oracle n w
    = (Returned false, with_actions (failed_attempts port r) w, (n + r)%nat).
Proof.
  induction r as [|r IH]; intros fuel i n w Hfuel Hi Hfail.
  - assert (Hge : (i <? maxAttempts) = false) by (apply Z.ltb_ge; lia).
    destruct fuel; cbn [waitForService_loop]; rewrite Hge; simpl;
      rewrite with_actions_nil, Nat.add_0_r; reflexivity.
  - destruct fuel as [|fuel]; [lia|].
    pose proof (Hfail O ltac:(lia)) as H0. rewrite Nat.add_0_r in H0.
    rewrite (waitForService_loop_turn _ _ _ _ _ _ _
               (resolved_valid_port _ _ _ H0)) by lia.
    rewrite (probe_fails_responded _ _ H0).
    rewrite (IH fuel (i + 1) (S n)).
    + rewrite with_actions_app. simpl. f_equal. lia.
    + lia.
    + lia.
    + intros j Hj. replace (S n + j)%nat with (n + S j)%nat by lia.
      apply Hfail. lia.
Qed.

(** The fuel handed out by [waitForService] is never used up: the loop
    always ends by returning. *)
Lemma waitForService_returns (port maxAttempts : Z)
    (oracle : nat -> NetOutcome) (n : nat) (w : World) :
  valid_port port = true ->
  exists (b : bool) (m : nat),
    (m <= Z.to_nat maxAttempts)%nat
    /\ exec (waitForService port maxAttempts) oracle n w
       = (Returned b,
          with_actions (if b then failed_attempts port m ++ [AProbe port]
                        else failed_attempts port m) w,
          if b then (n + S m)%nat else (n + m)%nat).
Proof.
  intros Hv. unfold waitForService.
  assert (Hgen : forall (r : nat) (i : Z) (n : nat) (w : World),
    Z.of_nat r = Z.max 0 (maxAttempts - i) ->
    exists (b : bool) (m : nat),
      (m <= r)%nat /\ (if b then (m < r)%nat else m = r)
      /\ exec (waitForService_loop r port i maxAttempts) oracle n w
         = (Returned b,
            with_actions (if b then failed_attempts port m ++ [AProbe port]
                          else failed_attempts port m) w,
            if b then (n + S m)%nat else (n + m)%nat)).
  { induction r as [|r IH]; intros i n0 w0 Hr.
    - exists false, O. split; [lia|]. split; [reflexivity|].
      assert (Hge : (i <? maxAttempts) = false) by (apply Z.ltb_ge; lia).
      cbn [waitForService_loop]. rewrite Hge. simpl.
      rewrite with_actions_nil, Nat.add_0_r. reflexivity.
    - rewrite (waitForService_loop_turn _ _ _ _ _ _ _ Hv) by lia.
      destruct (responded (oracle n0)) eqn:Hresp.
      + exists true, O. split; [lia|]. split; [lia|]. simpl.
        rewrite Nat.add_1_r. reflexivity.
      + destruct (IH (i + 1) (S n0) (with_actions [AProbe port; ATimer 1000] w0))
          as (b & m & Hm & Hbm & Hexec); [lia|].
        exists b, (S m). split; [lia|]. split.
        * destruct b; lia.
        * rewrite Hexec, with_actions_app.
          destruct b; simpl; repeat f_equal; lia. }
  destruct (Hgen (Z.to_nat maxAttempts) 0 n w) as (b & m & Hm & _ & Hexec);
    [lia|].
  exists b, m. split; [exact Hm|exact Hexec].
Qed.

End ReadinessWaiter.

(** C2.  For every port, every [maxAttempts >= 1] and every sequence of
    probe outcomes: when attempt [k <= maxAttempts] is the first whose probe
    succeeds, [waitForService] returns true after exactly [k] probes; when
    none of the first [maxAttempts] probes succeeds, it returns false after
    exactly [maxAttempts] probes.  All probes go to [port]. *)
Theorem waitForService_attempts (port maxAttempts : Z)
    (oracle : nat -> NetOutcome) (n : nat) (w : World) :
  1 <= maxAttempts ->
  (forall k : nat,
     (1 <= k <= Z.to_nat maxAttempts)%nat ->
     (forall j : nat, (j < k - 1)%nat -> probe_fails port (oracle (n + j)%nat)) ->
     probe_succeeds port (oracle (n + (k - 1))%nat) ->
     exists acts : list Action,
       exec (waitForService port maxAttempts) oracle n w
       = (Returned true, with_actions acts w, (n + k)%nat)
       /\ probes acts = repeat port k)
  /\ ((forall j : nat,
         (j < Z.to_nat maxAttempts)%nat -> probe_fails port (oracle (n + j)%nat)) ->
      exists acts : list Action,
        exec (waitForService port maxAttempts) oracle n w
        = (Returned false, with_actions acts w, (n + Z.to_nat maxAttempts)%nat)
        /\ probes acts = repeat port (Z.to_nat maxAttempts)).
Proof.
  intros Hmax. split.
  - intros k Hk Hfail Hok.
    destruct k as [|k]; [lia|].
    exists (failed_attempts port k ++ [AProbe port]). split.
    + unfold waitForService.
      apply waitForService_loop_success.
      * lia.
      * lia.
      * intros j Hj. apply Hfail. lia.
      * replace k with (S k - 1)%nat by lia. exact Hok.
    + rewrite probes_app, probes_failed_attempts. simpl.
      rewrite repeat_cons. reflexivity.
  - intros Hfail.
    exists (failed_attempts port (Z.to_nat maxAttempts)). split.
    + unfold waitForService.
      apply waitForService_loop_exhausted.
      * lia.
      * lia.
      * exact Hfail.
    + apply probes_failed_attempts.
Qed.

(** The second attempt succeeds: true after two probes.  Nothing ever
    answers: false after three probes. *)
Lemma waitForService_attempts_witness :
  1 <= 3
  /\ (exists acts : list Action,
        exec (waitForService 8000 3)
             (fun j => if Nat.eqb j 1 then Responded else Refused) 0 initial_world
        = (Returned true, with_actions acts initial_world, 2%nat)
        /\ probes acts = [8000; 8000])
  /\ (exists acts : list Action,
        exec (waitForService 8000 3) (fun _ => Refused) 0 initial_world
        = (Returned false, with_actions acts initial_world, 3%nat)
        /\ probes acts = [8000; 8000; 8000]).
Proof.
  split; [lia|]. split.
  - apply (proj1 (waitForService_attempts 8000 3
             (fun j => if Nat.eqb j 1 then Responded else Refused)
             0 initial_world ltac:(lia)) 2%nat).
    + simpl. lia.
    + intros j Hj. assert (j = 0%nat) as -> by lia. reflexivity.
    + reflexivity.
  - apply (proj2 (waitForService_attempts 8000 3 (fun _ => Refused)
             0 initial_world ltac:(lia))).
    intros j _. reflexivity.
Defined.

(* ===================================================================== *)
(** ** What each function of main.js does when run alone *)
(* ===================================================================== *)

Lemma alter_last {A : Type} (f : A -> A) (l : list A) (x : A) :
  alter f (length l) (l ++ [x]) = l ++ [f x].
Proof.
  induction l as [|y l IH]; simpl; [reflexivity|]. f_equal. exact IH.
Qed.

Ltac flatten_world :=
  lazy beta iota delta
    [update_child set_children record with_actions write_slot read_slot
     set_mainWindow set_tray kill_and_clear
     after_backend_launch after_frontend_launch after_ollama_launch
     mainWindow tray backendProcess frontendProcess children history];
  rewrite ?alter_last; rewrite <- ?app_assoc.

Section Programs.

Variable cfg : Config.

Lemma exec_startBackend (oracle : nat -> NetOutcome) (n : nat) (w : World) :
  exec (startBackend cfg) oracle n w
  = if responded (oracle n)
    then (Returned true,
          with_actions [AProbe BACKEND_PORT; ALog "Backend already running"] w,
          S n)
    else exec (waitForService BACKEND_PORT DEFAULT_MAX_ATTEMPTS) oracle (S n)
           (after_backend_launch cfg w).
Proof.
  unfold startBackend. cbn [bind await]. rewrite exec_probe by reflexivity.
  destruct (responded (oracle n)).
  - cbn. flatten_world. reflexivity.
  - cbn -[waitForService]. f_equal. flatten_world. reflexivity.
Qed.

Lemma exec_startFrontend (oracle : nat -> NetOutcome) (n : nat) (w : World) :
  exec (startFrontend cfg) oracle n w
  = if isDev cfg then
      if responded (oracle n)
      then (Returned true,
            with_actions
              [AProbe FRONTEND_PORT; ALog "Frontend dev server already running"] w,
            S n)
      else exec (waitForService FRONTEND_PORT DEFAULT_MAX_ATTEMPTS) oracle (S n)
             (after_frontend_launch cfg w)
    else (Returned true, w, n).
Proof.
  unfold startFrontend. destruct (isDev cfg); [|reflexivity].
  cbn [bind await]. rewrite exec_probe by reflexivity.
  destruct (responded (oracle n)).
  - cbn. flatten_world. reflexivity.
  - cbn -[waitForService]. f_equal. flatten_world. reflexivity.
Qed.

Lemma exec_checkOllama (oracle : nat -> NetOutcome) (n : nat) (w : World) :
  exec checkOllama oracle n w
  = if responded (oracle n)
    then (Returned true,
          with_actions [AProbe OLLAMA_PORT; ALog "Ollama is already running"] w,
          S n)
    else (Returned (responded (oracle (S n))),
          with_actions
            [ALog (if responded (oracle (S n))
                   then "Ollama started successfully"
                   else "Failed to start Ollama")]
            (after_ollama_launch w),
          S (S n)).
Proof.
  unfold checkOllama. cbn [bind await]. rewrite exec_probe by reflexivity.
  destruct (responded (oracle n)).
  - cbn. flatten_world. reflexivity.
  - cbn -[checkService]. rewrite checkService_value by reflexivity.
    destruct (responded (oracle (S n))); cbn; flatten_world; reflexivity.
Qed.

Lemma exec_checkAllServices (oracle : nat -> NetOutcome) (n : nat) (w : World) :
  exec checkAllServices oracle n w
  = (Returned (mkStatusResult (responded (oracle n)) (responded (oracle (S n)))),
     with_actions
       ([AProbe OLLAMA_PORT; AProbe BACKEND_PORT]
        ++ if mainWindow w
           then [ASend (mkStatusMsg (responded (oracle n))
                                    (responded (oracle (S n))) true)]
           else []) w,
     S (S n)).
Proof.
  unfold checkAllServices. cbn [bind await]. rewrite exec_probe by reflexivity.
  cbn [bind]. rewrite exec_probe by reflexivity.
  cbn. destruct (mainWindow w) eqn:Hwin; cbn; rewrite ?Hwin;
    flatten_world; reflexivity.
Qed.


Lemma advance_killAndClear {A : Type} (sl : Slot) (k : Prog A) (w : World) :
  advance (bind (killAndClear sl) (fun _ => k)) w
  = advance k (kill_and_clear sl w).
Proof.
  unfold killAndClear, kill_and_clear. cbn [bind call advance perform].
  destruct (read_slot sl w) as [h|] eqn:Hslot.
  - cbn [bind call advance perform]. rewrite Hslot. reflexivity.
  - reflexivity.
Qed.

End Programs.

(* ===================================================================== *)
(** ** Which service an action concerns *)
(* ===================================================================== *)

Section Footprints.

Variable cfg : Config.

Lemma service_steps_app (l1 l2 : list Action) :
  service_steps cfg (l1 ++ l2) = service_steps cfg l1 ++ service_steps cfg l2.
Proof. apply omap_app. Qed.

Lemma service_steps_cons (a : Action) (l : list Action) :
  service_steps cfg (a :: l)
  = match service_of cfg a with
    | Some s => s :: service_steps cfg l
    | None => service_steps cfg l
    end.
Proof. reflexivity. Qed.

Lemma pythonCmd_cases :
  pythonCmd cfg = "python3" \/ pythonCmd cfg = "python".
Proof. unfold pythonCmd. destruct (String.eqb _ _); auto. Qed.

Lemma service_of_backend_spawn (h : Handle) :
  service_of cfg (ASpawn h (backendSpec cfg)) = Some Backend.
Proof.
  unfold service_of, backendSpec; cbn [sp_cmd].
  rewrite String.eqb_refl.
  destruct pythonCmd_cases as [-> | ->]; reflexivity.
Qed.

Lemma service_steps_backend_launch (h : Handle) :
  service_steps cfg (backend_launch cfg h) = [Backend; Backend].
Proof.
  unfold backend_launch.
  rewrite 3!service_steps_cons, service_of_backend_spawn. reflexivity.
Qed.

Lemma service_steps_frontend_launch (h : Handle) :
  service_steps cfg (frontend_launch cfg h) = [Assets; Assets].
Proof.
  unfold service_steps, service_of, frontend_launch, frontendSpec.
  cbn [sp_cmd omap].
  destruct pythonCmd_cases as [-> | ->]; reflexivity.
Qed.

Lemma service_steps_failed_attempts (port : Z) (s : Service) (m : nat) :
  service_of cfg (AProbe port) = Some s ->
  service_steps cfg (failed_attempts port m) = repeat s m.
Proof.
  intros Hs. induction m as [|m IH]; [reflexivity|].
  cbn [failed_attempts].
  rewrite service_steps_cons, Hs, service_steps_cons. cbn [service_of].
  rewrite IH. reflexivity.
Qed.

Lemma service_steps_wait (port : Z) (s : Service) (b : bool) (m : nat) :
  service_of cfg (AProbe port) = Some s ->
  service_steps cfg (wait_actions port b m) = repeat s (if b then S m else m).
Proof.
  intros Hs. unfold wait_actions. destruct b.
  - rewrite service_steps_app, (service_steps_failed_attempts _ s) by exact Hs.
    rewrite service_steps_cons, Hs. cbn [service_steps omap].
    rewrite <- repeat_cons. reflexivity.
  - apply service_steps_failed_attempts; exact Hs.
Qed.

Lemma spawns_wait (port : Z) (b : bool) (m : nat) :
  spawns (wait_actions port b m) = [].
Proof.
  unfold wait_actions. destruct b.
  - rewrite spawns_app, spawns_failed_attempts. reflexivity.
  - apply spawns_failed_attempts.
Qed.

Lemma kills_wait (port : Z) (b : bool) (m : nat) :
  kills (wait_actions port b m) = [].
Proof.
  unfold wait_actions. destruct b.
  - rewrite kills_app, kills_failed_attempts. reflexivity.
  - apply kills_failed_attempts.
Qed.

Lemma probes_wait (port : Z) (b : bool) (m : nat) :
  probes (wait_actions port b m) = repeat port (if b then S m else m).
Proof.
  unfold wait_actions. destruct b.
  - rewrite probes_app, probes_failed_attempts. cbn.
    rewrite <- repeat_cons. reflexivity.
  - apply probes_failed_attempts.
Qed.

(** [startBackend] always returns.  It issues at least one probe of the
    backend port and nothing for another service, spawns the backend exactly
    when the first probe fails, and signals no child. *)
Lemma startBackend_summary (oracle : nat -> NetOutcome) (n : nat) (w : World) :
  exists (b : bool) (m : nat) (acts : list Action) (w' : World),
    exec (startBackend cfg) oracle n w = (Returned b, w', (n + S m)%nat)
    /\ history w' = history w ++ acts
    /\ mainWindow w' = mainWindow w /\ tray w' = tray w
    /\ frontendProcess w' = frontendProcess w
    /\ (exists c : nat, service_steps cfg acts = repeat Backend (S c))
    /\ spawns acts = (if responded (oracle n) then [] else [pythonCmd cfg])
    /\ kills acts = []
    /\ (if responded (oracle n)
        then b = true /\ children w' = children w
             /\ backendProcess w' = backendProcess w
        else children w' = children w ++ [backend_child cfg]
             /\ backendProcess w' = Some (length (children w)))
    /\ probes acts = repeat BACKEND_PORT (S m).
Proof.
  rewrite exec_startBackend.
  destruct (responded (oracle n)) eqn:Hresp.
  - exists true, O, [AProbe BACKEND_PORT; ALog "Backend already running"].
    eexists. split; [rewrite Nat.add_1_r; reflexivity|].
    cbn. repeat split; try reflexivity. exists O. reflexivity.
  - destruct (waitForService_returns BACKEND_PORT DEFAULT_MAX_ATTEMPTS oracle
                (S n) (after_backend_launch cfg w) eq_refl) as (b & m & _ & Hexec).
    exists b, (if b then S m else m),
      (backend_launch cfg (length (children w)) ++ wait_actions BACKEND_PORT b m).
    eexists. split.
    { rewrite Hexec. f_equal. destruct b; lia. }
    cbn [history with_actions after_backend_launch mainWindow tray
         frontendProcess children backendProcess].
    split; [destruct b; rewrite <- app_assoc; reflexivity|].
    repeat split.
    + exists (if b then S (S m) else S m).
      rewrite service_steps_app, (service_steps_wait _ Backend) by reflexivity.
      rewrite service_steps_backend_launch.
      destruct b; reflexivity.
    + rewrite spawns_app, spawns_wait. reflexivity.
    + rewrite kills_app, kills_wait. reflexivity.
    + rewrite probes_app, probes_wait. reflexivity.
Qed.

(** [checkOllama] always returns.  It probes the runtime port first; when
    that probe fails it launches [ollama serve], waits and probes once more. *)
Lemma checkOllama_summary (oracle : nat -> NetOutcome) (n : nat) (w : World) :
  exists (b : bool) (acts : list Action) (w' : World),
    exec checkOllama oracle n w
    = (Returned b, w', (n + if responded (oracle n) then 1 else 2)%nat)
    /\ history w' = history w ++ acts
    /\ mainWindow w' = mainWindow w /\ tray w' = tray w
    /\ backendProcess w' = backendProcess w
    /\ frontendProcess w' = frontendProcess w
    /\ service_steps cfg acts
       = repeat Runtime (if responded (oracle n) then 1 else 3)%nat
    /\ spawns acts = (if responded (oracle n) then [] else ["ollama"])
    /\ kills acts = []
    /\ (if responded (oracle n) then children w' = children w
        else children w' = children w ++ [ollama_child])
    /\ probes acts
       = repeat OLLAMA_PORT (if responded (oracle n) then 1 else 2)%nat.
Proof.
  rewrite exec_checkOllama.
  destruct (responded (oracle n)) eqn:Hresp.
  - exists true, [AProbe OLLAMA_PORT; ALog "Ollama is already running"].
    eexists. split; [rewrite Nat.add_1_r; reflexivity|].
    cbn. repeat split; reflexivity.
  - exists (responded (oracle (S n))),
      (ollama_launch (length (children w))
       ++ [ALog (if responded (oracle (S n))
                 then "Ollama started successfully"
                 else "Failed to start Ollama")]).
    eexists. split; [f_equal; lia|].
    cbn [history with_actions after_ollama_launch mainWindow tray
         frontendProcess children backendProcess].
    split; [rewrite <- app_assoc; reflexivity|].
    repeat split.
Qed.

(** [startFrontend] always returns.  Outside development mode it does
    nothing; in development mode it issues at least one probe of the
    dev-server port and spawns the dev server when the first probe fails. *)
Lemma startFrontend_summary (oracle : nat -> NetOutcome) (n : nat) (w : World) :
  exists (b : bool) (m : nat) (acts : list Action) (w' : World),
    exec (startFrontend cfg) oracle n w = (Returned b, w', (n + m)%nat)
    /\ history w' = history w ++ acts
    /\ mainWindow w' = mainWindow w /\ tray w' = tray w
    /\ backendProcess w' = backendProcess w
    /\ (exists c : nat,
          service_steps cfg acts = repeat Assets c
          /\ (isDev cfg = true -> (1 <= c)%nat)
          /\ (isDev cfg = false -> c = 0%nat))
    /\ spawns acts
       = (if isDev cfg then if responded (oracle n) then [] else ["npm"]
          else [])
    /\ kills acts = []
    /\ (isDev cfg = false -> w' = w)
    /\ probes acts = repeat FRONTEND_PORT m
    /\ (isDev cfg = true -> (1 <= m)%nat).
Proof.
  rewrite exec_startFrontend.
  destruct (isDev cfg) eqn:Hdev.
  - destruct (responded (oracle n)) eqn:Hresp.
    + exists true, 1%nat,
        [AProbe FRONTEND_PORT; ALog "Frontend dev server already running"].
      eexists. split; [rewrite Nat.add_1_r; reflexivity|].
      cbn. repeat split; try reflexivity; try discriminate;
        try (intros _; lia).
      exists 1%nat. repeat split; try reflexivity; try discriminate; try lia.
    + destruct (waitForService_returns FRONTEND_PORT DEFAULT_MAX_ATTEMPTS oracle
                  (S n) (after_frontend_launch cfg w) eq_refl) as (b & m & _ & Hexec).
      exists b, (if b then S (S m) else S m),
        (frontend_launch cfg (length (children w))
         ++ wait_actions FRONTEND_PORT b m).
      eexists. split.
      { rewrite Hexec. f_equal. destruct b; lia. }
      cbn [history with_actions after_frontend_launch mainWindow tray
           frontendProcess children backendProcess].
      split; [destruct b; rewrite <- app_assoc; reflexivity|].
      repeat split; try discriminate.
      * exists (2 + if b then S m else m)%nat. split; [|split].
        -- rewrite service_steps_app, (service_steps_wait _ Assets) by reflexivity.
           rewrite service_steps_frontend_launch.
           destruct b; reflexivity.
        -- intros _. lia.
        -- discriminate.
      * rewrite spawns_app, spawns_wait. reflexivity.
      * rewrite kills_app, kills_wait. reflexivity.
      * rewrite probes_app, probes_wait. destruct b; reflexivity.
      * destruct b; lia.
  - exists true, O, []. exists w. split; [rewrite Nat.add_0_r; reflexivity|].
    rewrite app_nil_r. repeat split; try reflexivity; try discriminate.
    exists O. repeat split; try reflexivity; discriminate.
Qed.

End Footprints.

(* ===================================================================== *)
(** ** Startup *)
(* ===================================================================== *)

Section Startup.

Variable cfg : Config.

(** [if (!ready) dialog.showErrorBox(title, ...)] *)
Lemma exec_error_box_unless (ready : bool) (title : string)
    (oracle : nat -> NetOutcome) (n : nat) (w : World) :
  exec (if negb ready then call (EShowErrorBox title) else Ret tt) oracle n w
  = (Returned tt, with_actions (if ready then [] else [AErrorBox title]) w, n).
Proof.
  destruct ready; cbn.
  - rewrite with_actions_nil. reflexivity.
  - reflexivity.
Qed.

Lemma service_steps_error_box (ready : bool) (title : string) :
  service_steps cfg (if ready then [] else [AErrorBox title]) = [].
Proof. destruct ready; reflexivity. Qed.

Lemma spawns_error_box (ready : bool) (title : string) :
  spawns (if ready then [] else [AErrorBox title]) = [].
Proof. destruct ready; reflexivity. Qed.

Lemma probes_error_box (ready : bool) (title : string) :
  probes (if ready then [] else [AErrorBox title]) = [].
Proof. destruct ready; reflexivity. Qed.

Lemma probes_startup_tail : probes (startup_tail cfg) = [].
Proof. unfold startup_tail. destruct (trayIconExists cfg); reflexivity. Qed.

Lemma service_steps_startup_tail : service_steps cfg (startup_tail cfg) = [].
Proof. unfold startup_tail. destruct (trayIconExists cfg); reflexivity. Qed.

Lemma spawns_startup_tail : spawns (startup_tail cfg) = [].
Proof. unfold startup_tail. destruct (trayIconExists cfg); reflexivity. Qed.

(** C6.  The callback of [app.whenReady()] always runs to its end, and the
    steps that concern a service come in this order.  First those of the
    language-model runtime: one probe of port 11434, and when it is
    unanswered the launch of [ollama serve] and a second probe.  Then those
    of the backend, whatever the runtime check returned: at least one probe
    of port 8000, and the launch of the backend exactly when the first of
    them is unanswered.  Last those of the dev server, and only in
    development mode: at least one probe of port 3000, and the launch of
    [npm run dev] exactly when the first of them is unanswered.  Outside
    development mode the dev server is neither probed nor launched. *)
Theorem startup_order (oracle : nat -> NetOutcome) (n : nat) (w : World) :
  exists (acts : list Action) (w' : World) (n' : nat) (kO kB kF a b c : nat),
    exec (whenReady cfg) oracle n w = (Returned tt, w', n')
    /\ history w' = history w ++ acts
    /\ kO = (if responded (oracle n) then 1 else 2)%nat
    /\ (1 <= kB)%nat
    /\ (if isDev cfg then (1 <= kF)%nat /\ (1 <= c)%nat
        else kF = 0%nat /\ c = 0%nat)
    /\ n' = (n + kO + kB + kF)%nat
    /\ probes acts
       = repeat OLLAMA_PORT kO ++ repeat BACKEND_PORT kB
         ++ repeat FRONTEND_PORT kF
    /\ spawns acts
       = (if responded (oracle n) then [] else ["ollama"])
         ++ (if responded (oracle (n + kO)%nat) then [] else [pythonCmd cfg])
         ++ (if isDev cfg && negb (responded (oracle (n + kO + kB)%nat))
             then ["npm"] else [])
    /\ service_steps cfg acts
       = repeat Runtime (S a) ++ repeat Backend (S b) ++ repeat Assets c.
Proof.
  unfold whenReady.
  cbn [bind log call createMenu createWindow exec perform].
  rewrite exec_bind.
  match goal with |- context [exec checkOllama oracle n ?W] =>
    destruct (checkOllama_summary cfg oracle n W)
      as (b1 & acts1 & w1 & Hex1 & Hh1 & _ & _ & _ & _ & Hst1 & Hsp1 & _ & _
          & Hpr1)
  end.
  rewrite Hex1. clear Hex1.
  rewrite exec_bind, exec_error_box_unless.
  rewrite exec_bind.
  set (kO := (if responded (oracle n) then 1 else 2)%nat) in *.
  match goal with |- context [exec (startBackend cfg) oracle (n + kO)%nat ?W] =>
    destruct (startBackend_summary cfg oracle (n + kO)%nat W)
      as (b2 & m2 & acts2 & w2 & Hex2 & Hh2 & _ & _ & _ & [c2 Hst2] & Hsp2 & _
          & _ & Hpr2)
  end.
  rewrite Hex2. clear Hex2.
  rewrite exec_bind, exec_error_box_unless.
  rewrite exec_bind.
  set (n2 := (n + kO + S m2)%nat) in *.
  assert (Hfront : exists (w3 : World) (acts3 : list Action) (c kF : nat),
    exec (if isDev cfg then bind (startFrontend cfg) (fun _ => Ret tt)
          else Ret tt) oracle n2
         (with_actions (if b2 then [] else [AErrorBox "Backend Error"]) w2)
    = (Returned tt, w3, (n2 + kF)%nat)
    /\ history w3
       = history (with_actions (if b2 then [] else [AErrorBox "Backend Error"]) w2)
         ++ acts3
    /\ service_steps cfg acts3 = repeat Assets c
    /\ (if isDev cfg then (1 <= kF)%nat /\ (1 <= c)%nat
        else kF = 0%nat /\ c = 0%nat)
    /\ probes acts3 = repeat FRONTEND_PORT kF
    /\ spawns acts3
       = (if isDev cfg && negb (responded (oracle n2)) then ["npm"] else [])).
  { destruct (isDev cfg) eqn:Hdev.
    - rewrite exec_bind.
      match goal with |- context [exec (startFrontend cfg) oracle n2 ?W] =>
        destruct (startFrontend_summary cfg oracle n2 W)
          as (b3 & m3 & acts3 & w3 & Hex3 & Hh3 & _ & _ & _
              & (c & Hst3 & Hc1 & _) & Hsp3 & _ & _ & Hpr3 & Hm3)
      end.
      rewrite Hex3. exists w3, acts3, c, m3.
      rewrite Hdev in Hsp3.
      split; [reflexivity|]. split; [exact Hh3|]. split; [exact Hst3|].
      split; [split; [apply Hm3, Hdev|apply Hc1, Hdev]|].
      split; [exact Hpr3|].
      rewrite Hsp3. destruct (responded (oracle n2)); reflexivity.
    - exists (with_actions (if b2 then [] else [AErrorBox "Backend Error"]) w2),
        [], O, O.
      rewrite app_nil_r, Nat.add_0_r. repeat split. }
  destruct Hfront as (w3 & acts3 & c & kF & Hex3 & Hh3 & Hst3 & Hdev3 & Hpr3
                      & Hsp3).
  rewrite Hex3. clear Hex3.
  exists ([ALog "App starting..."; ACreateMenu; ACreateWindow]
          ++ acts1 ++ (if b1 then [] else [AErrorBox "Ollama Not Found"])
          ++ acts2 ++ (if b2 then [] else [AErrorBox "Backend Error"])
          ++ acts3 ++ startup_tail cfg).
  exists (record (ALog "App ready")
            (if trayIconExists cfg then record ACreateTray (set_tray true w3)
             else w3)).
  exists (n2 + kF)%nat, kO, (S m2), kF.
  exists (if responded (oracle n) then 0 else 2)%nat, c2, c.
  split.
  { unfold createTray. cbn [bind call log exec perform].
    destruct (trayIconExists cfg); reflexivity. }
  split.
  { assert (Hfinal : forall w4 : World,
              history w4 = history w3 ++ startup_tail cfg ->
              history w4
              = history w
                ++ [ALog "App starting..."; ACreateMenu; ACreateWindow]
                ++ acts1 ++ (if b1 then [] else [AErrorBox "Ollama Not Found"])
                ++ acts2 ++ (if b2 then [] else [AErrorBox "Backend Error"])
                ++ acts3 ++ startup_tail cfg).
    { intros w4 H4. rewrite H4, Hh3.
      cbn [with_actions history]. rewrite Hh2.
      cbn [with_actions history]. rewrite Hh1.
      cbn [record set_mainWindow history].
      rewrite <- !app_assoc. reflexivity. }
    unfold startup_tail in *.
    destruct (trayIconExists cfg); apply Hfinal; cbn [record set_tray history];
      rewrite <- ?app_assoc; reflexivity. }
  split; [reflexivity|]. split; [lia|]. split; [exact Hdev3|].
  split; [reflexivity|].
  split.
  { rewrite !probes_app, !probes_error_box, probes_startup_tail,
      Hpr1, Hpr2, Hpr3.
    rewrite app_nil_r. reflexivity. }
  split.
  { rewrite !spawns_app, !spawns_error_box, spawns_startup_tail,
      Hsp1, Hsp2, Hsp3.
    rewrite app_nil_r. reflexivity. }
  rewrite !service_steps_app, !service_steps_error_box,
    service_steps_startup_tail, Hst1, Hst2, Hst3.
  rewrite app_nil_r.
  destruct (responded (oracle n)); reflexivity.
Qed.

End Startup.

(* ===================================================================== *)
(** ** Starting the backend, status checks, the bridge *)
(* ===================================================================== *)

Section Backend.

Variable cfg : Config.

(** C9, as amended.  When the first probe of the backend port gets an HTTP
    response, [startBackend] returns true after that single probe: it starts
    no timer, spawns nothing, and leaves the stored handles and the table of
    children as they were. *)
Theorem startBackend_when_reachable (oracle : nat -> NetOutcome) (n : nat)
    (w : World) :
  probe_succeeds BACKEND_PORT (oracle n) ->
  exists w' : World,
    exec (startBackend cfg) oracle n w = (Returned true, w', S n)
    /\ history w'
       = history w ++ [AProbe BACKEND_PORT; ALog "Backend already running"]
    /\ backendProcess w' = backendProcess w
    /\ frontendProcess w' = frontendProcess w
    /\ children w' = children w.
Proof.
  intros Hok. rewrite exec_startBackend.
  rewrite (probe_succeeds_responded _ _ Hok).
  eexists. split; [reflexivity|].
  repeat split.
Qed.

(** C10, as amended.  A status check probes the runtime port and then the
    backend port, and never the dev-server port.  The message it pushes to
    the window, when there is a window, carries the two probe results and
    [frontend: true]; the object it returns carries the two probe results
    and has no [frontend] field. *)
Theorem checkAllServices_status (oracle : nat -> NetOutcome) (n : nat)
    (w : World) :
  exists (acts : list Action) (r : StatusResult),
    exec checkAllServices oracle n w = (Returned r, with_actions acts w, S (S n))
    /\ probes acts = [OLLAMA_PORT; BACKEND_PORT]
    /\ res_ollama r = responded (oracle n)
    /\ res_backend r = responded (oracle (S n))
    /\ result_field r "frontend" = None
    /\ (forall m : StatusMsg,
          In (ASend m) acts ->
          m = mkStatusMsg (responded (oracle n)) (responded (oracle (S n))) true)
    /\ ((exists m : StatusMsg, In (ASend m) acts) <-> mainWindow w = true).
Proof.
  rewrite exec_checkAllServices.
  eexists. eexists. split; [reflexivity|].
  split; [destruct (mainWindow w); reflexivity|].
  split; [reflexivity|]. split; [reflexivity|]. split; [reflexivity|].
  destruct (mainWindow w); cbn [app In]; split.
  - intros m [H|[H|[H|[]]]]; try discriminate. injection H as <-. reflexivity.
  - split; [reflexivity|]. intros _. eexists. right. right. left. reflexivity.
  - intros m [H|[H|[]]]; discriminate.
  - split; [|discriminate]. intros [m [H|[H|[]]]]; discriminate.
Qed.

End Backend.

(** C10, as stated, fails on the object the check returns: it has no
    [frontend] field, and without a window nothing else is produced. *)
Lemma checkAllServices_result_without_frontend :
  exists (r : StatusResult) (w' : World),
    exec checkAllServices (fun _ => Responded) 0 initial_world
    = (Returned r, w', 2%nat)
    /\ result_field r "frontend" = None
    /\ result_field r "frontend" <> Some true
    /\ history w' = [AProbe OLLAMA_PORT; AProbe BACKEND_PORT].
Proof.
  eexists. eexists. split; [vm_compute; reflexivity|].
  split; [reflexivity|]. split; [discriminate|reflexivity].
Qed.

(** With the backend port answering, nothing is spawned and the stored
    handle stays. *)
Lemma startBackend_when_reachable_witness :
  probe_succeeds BACKEND_PORT Responded
  /\ exists w' : World,
       exec (startBackend mac_release) (fun _ => Responded) 0 backend_running
       = (Returned true, w', 1%nat)
       /\ history w'
          = history backend_running
            ++ [AProbe BACKEND_PORT; ALog "Backend already running"]
       /\ backendProcess w' = backendProcess backend_running
       /\ frontendProcess w' = frontendProcess backend_running
       /\ children w' = children backend_running.
Proof.
  split; [reflexivity|].
  apply (startBackend_when_reachable mac_release (fun _ => Responded) 0
           backend_running).
  reflexivity.
Defined.

(** C9, as stated, fails: the backend port accepts the connection and
    sends no response within the timeout.  The port is reachable, yet
    [startBackend] spawns a second backend beside the stored one and stores
    the new handle over the old one. *)
Lemma startBackend_spawns_beside_silent_listener :
  established Silent = true
  /\ backendProcess backend_running = Some 0%nat
  /\ exists w' : World,
       exec (startBackend mac_release)
            (fun j => if Nat.eqb j 0 then Silent else Responded) 0
            backend_running
       = (Returned true, w', 2%nat)
       /\ spawns (history w') = ["python3"]
       /\ backendProcess w' = Some 1%nat
       /\ length (children w') = 2%nat.
Proof.
  split; [reflexivity|]. split; [reflexivity|].
  eexists. split; [vm_compute; reflexivity|]. repeat split.
Qed.

Section Bridge.

Variable cfg : Config.

Lemma history_kill_and_clear (sl : Slot) (w : World) :
  history (kill_and_clear sl w)
  = history w ++ match read_slot sl w with Some h => [AKill h] | None => [] end.
Proof.
  unfold kill_and_clear. destruct (read_slot sl w) as [h|].
  - destruct sl; reflexivity.
  - rewrite app_nil_r. reflexivity.
Qed.


Lemma Some_eq_inv {A : Type} (x y : A) : Some x = Some y -> x = y.
Proof. congruence. Qed.

End Bridge.

(* ===================================================================== *)
(** ** Invariants of the event loop *)
(* ===================================================================== *)

Section Safety.

(** [Inv] is a property of the world that is to hold whenever the loop is
    between two callbacks. *)
Variable Inv : World -> Prop.

Lemma wp_mono {A : Type} (p : Prog A) (Q Q' : A -> World -> Prop) :
  (forall a w, Q a w -> Q' a w) ->
  forall w : World, wp Inv p Q w -> wp Inv p Q' w.
Proof.
  intros HQ. induction p as [a|err|X e k IH|X pd k IH]; intros w; cbn [wp].
  - apply HQ.
  - auto.
  - destruct (perform e w) as [[x|] w']; [apply IH|auto].
  - intros [Hi Hk]. split; [exact Hi|]. intros x w' Hw'. apply IH, Hk, Hw'.
Qed.

Lemma wp_bind {A B : Type} (p : Prog A) (f : A -> Prog B)
    (Q : B -> World -> Prop) :
  forall w : World,
    wp Inv p (fun a w' => wp Inv (f a) Q w') w -> wp Inv (bind p f) Q w.
Proof.
  induction p as [a|err|X e k IH|X pd k IH]; intros w; cbn [wp bind].
  - auto.
  - auto.
  - destruct (perform e w) as [[x|] w']; [apply IH|auto].
  - intros [Hi Hk]. split; [exact Hi|]. intros x w' Hw'. apply IH, Hk, Hw'.
Qed.

(** Running a safe Inv task up to its first suspension keeps the invariant and
    leaves a safe Inv suspended task. *)
Lemma advance_safe (p : Task) :
  forall w : World,
    wp Inv p (fun _ w' => Inv w') w ->
    Inv (snd (advance p w)) /\ resumable_safe Inv (fst (advance p w)).
Proof.
  induction p as [a|err|X e k IH|X pd k IH]; intros w; cbn [wp advance].
  - intros Hw. split; [exact Hw|]. intros a' p' H; discriminate H.
  - intros Hw. split; [exact Hw|]. intros a' p' H; discriminate H.
  - destruct (perform e w) as [[x|] w'].
    + apply IH.
    + intros Hw. split; [exact Hw|]. intros a' p' H; discriminate H.
  - intros [Hi Hk]. split; [exact Hi|].
    intros a p' Hres. cbn [fst resume] in Hres.
    destruct (settle pd a) as [[|x|err]|]; try discriminate Hres.
    + apply Some_eq_inv in Hres. subst p'. intros w' Hw'. apply Hk, Hw'.
    + apply Some_eq_inv in Hres. subst p'. intros w' Hw'. exact Hw'.
Qed.

(** The synchronous part of any callback keeps the invariant. *)
Lemma advance_inv {A : Type} (p : Prog A) :
  forall w : World,
    wp Inv p (fun _ w' => Inv w') w -> Inv (snd (advance p w)).
Proof.
  induction p as [a|err|X e k IH|X pd k IH]; intros w; cbn [wp advance].
  - auto.
  - auto.
  - destruct (perform e w) as [[x|] w']; [apply IH|auto].
  - intros [Hi _]. exact Hi.
Qed.

Lemma start_task_safe (p : Task) (st : State) :
  safe Inv p -> state_inv Inv st -> state_inv Inv (start_task p st).
Proof.
  intros Hp [Hw Hts]. unfold start_task.
  destruct (advance_safe p (world st) (Hp _ Hw)) as [Hw' Ht].
  destruct (advance p (world st)) as [t w'].
  split; [exact Hw'|]. cbn [tasks].
  apply Forall_app. split; [exact Hts|]. constructor; [exact Ht|constructor].
Qed.

(** Returning a value changes nothing. *)
Lemma safe_replying (p : Prog Reply) :
  safe Inv p -> safe Inv (replying p).
Proof.
  intros Hp w Hw. unfold replying. apply wp_bind.
  eapply wp_mono; [|apply Hp, Hw]. intros a w' Hw'. exact Hw'.
Qed.

Lemma safe_silent {A : Type} (p : Prog A) :
  safe Inv p -> safe Inv (silent p).
Proof.
  intros Hp w Hw. unfold silent. apply wp_bind.
  eapply wp_mono; [|apply Hp, Hw]. intros a w' Hw'. exact Hw'.
Qed.

End Safety.

Section StableInvariants.

Variable Inv : World -> Prop.

Hypothesis Hstable : stable Inv.

Lemma wp_killAndClear (sl : Slot) (Q : unit -> World -> Prop) (w : World) :
  Inv w ->
  (forall w', Inv w' -> Q tt w') ->
  wp Inv (killAndClear sl) Q w.
Proof.
  intros Hw HQ. unfold killAndClear. cbn [bind call wp perform].
  destruct (read_slot sl w) as [h|] eqn:Hslot.
  - cbn [bind call wp perform]. rewrite Hslot. cbn [bind call wp perform].
    apply HQ. apply (stable_clear Inv Hstable), (stable_record Inv Hstable).
    apply (stable_signal Inv Hstable) with sl; assumption.
  - cbn [bind wp]. apply HQ, Hw.
Qed.

Lemma safe_beforeQuit : safe Inv beforeQuit.
Proof.
  intros w Hw. unfold beforeQuit. cbn [bind log call wp perform].
  apply wp_bind.
  apply wp_killAndClear; [apply (stable_record Inv Hstable), Hw|].
  intros w1 Hw1.
  apply wp_killAndClear; [exact Hw1|]. intros w2 Hw2. exact Hw2.
Qed.

Lemma wp_waitForService_loop (port maxAttempts : Z) (Q : bool -> World -> Prop) :
  (forall b w, Inv w -> Q b w) ->
  forall (fuel : nat) (i : Z) (w : World),
    Inv w -> wp Inv (waitForService_loop fuel port i maxAttempts) Q w.
Proof.
  intros HQ. induction fuel as [|fuel IH]; intros i w Hw;
    cbn [waitForService_loop]; destruct (i <? maxAttempts).
  - exact Hw.
  - apply HQ, Hw.
  - cbn [bind await wp issue]. split; [apply (stable_record Inv Hstable), Hw|].
    intros [|] w1 Hw1; cbn [bind wp].
    + apply HQ, Hw1.
    + cbn [issue]. split; [apply (stable_record Inv Hstable), Hw1|].
      intros _ w2 Hw2. apply IH, Hw2.
  - apply HQ, Hw.
Qed.

Lemma wp_waitForService (port maxAttempts : Z) (Q : bool -> World -> Prop)
    (w : World) :
  (forall b w', Inv w' -> Q b w') ->
  Inv w -> wp Inv (waitForService port maxAttempts) Q w.
Proof. intros HQ Hw. apply wp_waitForService_loop; assumption. Qed.

Lemma safe_checkAllServices : safe Inv checkAllServices.
Proof.
  intros w Hw. unfold checkAllServices. cbn [bind await wp issue].
  split; [apply (stable_record Inv Hstable), Hw|]. intros ollama w1 Hw1.
  cbn [bind await wp issue].
  split; [apply (stable_record Inv Hstable), Hw1|]. intros backend w2 Hw2.
  cbn [bind call wp perform].
  destruct (mainWindow w2) eqn:Hwin; cbn [bind call wp perform].
  - rewrite Hwin. cbn [bind wp]. apply (stable_record Inv Hstable), Hw2.
  - exact Hw2.
Qed.

Lemma run_exit_handlers_inv (p : Proc) (code : option Z) (w : World) :
  Inv w -> Inv (run_exit_handlers p code w).
Proof.
  unfold run_exit_handlers. revert w.
  induction (p_handlers p) as [|hk hks IH]; intros w Hw; cbn [fold_left].
  - exact Hw.
  - apply IH. destruct (is_exit_handler hk); [|exact Hw].
    unfold onBackendExit.
    apply (stable_clear Inv Hstable), (stable_record Inv Hstable), Hw.
Qed.

Lemma run_stdout_handlers_inv (p : Proc) (data : string) (w : World) :
  Inv w -> Inv (run_stdout_handlers p data w).
Proof.
  unfold run_stdout_handlers. revert w.
  induction (p_handlers p) as [|hk hks IH]; intros w Hw; cbn [fold_left].
  - exact Hw.
  - apply IH. destruct hk; try exact Hw. apply (stable_record Inv Hstable), Hw.
Qed.

Lemma run_stderr_handlers_inv (p : Proc) (data : string) (w : World) :
  Inv w -> Inv (run_stderr_handlers p data w).
Proof.
  unfold run_stderr_handlers. revert w.
  induction (p_handlers p) as [|hk hks IH]; intros w Hw; cbn [fold_left].
  - exact Hw.
  - apply IH. destruct hk; try exact Hw. apply (stable_record Inv Hstable), Hw.
Qed.

Lemma deliver_quit_inv (st : State) :
  state_inv Inv st -> state_inv Inv (deliver_quit st).
Proof.
  intros [Hw Hts]. split; [|exact Hts].
  cbn [deliver_quit world]. unfold run_listener.
  apply advance_inv, safe_beforeQuit, Hw.
Qed.

Lemma safe_ipcHandler (cfg : Config) (ch : Channel) (args : list JsVal) :
  (ch = ChRestartBackend -> safe Inv (restartBackendHandler cfg)) ->
  safe Inv (ipcHandler cfg ch args).
Proof.
  intros Hrestart w Hw. destruct ch; cbn [ipcHandler].
  - apply wp_bind. eapply wp_mono; [|apply safe_checkAllServices, Hw].
    intros r w' Hw'. exact Hw'.
  - apply wp_bind. eapply wp_mono; [|apply (Hrestart eq_refl), Hw].
    intros r w' Hw'. exact Hw'.
  - cbn [bind await wp issue]. split; [apply (stable_record Inv Hstable), Hw|].
    intros paths w' Hw'. exact Hw'.
  - exact Hw.
Qed.

Lemma bridgeTask_channel (cfg : Config) (method : string) (args : list JsVal)
    (p : Prog Reply) :
  bridgeTask cfg method args = Some p ->
  exists ch : Channel,
    p = ipcHandler cfg ch []
    /\ (ch = ChRestartBackend -> method = "restartBackend").
Proof.
  unfold bridgeTask, electronAPI.
  destruct (String.eqb method "getServicesStatus").
  { intros H. apply Some_eq_inv in H. subst p.
    exists ChGetServicesStatus. split; [reflexivity|discriminate]. }
  destruct (String.eqb method "restartBackend") eqn:E.
  { intros H. apply Some_eq_inv in H. subst p.
    exists ChRestartBackend. split; [reflexivity|].
    intros _. apply String.eqb_eq. exact E. }
  destruct (String.eqb method "openFileDialog").
  { intros H. apply Some_eq_inv in H. subst p.
    exists ChOpenFileDialog. split; [reflexivity|discriminate]. }
  destruct (String.eqb method "getUserDataPath").
  { intros H. apply Some_eq_inv in H. subst p.
    exists ChGetUserDataPath. split; [reflexivity|discriminate]. }
  discriminate.
Qed.

(** One event keeps the invariant, provided the two callbacks that start
    children keep it when the event runs them. *)
Lemma step_state_inv (cfg : Config) (ev : Event) (st st' : State) :
  (ev = EvReady -> safe Inv (whenReady cfg)) ->
  (forall args, ev = EvInvoke "restartBackend" args ->
                safe Inv (restartBackendHandler cfg)) ->
  state_inv Inv st -> step cfg ev st = Some st' -> state_inv Inv st'.
Proof.
  intros Hready Hrestart Hinv. unfold step.
  destruct (quitting st); [discriminate|].
  destruct ev as [|method args| |i a|h code|h data|h data|h message| | | |].
  - (* ready *)
    destruct (started st); [discriminate|]. intros H.
    apply Some_eq_inv in H. subst st'.
    apply start_task_safe.
    + apply safe_silent, Hready. reflexivity.
    + destruct Hinv as [Hw Hts]. split; assumption.
  - (* bridge call *)
    destruct (mainWindow (world st)); [|discriminate].
    destruct (bridgeTask cfg method args) as [p|] eqn:Hp.
    + intros H. apply Some_eq_inv in H. subst st'.
      destruct (bridgeTask_channel _ _ _ _ Hp) as (ch & -> & Hch).
      apply start_task_safe; [|exact Hinv].
      apply safe_replying, safe_ipcHandler.
      intros Hc. apply (Hrestart args). rewrite (Hch Hc). reflexivity.
    + intros H. apply Some_eq_inv in H. subst st'. exact Hinv.
  - (* tray *)
    destruct (tray (world st)); [|discriminate]. intros H.
    apply Some_eq_inv in H. subst st'.
    apply start_task_safe; [|exact Hinv].
    apply safe_silent, safe_checkAllServices.
  - (* a promise settles *)
    destruct (tasks st !! i) as [t|] eqn:Ht; [|discriminate].
    destruct (resume t a) as [p|] eqn:Hres; [|discriminate].
    destruct Hinv as [Hw Hts].
    pose proof (Forall_lookup_1 _ _ _ _ Hts Ht) as Hsafe.
    destruct (advance_safe Inv p (world st) (Hsafe a p Hres _ Hw)) as [Hw' Ht'].
    destruct (advance p (world st)) as [t' w'].
    intros H. apply Some_eq_inv in H. subst st'.
    split; [exact Hw'|]. cbn [tasks]. apply Forall_insert; assumption.
  - (* a child exits *)
    destruct (children (world st) !! h) as [p|]; [|discriminate].
    destruct (live p); [|discriminate]. intros H.
    apply Some_eq_inv in H. subst st'. destruct Hinv as [Hw Hts].
    split; [|exact Hts]. cbn [with_world world].
    apply run_exit_handlers_inv, (stable_exit Inv Hstable), Hw.
  - destruct (children (world st) !! h) as [p|]; [|discriminate]. intros H.
    apply Some_eq_inv in H. subst st'. destruct Hinv as [Hw Hts].
    split; [|exact Hts]. apply run_stdout_handlers_inv, Hw.
  - destruct (children (world st) !! h) as [p|]; [|discriminate]. intros H.
    apply Some_eq_inv in H. subst st'. destruct Hinv as [Hw Hts].
    split; [|exact Hts]. apply run_stderr_handlers_inv, Hw.
  - destruct (children (world st) !! h) as [p|]; [|discriminate]. intros H.
    apply Some_eq_inv in H. subst st'. destruct Hinv as [Hw Hts].
    split; [|exact Hts]. cbn [with_world world]. unfold run_error_handlers.
    destruct (existsb _ _); apply (stable_record Inv Hstable), Hw.
  - (* the window is closed *)
    destruct (mainWindow (world st)); [|discriminate]. intros H.
    apply Some_eq_inv in H. subst st'. destruct Hinv as [Hw Hts].
    split; [|exact Hts]. apply (stable_window Inv Hstable), Hw.
  - (* activate *)
    destruct (mainWindow (world st)).
    + intros H. apply Some_eq_inv in H. subst st'. exact Hinv.
    + intros H. apply Some_eq_inv in H. subst st'. destruct Hinv as [Hw Hts].
      split; [|exact Hts]. cbn.
      apply (stable_record Inv Hstable), (stable_window Inv Hstable), Hw.
  - (* all windows closed *)
    destruct (mainWindow (world st)); [discriminate|].
    assert (Hl : state_inv Inv
                   (with_world (run_listener (windowAllClosed cfg) (world st)) st)).
    { destruct Hinv as [Hw Hts]. split; [|exact Hts].
      cbn [with_world world]. unfold run_listener, windowAllClosed.
      destruct (negb _); cbn; [apply (stable_record Inv Hstable), Hw|exact Hw]. }
    destruct (negb (String.eqb (platform cfg) "darwin")).
    + intros H. apply Some_eq_inv in H. subst st'.
      apply deliver_quit_inv, Hl.
    + intros H. apply Some_eq_inv in H. subst st'. exact Hl.
  - (* quit *)
    intros H. apply Some_eq_inv in H. subst st'.
    apply deliver_quit_inv, Hinv.
Qed.

End StableInvariants.

(* ===================================================================== *)
(** ** The runtime is never signalled *)
(* ===================================================================== *)

Section RuntimeUntouched.

Lemma lookup_alter_inv {A : Type} (f : A -> A) (h h' : nat) (l : list A) (y : A) :
  alter f h l !! h' = Some y ->
  exists x : A, l !! h' = Some x /\ ((h' = h /\ y = f x) \/ (h' <> h /\ y = x)).
Proof.
  revert h h'. induction l as [|x l IH]; intros h h' Hy.
  - destruct h; discriminate Hy.
  - destruct h as [|h], h' as [|h']; cbn in Hy |- *.
    + apply Some_eq_inv in Hy. exists x. split; [reflexivity|]. left. auto.
    + exists y. split; [exact Hy|]. right. auto.
    + apply Some_eq_inv in Hy. exists x. split; [reflexivity|]. right. auto.
    + destruct (IH h h' Hy) as (x' & Hx' & Hcase). exists x'.
      split; [exact Hx'|]. destruct Hcase as [[-> ->]|[Hne ->]]; [left|right]; auto.
Qed.

Lemma lookup_alter_some {A : Type} (f : A -> A) (h h' : nat) (l : list A) (x : A) :
  l !! h' = Some x ->
  alter f h l !! h' = Some (if Nat.eqb h' h then f x else x).
Proof.
  revert h h'. induction l as [|x0 l IH]; intros h h' Hx.
  - destruct h'; discriminate Hx.
  - destruct h as [|h], h' as [|h']; cbn in Hx |- *.
    + apply Some_eq_inv in Hx. subst x0. reflexivity.
    + exact Hx.
    + exact Hx.
    + apply IH. exact Hx.
Qed.

Lemma read_slot_record (sl : Slot) (a : Action) (w : World) :
  read_slot sl (record a w) = read_slot sl w.
Proof. destruct sl; reflexivity. Qed.

Lemma read_slot_update_child (sl : Slot) (h : Handle) (f : Proc -> Proc)
    (w : World) :
  read_slot sl (update_child h f w) = read_slot sl w.
Proof. destruct sl; reflexivity. Qed.

Lemma read_slot_set_children (sl : Slot) (cs : list Proc) (w : World) :
  read_slot sl (set_children cs w) = read_slot sl w.
Proof. destruct sl; reflexivity. Qed.

Lemma read_slot_write_same (sl : Slot) (v : option Handle) (w : World) :
  read_slot sl (write_slot sl v w) = v.
Proof. destruct sl; reflexivity. Qed.

Lemma children_write_slot (sl : Slot) (v : option Handle) (w : World) :
  children (write_slot sl v w) = children w.
Proof. destruct sl; reflexivity. Qed.

(** Changing a child keeps the invariant when its command stays and, for a
    runtime child, its signalled flag stays. *)
Lemma runtime_untouched_update (h : Handle) (f : Proc -> Proc) (w : World) :
  (forall p, p_spec (f p) = p_spec p) ->
  (forall p, children w !! h = Some p -> is_runtime p = true ->
             p_signalled (f p) = p_signalled p) ->
  runtime_untouched w -> runtime_untouched (update_child h f w).
Proof.
  intros Hspec Hsig [Hrt Hslots]. split.
  - intros h' p' Hp' Hr. cbn in Hp'.
    destruct (lookup_alter_inv _ _ _ _ _ Hp') as (p & Hp & [[-> ->]|[_ ->]]).
    + unfold is_runtime in Hr. rewrite Hspec in Hr.
      rewrite (Hsig p Hp Hr). apply (Hrt h p Hp Hr).
    + apply (Hrt h' p Hp Hr).
  - intros sl h' Hsl. rewrite read_slot_update_child in Hsl.
    destruct (Hslots sl h' Hsl) as (p & Hp & Hnr).
    exists (if Nat.eqb h' h then f p else p). split.
    + cbn. apply lookup_alter_some, Hp.
    + destruct (Nat.eqb h' h); [|exact Hnr].
      unfold is_runtime. rewrite Hspec. exact Hnr.
Qed.

Lemma runtime_untouched_record (a : Action) (w : World) :
  runtime_untouched w -> runtime_untouched (record a w).
Proof.
  intros [Hrt Hslots]. split; [exact Hrt|].
  intros sl h Hsl. rewrite read_slot_record in Hsl. apply (Hslots sl h Hsl).
Qed.

Lemma runtime_untouched_stable : stable runtime_untouched.
Proof.
  constructor.
  - apply runtime_untouched_record.
  - intros b w [Hrt Hslots]. split; [exact Hrt|].
    intros sl h Hsl. apply (Hslots sl h). destruct sl; exact Hsl.
  - intros b w [Hrt Hslots]. split; [exact Hrt|].
    intros sl h Hsl. apply (Hslots sl h). destruct sl; exact Hsl.
  - intros h code w. apply runtime_untouched_update; reflexivity.
  - intros sl w [Hrt Hslots]. split.
    + intros h p Hp. rewrite children_write_slot in Hp. apply (Hrt h p Hp).
    + intros sl' h Hsl'. rewrite children_write_slot.
      apply (Hslots sl' h).
      destruct sl, sl'; cbn in Hsl' |- *; try discriminate; exact Hsl'.
  - intros sl h w Hinv Hsl. apply runtime_untouched_update; [| |exact Hinv].
    + intros p. unfold signal. destruct (live p); reflexivity.
    + intros p Hp Hr. destruct Hinv as [_ Hslots].
      destruct (Hslots sl h Hsl) as (p' & Hp' & Hnr).
      rewrite Hp in Hp'. apply Some_eq_inv in Hp'. subst p'.
      rewrite Hr in Hnr. discriminate Hnr.
Qed.

(** A new child is not signalled. *)
Lemma runtime_untouched_spawn (s : SpawnSpec) (w : World) :
  runtime_untouched w ->
  runtime_untouched (set_children (children w ++ [fresh_proc s]) w).
Proof.
  intros [Hrt Hslots]. split.
  - intros h p Hp Hr. cbn in Hp.
    apply lookup_app_Some in Hp. destruct Hp as [Hp|[_ Hp]].
    + apply (Hrt h p Hp Hr).
    + destruct (h - length (children w))%nat; cbn in Hp; [|discriminate].
      apply Some_eq_inv in Hp. subst p. reflexivity.
  - intros sl h Hsl. rewrite read_slot_set_children in Hsl.
    destruct (Hslots sl h Hsl) as (p & Hp & Hnr).
    exists p. split; [|exact Hnr]. cbn. apply lookup_app_l_Some, Hp.
Qed.

(** Storing the handle of a child that is not the runtime. *)
Lemma runtime_untouched_store (sl : Slot) (h : Handle) (p : Proc) (w : World) :
  children w !! h = Some p -> is_runtime p = false ->
  runtime_untouched w -> runtime_untouched (write_slot sl (Some h) w).
Proof.
  intros Hp Hnr [Hrt Hslots]. split.
  - intros h' p' Hp'. rewrite children_write_slot in Hp'. apply (Hrt h' p' Hp').
  - intros sl' h' Hsl'. rewrite children_write_slot.
    destruct sl, sl'; cbn in Hsl'.
    + apply Some_eq_inv in Hsl'. subst h'. exists p. auto.
    + apply (Hslots frontendSlot h' Hsl').
    + apply (Hslots backendSlot h' Hsl').
    + apply Some_eq_inv in Hsl'. subst h'. exists p. auto.
Qed.

End RuntimeUntouched.

Section SyncRules.

Variable Inv : World -> Prop.

(** The rules of [wp] for one synchronous operation. *)
Lemma wp_log {A : Type} (msg : string) (k : unit -> Prog A)
    (Q : A -> World -> Prop) (w : World) :
  wp Inv (k tt) Q (record (ALog msg) w) -> wp Inv (Do (ELog msg) k) Q w.
Proof. intros H. exact H. Qed.

Lemma wp_spawn {A : Type} (s : SpawnSpec) (k : Handle -> Prog A)
    (Q : A -> World -> Prop) (w : World) :
  wp Inv (k (length (children w))) Q
     (record (ASpawn (length (children w)) s)
        (set_children (children w ++ [fresh_proc s]) w)) ->
  wp Inv (Do (ESpawn s) k) Q w.
Proof. intros H. exact H. Qed.

Lemma wp_write {A : Type} (sl : Slot) (v : option Handle) (k : unit -> Prog A)
    (Q : A -> World -> Prop) (w : World) :
  wp Inv (k tt) Q (write_slot sl v w) -> wp Inv (Do (EWriteSlot sl v) k) Q w.
Proof. intros H. exact H. Qed.

Lemma wp_on {A : Type} (sl : Slot) (hk : HandlerKind) (h : Handle)
    (k : unit -> Prog A) (Q : A -> World -> Prop) (w : World) :
  read_slot sl w = Some h ->
  wp Inv (k tt) Q (record (AOn h hk) (update_child h (add_handler hk) w)) ->
  wp Inv (Do (EOnSlot sl hk) k) Q w.
Proof. intros Hsl H. cbn [wp perform]. rewrite Hsl. exact H. Qed.

Lemma wp_unref {A : Type} (h : Handle) (k : unit -> Prog A)
    (Q : A -> World -> Prop) (w : World) :
  wp Inv (k tt) Q (record (AUnref h) (update_child h mark_unref w)) ->
  wp Inv (Do (EUnref h) k) Q w.
Proof. intros H. exact H. Qed.

Lemma wp_error_box {A : Type} (title : string) (k : unit -> Prog A)
    (Q : A -> World -> Prop) (w : World) :
  wp Inv (k tt) Q (record (AErrorBox title) w) ->
  wp Inv (Do (EShowErrorBox title) k) Q w.
Proof. intros H. exact H. Qed.

Lemma wp_await {A X : Type} (pd : Awaitable X) (k : X -> Prog A)
    (Q : A -> World -> Prop) (w : World) :
  Inv (issue pd w) ->
  (forall x w', Inv w' -> wp Inv (k x) Q w') ->
  wp Inv (Await pd k) Q w.
Proof. intros Hi Hk. split; assumption. Qed.

End SyncRules.

Ltac read_stored :=
  rewrite ?read_slot_record, ?read_slot_update_child, ?read_slot_set_children,
    ?read_slot_write_same;
  reflexivity.

Section RuntimeSafety.

Variable cfg : Config.

Let Hst := runtime_untouched_stable.

Lemma backend_is_not_runtime :
  String.eqb (sp_cmd (backendSpec cfg)) "ollama" = false.
Proof.
  cbn [backendSpec sp_cmd]. destruct (pythonCmd_cases cfg) as [-> | ->];
    reflexivity.
Qed.

Lemma lookup_new_child (s : SpawnSpec) (w : World) :
  (children w ++ [fresh_proc s]) !! length (children w) = Some (fresh_proc s).
Proof. apply list_lookup_middle. reflexivity. Qed.

Lemma wp_checkOllama (Q : bool -> World -> Prop) (w : World) :
  (forall b w', runtime_untouched w' -> Q b w') ->
  runtime_untouched w -> wp runtime_untouched checkOllama Q w.
Proof.
  intros HQ Hw. unfold checkOllama. cbn [bind await log call].
  apply wp_await; [apply runtime_untouched_record, Hw|].
  intros [|] w1 Hw1.
  - apply wp_log. apply HQ, runtime_untouched_record, Hw1.
  - apply wp_log, wp_spawn, wp_unref.
    assert (Hlaunched : runtime_untouched
      (record (AUnref (length (children (record (ALog "Attempting to start Ollama...") w1))))
         (update_child (length (children (record (ALog "Attempting to start Ollama...") w1)))
            mark_unref
            (record (ASpawn (length (children (record (ALog "Attempting to start Ollama...") w1))) ollamaSpec)
               (set_children
                  (children (record (ALog "Attempting to start Ollama...") w1)
                   ++ [fresh_proc ollamaSpec])
                  (record (ALog "Attempting to start Ollama...") w1)))))).
    { apply runtime_untouched_record.
      apply runtime_untouched_update; [reflexivity|reflexivity|].
      apply runtime_untouched_record, runtime_untouched_spawn,
        runtime_untouched_record, Hw1. }
    apply wp_await; [apply runtime_untouched_record, Hlaunched|].
    intros _ w2 Hw2.
    apply wp_await; [apply runtime_untouched_record, Hw2|].
    intros [|] w3 Hw3; apply wp_log; apply HQ, runtime_untouched_record, Hw3.
Qed.

Lemma wp_startBackend (Q : bool -> World -> Prop) (w : World) :
  (forall b w', runtime_untouched w' -> Q b w') ->
  runtime_untouched w -> wp runtime_untouched (startBackend cfg) Q w.
Proof.
  intros HQ Hw. unfold startBackend. cbn [bind await log call].
  apply wp_await; [apply runtime_untouched_record, Hw|].
  intros [|] w1 Hw1.
  - apply wp_log. apply HQ, runtime_untouched_record, Hw1.
  - apply wp_log, wp_spawn, wp_write.
    eapply wp_on; [read_stored|].
    eapply wp_on; [read_stored|].
    eapply wp_on; [read_stored|].
    eapply wp_on; [read_stored|].
    apply wp_waitForService; [exact Hst|exact HQ|].
    repeat (apply runtime_untouched_record
            || (apply runtime_untouched_update; [reflexivity|reflexivity|])).
    eapply runtime_untouched_store.
    + cbn [record children set_children]. apply lookup_new_child.
    + exact backend_is_not_runtime.
    + apply runtime_untouched_record, runtime_untouched_spawn,
        runtime_untouched_record, Hw1.
Qed.

Lemma wp_startFrontend (Q : bool -> World -> Prop) (w : World) :
  (forall b w', runtime_untouched w' -> Q b w') ->
  runtime_untouched w -> wp runtime_untouched (startFrontend cfg) Q w.
Proof.
  intros HQ Hw. unfold startFrontend.
  destruct (isDev cfg); [|apply HQ, Hw].
  cbn [bind await log call].
  apply wp_await; [apply runtime_untouched_record, Hw|].
  intros [|] w1 Hw1.
  - apply wp_log. apply HQ, runtime_untouched_record, Hw1.
  - apply wp_log, wp_spawn, wp_write.
    eapply wp_on; [read_stored|].
    eapply wp_on; [read_stored|].
    apply wp_waitForService; [exact Hst|exact HQ|].
    repeat (apply runtime_untouched_record
            || (apply runtime_untouched_update; [reflexivity|reflexivity|])).
    eapply runtime_untouched_store.
    + cbn [record children set_children]. apply lookup_new_child.
    + reflexivity.
    + apply runtime_untouched_record, runtime_untouched_spawn,
        runtime_untouched_record, Hw1.
Qed.

Lemma safe_restartBackendHandler :
  safe runtime_untouched (restartBackendHandler cfg).
Proof.
  intros w Hw. unfold restartBackendHandler. apply wp_bind.
  apply wp_killAndClear; [exact Hst|exact Hw|].
  intros w1 Hw1. apply wp_startBackend; [|exact Hw1]. intros b w2 Hw2. exact Hw2.
Qed.

Lemma safe_whenReady : safe runtime_untouched (whenReady cfg).
Proof.
  intros w Hw. unfold whenReady.
  cbn [bind log call createMenu createWindow wp perform].
  apply wp_bind, wp_checkOllama;
    [|apply runtime_untouched_record, (stable_window _ Hst),
        runtime_untouched_record, runtime_untouched_record, Hw].
  intros ollamaReady w1 Hw1. apply wp_bind.
  assert (Hbox : forall (ready : bool) (title : string) (Q : unit -> World -> Prop)
                        (w0 : World),
            (forall w', runtime_untouched w' -> Q tt w') ->
            runtime_untouched w0 ->
            wp runtime_untouched
               (if negb ready then call (EShowErrorBox title) else Ret tt) Q w0).
  { intros ready title Q w0 HQ Hw0. destruct ready; cbn.
    - apply HQ, Hw0.
    - apply HQ, runtime_untouched_record, Hw0. }
  apply Hbox; [|exact Hw1]. intros w2 Hw2.
  apply wp_bind, wp_startBackend; [|exact Hw2].
  intros backendReady w3 Hw3. apply wp_bind.
  apply Hbox; [|exact Hw3]. intros w4 Hw4.
  apply wp_bind.
  assert (Hfront : wp runtime_untouched
                      (if isDev cfg then bind (startFrontend cfg) (fun _ => Ret tt)
                       else Ret tt)
                      (fun _ w' => runtime_untouched w') w4).
  { destruct (isDev cfg); [|exact Hw4].
    apply wp_bind, wp_startFrontend; [|exact Hw4]. intros b w5 Hw5. exact Hw5. }
  eapply wp_mono; [|exact Hfront]. intros u w5 Hw5.
  unfold createTray. cbn [bind call log wp perform].
  destruct (trayIconExists cfg); cbn [wp].
  - apply runtime_untouched_record, runtime_untouched_record,
      (stable_tray _ Hst), Hw5.
  - apply runtime_untouched_record, Hw5.
Qed.

(** Every state the loop can reach satisfies the invariant, and so does
    every task suspended in it. *)
Lemma reachable_runtime_untouched (st : State) :
  reachable cfg st -> state_inv runtime_untouched st.
Proof.
  induction 1 as [|ev st st' _ IH Hstep].
  - split; [|constructor]. split.
    + intros h p Hp. destruct h; discriminate Hp.
    + intros sl h Hsl. destruct sl; discriminate Hsl.
  - eapply step_state_inv; [exact Hst| | |exact IH|exact Hstep].
    + intros _. exact safe_whenReady.
    + intros args _. exact safe_restartBackendHandler.
Qed.

End RuntimeSafety.

(* ===================================================================== *)
(** ** Shutdown *)
(* ===================================================================== *)

Section Shutdown.

Variable cfg : Config.

Lemma advance_killAndClear_last (sl : Slot) (w : World) :
  advance (killAndClear sl) w = (Ret tt, kill_and_clear sl w).
Proof.
  unfold killAndClear, kill_and_clear. cbn [bind call advance perform].
  destruct (read_slot sl w) as [h|] eqn:Hslot.
  - cbn [bind call advance perform]. rewrite Hslot. reflexivity.
  - reflexivity.
Qed.

(** The 'before-quit' listener has no suspension point: it runs to its end
    within the callback. *)
Lemma advance_beforeQuit (w : World) :
  advance beforeQuit w
  = (Ret tt,
     kill_and_clear frontendSlot
       (kill_and_clear backendSlot (record (ALog "App quitting...") w))).
Proof.
  unfold beforeQuit. cbn [bind log call advance perform].
  rewrite advance_killAndClear. apply advance_killAndClear_last.
Qed.

Lemma exit_status_alter_signal (h h' : nat) (cs : list Proc) :
  p_exit <$> (alter signal h cs !! h') = p_exit <$> (cs !! h').
Proof.
  revert h h'. induction cs as [|p cs IH]; intros h h'.
  - destruct h; reflexivity.
  - destruct h as [|h], h' as [|h']; cbn.
    + unfold signal. destruct (live p); reflexivity.
    + reflexivity.
    + reflexivity.
    + apply IH.
Qed.

Lemma exit_status_kill_and_clear (sl : Slot) (w : World) (h' : nat) :
  p_exit <$> (children (kill_and_clear sl w) !! h')
  = p_exit <$> (children w !! h').
Proof.
  unfold kill_and_clear. destruct (read_slot sl w) as [h|]; [|reflexivity].
  rewrite children_write_slot. cbn. apply exit_status_alter_signal.
Qed.

Lemma read_slot_kill_and_clear_same (sl : Slot) (w : World) :
  read_slot sl (kill_and_clear sl w) = None.
Proof.
  unfold kill_and_clear. destruct (read_slot sl w) as [h|] eqn:Hsl.
  - apply read_slot_write_same.
  - exact Hsl.
Qed.

Lemma frontend_after_backend_cleared (w : World) :
  frontendProcess (kill_and_clear backendSlot w) = frontendProcess w.
Proof.
  unfold kill_and_clear. cbn [read_slot].
  destruct (backendProcess w); reflexivity.
Qed.

Lemma backend_after_frontend_cleared (w : World) :
  backendProcess (kill_and_clear frontendSlot w) = backendProcess w.
Proof.
  unfold kill_and_clear. cbn [read_slot].
  destruct (frontendProcess w); reflexivity.
Qed.

(** C7, as amended.  In every state the loop can reach: no child launched
    as [ollama serve] has ever been signalled; and when the application
    quits, the 'before-quit' listener signals the child whose handle is
    stored for the backend and the one stored for the dev server, clears both
    handles, and returns at once.  It suspends on nothing, so it waits
    neither for an exit nor for a grace window: the exit status of every
    child is what it was before the listener ran. *)
Theorem quit_signals_stored_children (st : State) :
  reachable cfg st ->
  (forall (h : Handle) (p : Proc),
     children (world st) !! h = Some p -> is_runtime p = true ->
     p_signalled p = false)
  /\ (quitting st = false ->
      exists st' : State,
        step cfg EvBeforeQuit st = Some st'
        /\ quitting st' = true
        /\ tasks st' = tasks st
        /\ fst (advance beforeQuit (world st)) = Ret tt
        /\ history (world st')
           = history (world st)
             ++ [ALog "App quitting..."]
             ++ kill_of (backendProcess (world st))
             ++ kill_of (frontendProcess (world st))
        /\ backendProcess (world st') = None
        /\ frontendProcess (world st') = None
        /\ (forall h : Handle,
              p_exit <$> (children (world st') !! h)
              = p_exit <$> (children (world st) !! h))).
Proof.
  intros Hreach. split.
  - destruct (reachable_runtime_untouched cfg st Hreach) as [[Hrt _] _].
    exact Hrt.
  - intros Hq. exists (deliver_quit st).
    split; [unfold step; rewrite Hq; reflexivity|].
    split; [reflexivity|]. split; [reflexivity|].
    split; [rewrite advance_beforeQuit; reflexivity|].
    cbn [deliver_quit world]. unfold run_listener.
    rewrite advance_beforeQuit. cbn [snd].
    split.
    { rewrite !history_kill_and_clear. cbn [read_slot].
      rewrite frontend_after_backend_cleared. cbn [record history frontendProcess backendProcess].
      rewrite <- !app_assoc. reflexivity. }
    split.
    { rewrite backend_after_frontend_cleared.
      apply (read_slot_kill_and_clear_same backendSlot). }
    split.
    { apply (read_slot_kill_and_clear_same frontendSlot). }
    intros h. rewrite !exit_status_kill_and_clear. reflexivity.
Qed.

End Shutdown.

(* ===================================================================== *)
(** ** Concrete runs *)
(* ===================================================================== *)

Lemma run_reachable (cfg : Config) (evs : list Event) :
  forall st st' : State,
    reachable cfg st -> run cfg evs st = Some st' -> reachable cfg st'.
Proof.
  induction evs as [|ev evs IH]; intros st st' Hreach Hrun; cbn [run] in Hrun.
  - apply Some_eq_inv in Hrun. subst st'. exact Hreach.
  - destruct (step cfg ev st) as [st1|] eqn:Hstep; [|discriminate Hrun].
    apply (IH st1 st'); [|exact Hrun].
    apply (reachable_step cfg ev st st1); assumption.
Qed.

Lemma after_startup_run :
  run mac_release startup_events initial = Some after_startup.
Proof. vm_compute. reflexivity. Qed.

Lemma after_startup_reachable : reachable mac_release after_startup.
Proof.
  apply (run_reachable mac_release startup_events initial).
  - apply reachable_initial.
  - exact after_startup_run.
Qed.

(** Quitting after start-up: child 0 is signalled, both handles are
    cleared, and no ollama child was touched. *)
Lemma quit_signals_stored_children_witness :
  reachable mac_release after_startup
  /\ (forall (h : Handle) (p : Proc),
        children (world after_startup) !! h = Some p -> is_runtime p = true ->
        p_signalled p = false)
  /\ exists st' : State,
       step mac_release EvBeforeQuit after_startup = Some st'
       /\ quitting st' = true
       /\ tasks st' = tasks after_startup
       /\ fst (advance beforeQuit (world after_startup)) = Ret tt
       /\ history (world st')
          = history (world after_startup)
            ++ [ALog "App quitting..."]
            ++ kill_of (backendProcess (world after_startup))
            ++ kill_of (frontendProcess (world after_startup))
       /\ backendProcess (world st') = None
       /\ frontendProcess (world st') = None
       /\ (forall h : Handle,
             p_exit <$> (children (world st') !! h)
             = p_exit <$> (children (world after_startup) !! h)).
Proof.
  split; [exact after_startup_reachable|].
  destruct (quit_signals_stored_children mac_release after_startup
              after_startup_reachable) as [Hruntime Hquit].
  split; [exact Hruntime|]. apply Hquit. reflexivity.
Defined.

(** C7, as stated, fails: the 'before-quit' listener has returned and the
    application is closing while the backend child, signalled, has not
    exited; the signal is the last thing that happened, no timer was
    started, and no task is left waiting. *)
Lemma quit_returns_while_backend_lives :
  exists st' : State,
    run mac_release (startup_events ++ [EvBeforeQuit]) initial = Some st'
    /\ quitting st' = true
    /\ (exists p : Proc,
          children (world st') !! 0%nat = Some p
          /\ is_backend mac_release p = true
          /\ p_signalled p = true /\ p_exit p = None)
    /\ (exists acts : list Action,
          history (world st') = acts ++ [ALog "App quitting..."; AKill 0%nat])
    /\ tasks st' = [Ret None].
Proof.
  eexists. split; [vm_compute; reflexivity|].
  split; [reflexivity|]. split.
  - eexists. split; [reflexivity|]. repeat split.
  - split; [|reflexivity]. eexists.
    cbn [world history]. 
    match goal with |- ?l = _ =>
      rewrite <- (take_drop (length l - 2) l) end.
    cbn [length Nat.sub take drop]. reflexivity.
Qed.

(** C1, as stated, fails: after one restart request two backend children
    are alive, the old one signalled and not yet exited, the new one
    stored. *)
Lemma restart_spawns_beside_live_backend :
  exists st : State,
    run mac_release restart_events initial = Some st
    /\ length (live_backends mac_release (world st)) = 2%nat
    /\ (exists p0 p1 : Proc,
          children (world st) = [p0; p1]
          /\ p_signalled p0 = true /\ p_exit p0 = None
          /\ p_signalled p1 = false /\ p_exit p1 = None)
    /\ backendProcess (world st) = Some 1%nat
    /\ kills (history (world st)) = [0%nat]
    /\ spawns (history (world st)) = ["python3"; "python3"].
Proof.
  eexists. split; [vm_compute; reflexivity|].
  split; [reflexivity|]. split.
  - eexists. eexists. split; [reflexivity|]. repeat split.
  - repeat split.
Qed.

(* ===================================================================== *)
(** ** Restarting the backend *)
(* ===================================================================== *)

Section Restart.

Variable cfg : Config.

Lemma startBackend_unfold :
  startBackend cfg = Await (PCheck BACKEND_PORT) (startBackend_after_probe cfg).
Proof. reflexivity. Qed.

Lemma advance_restart (w : World) :
  advance (replying (ipcHandler cfg ChRestartBackend [])) w
  = (restart_suspended cfg,
     record (AProbe BACKEND_PORT) (kill_and_clear backendSlot w)).
Proof.
  unfold replying, ipcHandler, restartBackendHandler, killAndClear,
    kill_and_clear.
  rewrite startBackend_unfold.
  cbn [bind call advance perform read_slot].
  destruct (backendProcess w) as [h|] eqn:Hb.
  - cbn [bind call advance perform read_slot]. rewrite Hb.
    cbn [bind call advance perform issue]. reflexivity.
  - cbn [bind call advance perform issue]. reflexivity.
Qed.

Lemma waitForService_default_unfold :
  waitForService BACKEND_PORT DEFAULT_MAX_ATTEMPTS
  = Await (PCheck BACKEND_PORT)
      (fun ok : bool =>
         if ok then Ret true
         else Await (PTimer 1000)
                (fun _ => waitForService_loop 29 BACKEND_PORT 1 30)).
Proof. reflexivity. Qed.

(** Resuming the restart task after a failed probe: the backend is spawned
    and stored, and the task suspends on the first probe of
    [waitForService]. *)
Lemma advance_restart_launch (w : World) :
  exists (t : Task) (w' : World),
    advance (replying (bind (startBackend_after_probe cfg false)
                            (fun b => Ret (RBool b)))) w
    = (t, w')
    /\ (exists k, t = Await (PCheck BACKEND_PORT) k)
    /\ children w' = children w ++ [backend_child cfg]
    /\ backendProcess w' = Some (length (children w))
    /\ frontendProcess w' = frontendProcess w
    /\ history w'
       = history w ++ tl (backend_launch cfg (length (children w)))
         ++ [AProbe BACKEND_PORT].
Proof.
  unfold replying, startBackend_after_probe.
  rewrite waitForService_default_unfold.
  cbn [bind log call advance perform read_slot write_slot record
       update_child set_children backendProcess frontendProcess children
       history mainWindow tray issue].
  eexists. eexists. split; [reflexivity|].
  split; [eexists; reflexivity|].
  flatten_world.
  repeat split.
Qed.

Lemma insert_last {A : Type} (l : list A) (x y : A) :
  <[length l := y]> (l ++ [x]) = l ++ [y].
Proof.
  induction l as [|z l IH]; cbn; [reflexivity|]. f_equal. exact IH.
Qed.

Lemma lookup_last {A : Type} (l : list A) (x : A) :
  (l ++ [x]) !! length l = Some x.
Proof. apply list_lookup_middle. reflexivity. Qed.

Lemma step_restart (st : State) (args : list JsVal) :
  quitting st = false -> mainWindow (world st) = true ->
  step cfg (EvInvoke "restartBackend" args) st
  = Some (mkState
            (record (AProbe BACKEND_PORT)
               (kill_and_clear backendSlot (world st)))
            (tasks st ++ [restart_suspended cfg]) (started st) (quitting st)).
Proof.
  intros Hq Hwin. unfold step. rewrite Hq, Hwin.
  change (bridgeTask cfg "restartBackend" args)
    with (Some (ipcHandler cfg ChRestartBackend [])).
  cbn iota. unfold start_task. rewrite advance_restart.
  rewrite ?Hq. reflexivity.
Qed.

(** C1, as amended.  The backend has one handle variable.  A restart
    request signals the stored child, if any, clears the variable and issues
    the probe of the backend port, all in one callback: no child is spawned
    yet and no exit has been waited for.  When the probe answers, nothing is
    spawned and the variable stays empty; when it fails, one new backend
    child is spawned and stored. *)
Theorem restart_signals_without_waiting (st : State) (args : list JsVal) :
  quitting st = false -> mainWindow (world st) = true ->
  exists st1 : State,
    step cfg (EvInvoke "restartBackend" args) st = Some st1
    /\ history (world st1)
       = history (world st) ++ kill_of (backendProcess (world st))
         ++ [AProbe BACKEND_PORT]
    /\ backendProcess (world st1) = None
    /\ length (children (world st1)) = length (children (world st))
    /\ (forall h : Handle,
          p_exit <$> (children (world st1) !! h)
          = p_exit <$> (children (world st) !! h))
    /\ tasks st1 = tasks st ++ [restart_suspended cfg]
    /\ forall o : NetOutcome,
         exists st2 : State,
           step cfg (EvResume (length (tasks st)) (AnsNet o)) st1 = Some st2
           /\ if responded o
              then children (world st2) = children (world st1)
                   /\ backendProcess (world st2) = None
                   /\ tasks st2 !! length (tasks st)
                      = Some (Ret (Some (RBool true)))
              else children (world st2)
                   = children (world st1) ++ [backend_child cfg]
                   /\ backendProcess (world st2)
                      = Some (length (children (world st1))).
Proof.
  intros Hq Hwin. eexists. split; [apply step_restart; assumption|].
  cbn [world tasks].
  assert (Hcleared : backendProcess (kill_and_clear backendSlot (world st)) = None)
    by apply (read_slot_kill_and_clear_same backendSlot).
  split.
  { cbn [record history]. rewrite history_kill_and_clear, <- app_assoc.
    reflexivity. }
  split; [exact Hcleared|].
  split.
  { cbn [record children]. unfold kill_and_clear.
    destruct (read_slot backendSlot (world st)); [|reflexivity].
    rewrite children_write_slot. cbn [record update_child set_children children].
    apply length_alter. }
  split; [intros h; apply (exit_status_kill_and_clear backendSlot)|].
  split; [reflexivity|].
  intros o. unfold step. cbn [quitting tasks world started]. rewrite Hq.
  rewrite lookup_last.
  unfold restart_suspended at 1. cbn [resume settle].
  rewrite checkService_value by reflexivity.
  destruct (responded o).
  - cbn [replying startBackend_after_probe bind log call advance perform].
    eexists. split; [reflexivity|]. cbn [world tasks].
    split; [reflexivity|]. split; [exact Hcleared|].
    rewrite insert_last. apply lookup_last.
  - destruct (advance_restart_launch
                (record (AProbe BACKEND_PORT)
                   (kill_and_clear backendSlot (world st))))
      as (t & w' & Hadv & _ & Hch & Hbp & _).
    rewrite Hadv. eexists. split; [reflexivity|]. cbn [world].
    split; [exact Hch|exact Hbp].
Qed.

End Restart.

(** A restart after start-up: child 0 is signalled and not waited for. *)
Lemma restart_signals_without_waiting_witness :
  quitting after_startup = false
  /\ mainWindow (world after_startup) = true
  /\ exists st1 : State,
       step mac_release (EvInvoke "restartBackend" []) after_startup = Some st1
       /\ history (world st1)
          = history (world after_startup)
            ++ kill_of (backendProcess (world after_startup))
            ++ [AProbe BACKEND_PORT]
       /\ backendProcess (world st1) = None
       /\ length (children (world st1)) = length (children (world after_startup)).
Proof.
  split; [reflexivity|]. split; [reflexivity|].
  destruct (restart_signals_without_waiting mac_release after_startup []
              eq_refl eq_refl)
    as (st1 & Hstep & Hhist & Hb & Hlen & _).
  exists st1. repeat split; assumption.
Defined.

(* ===================================================================== *)
(** ** Exits and later requests *)
(* ===================================================================== *)

Section Exits.

Variable cfg : Config.

Lemma exit_handlers_clear (code : option Z) (hks : list HandlerKind) :
  forall w : World,
    backendProcess w = None \/ In OnExitClearBackend hks ->
    backendProcess
      (fold_left
         (fun w hk => if is_exit_handler hk then onBackendExit code w else w)
         hks w)
    = None.
Proof.
  induction hks as [|hk hks IH]; intros w Hw; cbn [fold_left].
  - destruct Hw as [Hw|[]]. exact Hw.
  - apply IH. destruct hk; cbn [is_exit_handler];
      try (destruct Hw as [Hw|[Hw|Hw]]; [left; exact Hw|discriminate Hw|right; exact Hw]).
    left. reflexivity.
Qed.

Lemma alter_id_at {A : Type} (f : A -> A) (h : nat) (l : list A) (x : A) :
  l !! h = Some x -> f x = x -> alter f h l = l.
Proof.
  revert h. induction l as [|y l IH]; intros h Hx Hf.
  - reflexivity.
  - destruct h as [|h]; cbn in Hx |- *.
    + apply Some_eq_inv in Hx. subst y. rewrite Hf. reflexivity.
    + f_equal. apply (IH h Hx Hf).
Qed.

(** [kill()] on a child that has exited changes nothing and does not
    throw. *)
Lemma kill_exited_is_noop (sl : Slot) (h : Handle) (p : Proc) (w : World) :
  read_slot sl w = Some h -> children w !! h = Some p -> live p = false ->
  perform (EKillSlot sl) w = (Some tt, record (AKill h) w).
Proof.
  intros Hsl Hp Hdead. cbn [perform]. rewrite Hsl.
  assert (Hsame : update_child h signal w = w).
  { unfold update_child.
    rewrite (alter_id_at signal h (children w) p Hp).
    - destruct w; reflexivity.
    - unfold signal. rewrite Hdead. reflexivity. }
  rewrite Hsame. reflexivity.
Qed.

(** C8.  Once the exit of a backend child has been delivered, the stored
    backend handle is cleared.  A restart request that follows does not call
    [kill]: its callback only issues the probe, touches no child and throws
    nothing; the 'before-quit' listener likewise signals at most the
    dev-server child.  And where [kill] is called on a stored handle whose
    child has exited, it changes nothing and does not throw. *)
Theorem restart_after_exit_skips_kill (st st1 : State) (h : Handle)
    (code : option Z) :
  step cfg (EvChildExit h code) st = Some st1 ->
  (exists p : Proc,
     children (world st) !! h = Some p /\ In OnExitClearBackend (p_handlers p)) ->
  backendProcess (world st1) = None
  /\ (mainWindow (world st1) = true ->
      forall args : list JsVal,
        exists st2 : State,
          step cfg (EvInvoke "restartBackend" args) st1 = Some st2
          /\ history (world st2) = history (world st1) ++ [AProbe BACKEND_PORT]
          /\ children (world st2) = children (world st1)
          /\ tasks st2 = tasks st1 ++ [restart_suspended cfg])
  /\ (exists st3 : State,
        step cfg EvBeforeQuit st1 = Some st3
        /\ history (world st3)
           = history (world st1) ++ [ALog "App quitting..."]
             ++ kill_of (frontendProcess (world st1)))
  /\ (forall (sl : Slot) (h' : Handle) (p' : Proc) (w : World),
        read_slot sl w = Some h' -> children w !! h' = Some p' ->
        live p' = false ->
        perform (EKillSlot sl) w = (Some tt, record (AKill h') w)).
Proof.
  intros Hstep (p & Hp & Hhandler).
  unfold step in Hstep.
  destruct (quitting st) eqn:Hq; [discriminate Hstep|].
  rewrite Hp in Hstep. destruct (live p); [|discriminate Hstep].
  apply Some_eq_inv in Hstep. subst st1.
  assert (Hcleared :
    backendProcess
      (run_exit_handlers p code (update_child h (mark_exit code) (world st)))
    = None).
  { unfold run_exit_handlers. apply exit_handlers_clear. right. exact Hhandler. }
  cbn [with_world world tasks quitting started].
  split; [exact Hcleared|]. split; [|split].
  - intros Hwin args. eexists.
    split; [apply step_restart; [exact Hq|exact Hwin]|].
    cbn [world tasks with_world].
    unfold kill_and_clear. cbn [read_slot]. rewrite Hcleared.
    repeat split.
  - eexists. split; [unfold step; cbn [quitting with_world]; rewrite Hq; reflexivity|].
    cbn [deliver_quit world with_world]. unfold run_listener.
    rewrite advance_beforeQuit. cbn [snd].
    rewrite !history_kill_and_clear. cbn [read_slot].
    rewrite frontend_after_backend_cleared.
    cbn [record backendProcess frontendProcess history].
    rewrite Hcleared. cbn [app]. rewrite <- !app_assoc. reflexivity.
  - intros sl h' p' w. apply kill_exited_is_noop.
Qed.

End Exits.

(** After start-up the backend child 0 exits with code 1. *)
Lemma restart_after_exit_skips_kill_witness :
  exists st1 : State,
    step mac_release (EvChildExit 0%nat (Some 1)) after_startup = Some st1
    /\ (exists p : Proc,
          children (world after_startup) !! 0%nat = Some p
          /\ In OnExitClearBackend (p_handlers p))
    /\ backendProcess (world st1) = None
    /\ exists st2 : State,
         step mac_release (EvInvoke "restartBackend" []) st1 = Some st2
         /\ history (world st2) = history (world st1) ++ [AProbe BACKEND_PORT]
         /\ children (world st2) = children (world st1).
Proof.
  eexists. split; [reflexivity|].
  assert (Hhandler : exists p : Proc,
            children (world after_startup) !! 0%nat = Some p
            /\ In OnExitClearBackend (p_handlers p)).
  { eexists. split; [reflexivity|]. cbn. auto. }
  split; [exact Hhandler|].
  destruct (restart_after_exit_skips_kill mac_release after_startup _ 0%nat
              (Some 1) eq_refl Hhandler) as (Hcleared & Hrestart & _).
  split; [exact Hcleared|].
  destruct (Hrestart eq_refl []) as (st2 & Hstep & Hhist & Hch & _).
  exists st2. repeat split; assumption.
Defined.

(* ===================================================================== *)
(** ** Nothing restarts the backend by itself *)
(* ===================================================================== *)

Section NoAutomaticRestart.

Variable cfg : Config.

Lemma children_count_stable (N : nat) : stable (children_count N).
Proof.
  constructor; unfold children_count.
  - intros a w H. exact H.
  - intros b w H. exact H.
  - intros b w H. exact H.
  - intros h code w H. cbn. rewrite length_alter. exact H.
  - intros sl w H. rewrite children_write_slot. exact H.
  - intros sl h w H _. cbn. rewrite length_alter. exact H.
Qed.

Lemma finished_resumable_safe (Inv : World -> Prop) (t : Task) :
  finished t -> resumable_safe Inv t.
Proof.
  intros Hfin a p Hres. destruct t; cbn in Hfin, Hres; try discriminate Hres;
    contradiction.
Qed.

Lemma step_keeps_children_count (N : nat) (ev : Event) (st st' : State) :
  starts_backend ev = false ->
  state_inv (children_count N) st -> step cfg ev st = Some st' ->
  state_inv (children_count N) st'.
Proof.
  intros Hev. apply step_state_inv.
  - apply children_count_stable.
  - intros ->. discriminate Hev.
  - intros args ->. discriminate Hev.
Qed.

(** Start from a state none of whose suspended tasks spawns a child when
    it is resumed: resumed in a world with the present number of children, each
    keeps that number at every later suspension and at its end.  This holds in
    particular when every task has run to its end; a restart handler still
    suspended on its probe does not satisfy it.  Then whatever happens (exits
    of children, status checks from the renderer or the tray, probes and
    timers completing, window events, quitting), as long as the application is
    not started again and the renderer sends no restart request, no child is
    spawned: a backend that has exited stays down. *)
Theorem no_spawn_without_request (evs : list Event) :
  forall st st' : State,
    Forall (resumable_safe (children_count (length (children (world st)))))
           (tasks st) ->
    Forall (fun ev => starts_backend ev = false) evs ->
    run cfg evs st = Some st' ->
    length (children (world st')) = length (children (world st)).
Proof.
  induction evs as [|ev evs IH]; intros st st' Htasks Hevs Hrun;
    cbn [run] in Hrun.
  - apply Some_eq_inv in Hrun. subst st'. reflexivity.
  - destruct (step cfg ev st) as [st1|] eqn:Hstep; [|discriminate Hrun].
    inversion Hevs as [|ev' evs' Hev Hevs']; subst.
    assert (Hinv1 : state_inv (children_count (length (children (world st)))) st1).
    { apply (step_keeps_children_count _ ev st st1 Hev); [|exact Hstep].
      split; [reflexivity|exact Htasks]. }
    destruct Hinv1 as [Hcount Htasks1]. unfold children_count in Hcount.
    rewrite <- Hcount. apply IH; [|exact Hevs'|exact Hrun].
    rewrite Hcount. exact Htasks1.
Qed.

End NoAutomaticRestart.

Lemma no_spawn_without_request_witness :
  exists st' : State,
    run mac_release exit_then_checks after_startup = Some st'
    /\ Forall (fun ev => starts_backend ev = false) exit_then_checks
    /\ length (children (world st')) = length (children (world after_startup))
    /\ backendProcess (world st') = None
    /\ live_backends mac_release (world st') = [].
Proof.
  eexists. split; [vm_compute; reflexivity|].
  split; [repeat constructor|].
  split.
  - apply (no_spawn_without_request mac_release exit_then_checks after_startup).
    + repeat constructor. apply finished_resumable_safe. exact I.
    + repeat constructor.
    + vm_compute. reflexivity.
  - split; reflexivity.
Defined.

(** The exit of the old child, delivered after a restart has stored the
    handle of the new one, clears that handle: the new backend is alive and
    no longer referred to, and quitting does not signal it. *)
Lemma exit_of_old_child_clears_new_handle :
  exists st st' : State,
    run mac_release restart_then_exit_events initial = Some st
    /\ backendProcess (world st) = None
    /\ (exists p1 : Proc,
          children (world st) !! 1%nat = Some p1
          /\ is_backend mac_release p1 = true /\ live p1 = true)
    /\ step mac_release EvBeforeQuit st = Some st'
    /\ kills (history (world st')) = [0%nat]
    /\ (exists p1 : Proc,
          children (world st') !! 1%nat = Some p1
          /\ p_signalled p1 = false /\ live p1 = true).
Proof.
  eexists. eexists. split; [vm_compute; reflexivity|].
  split; [reflexivity|]. split.
  - eexists. repeat split.
  - split; [vm_compute; reflexivity|]. split; [reflexivity|].
    eexists. repeat split.
Qed.

(** Two restart requests sent one after the other, each finding the port
    down: each spawns a backend, and the second handle overwrites the
    first. *)
Lemma concurrent_restarts_spawn_twice :
  exists st : State,
    run mac_release
        (startup_events
         ++ [EvInvoke "restartBackend" []; EvInvoke "restartBackend" [];
             EvResume 1%nat (AnsNet Refused); EvResume 2%nat (AnsNet Refused)])
        initial
    = Some st
    /\ length (live_backends mac_release (world st)) = 3%nat
    /\ backendProcess (world st) = Some 2%nat
    /\ kills (history (world st)) = [0%nat].
Proof.
  eexists. split; [vm_compute; reflexivity|]. repeat split.
Qed.

(* ===================================================================== *)
(** ** Sample runs *)
(* ===================================================================== *)

(** A development build on Linux with every port answering: one probe per
    service, in the order runtime, backend, dev server, and no spawn. *)
Example startup_dev_all_up :
  let '(r, w, n) := exec (whenReady linux_dev) (fun _ => Responded) 0 initial_world in
  r = Returned tt
  /\ probes (history w) = [OLLAMA_PORT; BACKEND_PORT; FRONTEND_PORT]
  /\ spawns (history w) = []
  /\ n = 3%nat.
Proof. vm_compute. repeat split. Qed.

(** The same build with nothing listening and nothing ever coming up: the
    runtime is launched and probed twice, the backend and the dev server are
    spawned and probed 31 times each, and both error boxes are shown. *)
Example startup_dev_all_down :
  let '(r, w, n) := exec (whenReady linux_dev) (fun _ => Refused) 0 initial_world in
  r = Returned tt
  /\ spawns (history w) = ["ollama"; "python"; "npm"]
  /\ service_steps linux_dev (history w)
     = repeat Runtime 3 ++ repeat Backend 32 ++ repeat Assets 32
  /\ n = 64%nat
  /\ backendProcess w = Some 1%nat /\ frontendProcess w = Some 2%nat.
Proof. vm_compute. repeat split. Qed.

(** The bridge has no method named [restart]. *)
Example bridge_has_no_restart_by_name :
  bridgeTask mac_release "restart" [JString "runtime"] = None.
Proof. reflexivity. Qed.

(* ===================================================================== *)
(** ** What the start functions return *)
(* ===================================================================== *)

Section StartResults.

Variable cfg : Config.

Lemma timer_total_app (l1 l2 : list Action) :
  timer_total (l1 ++ l2) = timer_total l1 + timer_total l2.
Proof.
  induction l1 as [|a l1 IH]; cbn [app timer_total fold_right].
  - reflexivity.
  - fold (timer_total (l1 ++ l2)). fold (timer_total l1). rewrite IH.
    destruct a; lia.
Qed.

Lemma timer_total_failed_attempts (port : Z) (m : nat) :
  timer_total (failed_attempts port m) = 1000 * Z.of_nat m.
Proof.
  induction m as [|m IH]; [reflexivity|].
  cbn [failed_attempts]. change (timer_total (AProbe port :: ATimer 1000 :: failed_attempts port m))
    with (1000 + timer_total (failed_attempts port m)).
  rewrite IH. lia.
Qed.

Lemma timer_total_wait (port : Z) (b : bool) (m : nat) :
  timer_total (wait_actions port b m) = 1000 * Z.of_nat m.
Proof.
  unfold wait_actions. destruct b.
  - rewrite timer_total_app, timer_total_failed_attempts. cbn. lia.
  - apply timer_total_failed_attempts.
Qed.

Lemma any_responded_S (oracle : nat -> NetOutcome) (n k : nat) :
  any_responded oracle n (S k)
  = responded (oracle n) || any_responded oracle (S n) k.
Proof. reflexivity. Qed.

(** Either none of the [k] probes gets a response, or there is a first one
    that does. *)
Lemma first_responded (oracle : nat -> NetOutcome) (k : nat) :
  forall n : nat,
    (any_responded oracle n k = false
     /\ forall j : nat, (j < k)%nat -> responded (oracle (n + j)%nat) = false)
    \/ (any_responded oracle n k = true
        /\ exists m : nat,
             (m < k)%nat /\ responded (oracle (n + m)%nat) = true
             /\ forall j : nat,
                  (j < m)%nat -> responded (oracle (n + j)%nat) = false).
Proof.
  induction k as [|k IH]; intros n.
  - left. split; [reflexivity|]. intros j Hj. lia.
  - rewrite any_responded_S.
    destruct (responded (oracle n)) eqn:Hn.
    + right. split; [reflexivity|]. exists O.
      split; [lia|]. split; [rewrite Nat.add_0_r; exact Hn|].
      intros j Hj. lia.
    + destruct (IH (S n)) as [[Hnone Hall]|[Hsome (m & Hm & Hok & Hbefore)]].
      * left. split; [exact Hnone|]. intros j Hj.
        destruct j as [|j]; [rewrite Nat.add_0_r; exact Hn|].
        replace (n + S j)%nat with (S n + j)%nat by lia. apply Hall. lia.
      * right. split; [exact Hsome|]. exists (S m).
        split; [lia|]. split.
        { replace (n + S m)%nat with (S n + m)%nat by lia. exact Hok. }
        intros j Hj. destruct j as [|j]; [rewrite Nat.add_0_r; exact Hn|].
        replace (n + S j)%nat with (S n + j)%nat by lia. apply Hbefore. lia.
Qed.

Lemma responded_probe_fails (port : Z) (o : NetOutcome) :
  valid_port port = true -> responded o = false -> probe_fails port o.
Proof.
  intros Hv H. unfold probe_fails.
  rewrite checkService_value by exact Hv. rewrite H. reflexivity.
Qed.

Lemma responded_probe_succeeds (port : Z) (o : NetOutcome) :
  valid_port port = true -> responded o = true -> probe_succeeds port o.
Proof.
  intros Hv H. unfold probe_succeeds.
  rewrite checkService_value by exact Hv. rewrite H. reflexivity.
Qed.

(** [waitForService] with the default bound: the value it returns, the
    probes it makes and the pauses it takes, read off the answers. *)
Lemma waitForService_default_result (port : Z) (oracle : nat -> NetOutcome)
    (n : nat) (w : World) :
  valid_port port = true ->
  exists m : nat,
    exec (waitForService port DEFAULT_MAX_ATTEMPTS) oracle n w
    = (Returned (any_responded oracle n 30),
       with_actions (wait_actions port (any_responded oracle n 30) m) w,
       (n + if any_responded oracle n 30 then S m else m)%nat)
    /\ (any_responded oracle n 30 = false -> m = 30%nat)
    /\ (any_responded oracle n 30 = true ->
        (m < 30)%nat /\ responded (oracle (n + m)%nat) = true
        /\ forall j : nat, (j < m)%nat -> responded (oracle (n + j)%nat) = false).
Proof.
  intros Hv.
  destruct (first_responded oracle 30 n)
    as [[Hnone Hall]|[Hsome (m & Hm & Hok & Hbefore)]].
  - exists 30%nat. rewrite Hnone. split; [|split; [reflexivity|discriminate]].
    unfold waitForService, wait_actions.
    apply (waitForService_loop_exhausted port DEFAULT_MAX_ATTEMPTS oracle 30).
    + reflexivity.
    + reflexivity.
    + intros j Hj. apply (responded_probe_fails _ _ Hv), Hall, Hj.
  - exists m. rewrite Hsome. split; [|split; [discriminate|auto]].
    unfold waitForService, wait_actions.
    apply (waitForService_loop_success port DEFAULT_MAX_ATTEMPTS oracle m).
    + change (Z.to_nat DEFAULT_MAX_ATTEMPTS) with 30%nat. lia.
    + unfold DEFAULT_MAX_ATTEMPTS. lia.
    + intros j Hj. apply (responded_probe_fails _ _ Hv), Hbefore, Hj.
    + apply (responded_probe_succeeds _ _ Hv), Hok.
Qed.


End StartResults.

Section StartAccounts.

Variable cfg : Config.

Lemma error_boxes_app (l1 l2 : list Action) :
  error_boxes (l1 ++ l2) = error_boxes l1 ++ error_boxes l2.
Proof. apply omap_app. Qed.

Lemma error_boxes_failed_attempts (port : Z) (m : nat) :
  error_boxes (failed_attempts port m) = [].
Proof. induction m as [|m IH]; [reflexivity|exact IH]. Qed.

Lemma error_boxes_wait (port : Z) (b : bool) (m : nat) :
  error_boxes (wait_actions port b m) = [].
Proof.
  unfold wait_actions. destruct b.
  - rewrite error_boxes_app, error_boxes_failed_attempts. reflexivity.
  - apply error_boxes_failed_attempts.
Qed.

(** The account of one run of [checkOllama]. *)
Lemma checkOllama_account (oracle : nat -> NetOutcome) (n : nat) (w : World) :
  exists (acts : list Action) (w' : World),
    exec checkOllama oracle n w
    = (Returned (any_responded oracle n 2), w',
       (n + if responded (oracle n) then 1 else 2)%nat)
    /\ history w' = history w ++ acts
    /\ probes acts
       = repeat OLLAMA_PORT (if responded (oracle n) then 1 else 2)
    /\ spawns acts = (if responded (oracle n) then [] else ["ollama"])
    /\ backendProcess w' = backendProcess w
    /\ frontendProcess w' = frontendProcess w
    /\ mainWindow w' = mainWindow w
    /\ children w'
       = children w ++ (if responded (oracle n) then [] else [ollama_child])
    /\ sp_detached (p_spec ollama_child) = true
    /\ p_unref ollama_child = true
    /\ kills acts = []
    /\ error_boxes acts = []
    /\ timer_total acts = (if responded (oracle n) then 0 else 3000).
Proof.
  rewrite exec_checkOllama. cbn [any_responded].
  destruct (responded (oracle n)) eqn:Hn.
  - exists [AProbe OLLAMA_PORT; ALog "Ollama is already running"].
    eexists. split; [rewrite Nat.add_1_r; reflexivity|].
    cbn [with_actions history backendProcess frontendProcess mainWindow children].
    split; [reflexivity|]. split; [reflexivity|]. split; [reflexivity|].
    split; [reflexivity|]. split; [reflexivity|]. split; [reflexivity|].
    split; [rewrite app_nil_r; reflexivity|].
    repeat split.
  - exists (ollama_launch (length (children w))
            ++ [ALog (if responded (oracle (S n))
                      then "Ollama started successfully"
                      else "Failed to start Ollama")]).
    eexists. split; [rewrite orb_false_r; f_equal; lia|].
    cbn [with_actions after_ollama_launch history backendProcess
         frontendProcess mainWindow children].
    split; [rewrite <- app_assoc; reflexivity|]. repeat split.
Qed.


(** The account of a call of [startBackend]: its value, the probes it
    consumed, its pauses, and what it leaves untouched. *)
Lemma startBackend_account (oracle : nat -> NetOutcome) (n : nat) (w : World) :
  exists (k : nat) (acts : list Action) (w' : World),
    exec (startBackend cfg) oracle n w
    = (Returned (any_responded oracle n 31), w', (n + S k)%nat)
    /\ history w' = history w ++ acts
    /\ (k <= 30)%nat
    /\ mainWindow w' = mainWindow w /\ tray w' = tray w
    /\ frontendProcess w' = frontendProcess w
    /\ error_boxes acts = []
    /\ 0 <= timer_total acts <= 30000.
Proof.
  rewrite exec_startBackend. change 31%nat with (S 30). rewrite any_responded_S.
  destruct (responded (oracle n)) eqn:Hn.
  - exists O, [AProbe BACKEND_PORT; ALog "Backend already running"].
    eexists. split; [rewrite Nat.add_1_r; reflexivity|].
    cbn [with_actions history mainWindow tray frontendProcess].
    split; [reflexivity|]. split; [lia|].
    split; [reflexivity|]. split; [reflexivity|]. split; [reflexivity|].
    split; [reflexivity|]. cbn. lia.
  - cbn [orb].
    destruct (waitForService_default_result BACKEND_PORT oracle (S n)
                (after_backend_launch cfg w) eq_refl) as (m & Hexec & Hfalse & Htrue).
    rewrite Hexec.
    assert (Hm : (m <= 30)%nat).
    { destruct (any_responded oracle (S n) 30);
        [destruct (Htrue eq_refl); lia|rewrite (Hfalse eq_refl); lia]. }
    exists (if any_responded oracle (S n) 30 then S m else m),
      (backend_launch cfg (length (children w))
       ++ wait_actions BACKEND_PORT (any_responded oracle (S n) 30) m).
    eexists. split; [f_equal; destruct (any_responded oracle (S n) 30); lia|].
    cbn [with_actions after_backend_launch history mainWindow tray frontendProcess].
    split; [rewrite <- app_assoc; reflexivity|].
    split.
    { destruct (any_responded oracle (S n) 30) eqn:Hany; [|lia].
      destruct (Htrue eq_refl). lia. }
    split; [reflexivity|]. split; [reflexivity|]. split; [reflexivity|].
    split; [rewrite error_boxes_app, error_boxes_wait; reflexivity|].
    rewrite timer_total_app, timer_total_wait.
    change (timer_total (backend_launch cfg (length (children w)))) with 0. lia.
Qed.

(** The account of one run of [startFrontend]. *)
Lemma startFrontend_account (oracle : nat -> NetOutcome) (n : nat) (w : World) :
  exists (k : nat) (acts : list Action) (w' : World),
    exec (startFrontend cfg) oracle n w
    = (Returned (if isDev cfg then any_responded oracle n 31 else true), w',
       (n + k)%nat)
    /\ history w' = history w ++ acts
    /\ (if isDev cfg then (1 <= k <= 31)%nat else k = 0%nat /\ w' = w)
    /\ probes acts = repeat FRONTEND_PORT k
    /\ spawns acts
       = (if isDev cfg && negb (responded (oracle n)) then ["npm"] else [])
    /\ frontendProcess w'
       = (if isDev cfg && negb (responded (oracle n))
          then Some (length (children w)) else frontendProcess w)
    /\ backendProcess w' = backendProcess w
    /\ mainWindow w' = mainWindow w /\ tray w' = tray w
    /\ error_boxes acts = []
    /\ 0 <= timer_total acts <= 30000.
Proof.
  rewrite exec_startFrontend.
  destruct (isDev cfg) eqn:Hdev.
  - change 31%nat with (S 30). rewrite any_responded_S.
    destruct (responded (oracle n)) eqn:Hn.
    + exists 1%nat,
        [AProbe FRONTEND_PORT; ALog "Frontend dev server already running"].
      eexists. split; [rewrite Nat.add_1_r; reflexivity|].
      cbn [with_actions history mainWindow tray frontendProcess backendProcess
           orb andb negb].
      split; [reflexivity|]. split; [lia|].
      split; [reflexivity|]. split; [reflexivity|]. split; [reflexivity|].
      split; [reflexivity|]. split; [reflexivity|]. split; [reflexivity|].
      split; [reflexivity|]. cbn. lia.
    + cbn [orb andb negb].
      destruct (waitForService_default_result FRONTEND_PORT oracle (S n)
                  (after_frontend_launch cfg w) eq_refl) as (m & Hexec & Hfalse & Htrue).
      rewrite Hexec.
      assert (Hm : (m <= 30)%nat
                   /\ (any_responded oracle (S n) 30 = true -> (m < 30)%nat)).
      { destruct (any_responded oracle (S n) 30).
        - destruct (Htrue eq_refl). split; [lia|intros _; lia].
        - rewrite (Hfalse eq_refl). split; [lia|discriminate]. }
      destruct Hm as [Hm Hlt].
      exists (S (if any_responded oracle (S n) 30 then S m else m)),
        (frontend_launch cfg (length (children w))
         ++ wait_actions FRONTEND_PORT (any_responded oracle (S n) 30) m).
      eexists. split; [f_equal; destruct (any_responded oracle (S n) 30); lia|].
      cbn [with_actions after_frontend_launch history mainWindow tray
           frontendProcess backendProcess].
      split; [rewrite <- app_assoc; reflexivity|].
      split.
      { destruct (any_responded oracle (S n) 30); [specialize (Hlt eq_refl)|]; lia. }
      split.
      { rewrite probes_app, probes_wait.
        destruct (any_responded oracle (S n) 30); reflexivity. }
      split; [rewrite spawns_app, spawns_wait; reflexivity|].
      split; [reflexivity|]. split; [reflexivity|].
      split; [reflexivity|]. split; [reflexivity|].
      split; [rewrite error_boxes_app, error_boxes_wait; reflexivity|].
      rewrite timer_total_app, timer_total_wait.
      change (timer_total (frontend_launch cfg (length (children w)))) with 0. lia.
  - exists O, [], w. split; [rewrite Nat.add_0_r; reflexivity|].
    rewrite app_nil_r. cbn [andb].
    split; [reflexivity|]. split; [split; reflexivity|].
    split; [reflexivity|]. split; [reflexivity|]. split; [reflexivity|].
    split; [reflexivity|]. split; [reflexivity|]. split; [reflexivity|].
    split; [reflexivity|]. cbn. lia.
Qed.

(** Outside development mode [startFrontend] does nothing and returns true.
    In development mode it behaves as [startBackend] does, on the dev-server
    port and with [npm run dev]: between 1 and 31 probes, true exactly when
    one is answered, a spawn exactly when the first is not, and the new
    handle stored in [frontendProcess]. *)
Theorem startFrontend_result (oracle : nat -> NetOutcome) (n : nat) (w : World) :
  exists (k : nat) (acts : list Action) (w' : World),
    exec (startFrontend cfg) oracle n w
    = (Returned (if isDev cfg then any_responded oracle n 31 else true), w',
       (n + k)%nat)
    /\ history w' = history w ++ acts
    /\ (if isDev cfg then (1 <= k <= 31)%nat else k = 0%nat /\ w' = w)
    /\ probes acts = repeat FRONTEND_PORT k
    /\ spawns acts
       = (if isDev cfg && negb (responded (oracle n)) then ["npm"] else [])
    /\ frontendProcess w'
       = (if isDev cfg && negb (responded (oracle n))
          then Some (length (children w)) else frontendProcess w)
    /\ backendProcess w' = backendProcess w
    /\ mainWindow w' = mainWindow w /\ tray w' = tray w
    /\ error_boxes acts = []
    /\ 0 <= timer_total acts <= 30000.
Proof. exact (startFrontend_account oracle n w). Qed.

End StartAccounts.

Section StartupBudget.

Variable cfg : Config.

Lemma timer_total_error_box (ready : bool) (title : string) :
  timer_total (if ready then [] else [AErrorBox title]) = 0.
Proof. destruct ready; reflexivity. Qed.

Lemma error_boxes_unless (ready : bool) (title : string) :
  error_boxes (if ready then [] else [AErrorBox title])
  = (if ready then [] else [title]).
Proof. destruct ready; reflexivity. Qed.

Lemma timer_total_startup_tail : timer_total (startup_tail cfg) = 0.
Proof. unfold startup_tail. destruct (trayIconExists cfg); reflexivity. Qed.

Lemma error_boxes_startup_tail : error_boxes (startup_tail cfg) = [].
Proof. unfold startup_tail. destruct (trayIconExists cfg); reflexivity. Qed.

(** The start-up callback never blocks and never gives up: whatever the
    three services do, it ends by logging 'App ready' with the window
    created.  It makes at most 33 probes and pauses at most 33 seconds in all
    (64 probes and 63 seconds in development mode).  It shows the error box
    'Ollama Not Found' exactly when neither runtime probe is answered and the
    box 'Backend Error' exactly when none of the 31 backend probes is; a dev
    server that does not come up is not reported. *)
Theorem startup_budget (oracle : nat -> NetOutcome) (n : nat) (w : World) :
  exists (acts : list Action) (w' : World) (n' : nat),
    exec (whenReady cfg) oracle n w = (Returned tt, w', n')
    /\ history w' = history w ++ acts
    /\ mainWindow w' = true
    /\ (n' <= n + if isDev cfg then 64 else 33)%nat
    /\ timer_total acts <= (if isDev cfg then 63000 else 33000)
    /\ error_boxes acts
       = (if any_responded oracle n 2 then [] else ["Ollama Not Found"])
         ++ (if any_responded oracle
                  (n + if responded (oracle n) then 1 else 2)%nat 31
             then [] else ["Backend Error"])
    /\ exists pre : list Action, acts = pre ++ [ALog "App ready"].
Proof.
  unfold whenReady.
  cbn [bind log call createMenu createWindow exec perform].
  rewrite exec_bind.
  match goal with |- context [exec checkOllama oracle n ?W] =>
    destruct (checkOllama_account oracle n W)
      as (acts1 & w1 & Hex1 & Hh1 & _ & _ & _ & _ & Hmw1 & _ & _ & _ & _ & He1 & Ht1)
  end.
  rewrite Hex1. clear Hex1.
  rewrite exec_bind, exec_error_box_unless, exec_bind.
  set (n1 := (n + (if responded (oracle n) then 1 else 2))%nat) in *.
  match goal with |- context [exec (startBackend cfg) oracle n1 ?W] =>
    destruct (startBackend_account cfg oracle n1 W)
      as (k2 & acts2 & w2 & Hex2 & Hh2 & Hk2 & Hmw2 & _ & _ & He2 & Ht2)
  end.
  rewrite Hex2. clear Hex2.
  rewrite exec_bind, exec_error_box_unless, exec_bind.
  set (b1 := any_responded oracle n 2) in *.
  set (b2 := any_responded oracle n1 31) in *.
  set (n2 := (n1 + S k2)%nat) in *.
  assert (Hfront : exists (w3 : World) (k3 : nat) (acts3 : list Action),
    exec (if isDev cfg then bind (startFrontend cfg) (fun _ => Ret tt)
          else Ret tt) oracle n2
         (with_actions (if b2 then [] else [AErrorBox "Backend Error"]) w2)
    = (Returned tt, w3, (n2 + k3)%nat)
    /\ history w3
       = history (with_actions (if b2 then [] else [AErrorBox "Backend Error"]) w2)
         ++ acts3
    /\ mainWindow w3 = mainWindow w2
    /\ (k3 <= if isDev cfg then 31 else 0)%nat
    /\ error_boxes acts3 = []
    /\ 0 <= timer_total acts3 <= (if isDev cfg then 30000 else 0)).
  { destruct (isDev cfg) eqn:Hdev.
    - rewrite exec_bind.
      match goal with |- context [exec (startFrontend cfg) oracle n2 ?W] =>
        destruct (startFrontend_account cfg oracle n2 W)
          as (k3 & acts3 & w3 & Hex3 & Hh3 & Hk3 & _ & _ & _ & _ & Hmw3 & _
              & He3 & Ht3)
      end.
      rewrite Hex3. rewrite Hdev in Hk3.
      exists w3, k3, acts3. split; [reflexivity|].
      split; [exact Hh3|]. split; [exact Hmw3|]. split; [lia|].
      split; [exact He3|exact Ht3].
    - exists (with_actions (if b2 then [] else [AErrorBox "Backend Error"]) w2),
        O, [].
      rewrite app_nil_r, Nat.add_0_r. repeat split; cbn; lia. }
  destruct Hfront as (w3 & k3 & acts3 & Hex3 & Hh3 & Hmw3 & Hk3 & He3 & Ht3).
  rewrite Hex3. clear Hex3.
  exists ([ALog "App starting..."; ACreateMenu; ACreateWindow]
          ++ acts1 ++ (if b1 then [] else [AErrorBox "Ollama Not Found"])
          ++ acts2 ++ (if b2 then [] else [AErrorBox "Backend Error"])
          ++ acts3 ++ startup_tail cfg).
  exists (record (ALog "App ready")
            (if trayIconExists cfg then record ACreateTray (set_tray true w3)
             else w3)).
  exists (n2 + k3)%nat.
  split.
  { unfold createTray. cbn [bind call log exec perform].
    destruct (trayIconExists cfg); reflexivity. }
  split.
  { assert (Hfinal : forall w4 : World,
              history w4 = history w3 ++ startup_tail cfg ->
              history w4
              = history w
                ++ [ALog "App starting..."; ACreateMenu; ACreateWindow]
                ++ acts1 ++ (if b1 then [] else [AErrorBox "Ollama Not Found"])
                ++ acts2 ++ (if b2 then [] else [AErrorBox "Backend Error"])
                ++ acts3 ++ startup_tail cfg).
    { intros w4 H4. rewrite H4, Hh3.
      cbn [with_actions history]. rewrite Hh2.
      cbn [with_actions history]. rewrite Hh1.
      cbn [record set_mainWindow history].
      rewrite <- !app_assoc. reflexivity. }
    unfold startup_tail in *.
    destruct (trayIconExists cfg); apply Hfinal; cbn [record set_tray history];
      rewrite <- ?app_assoc; reflexivity. }
  split.
  { assert (Hwin : mainWindow w3 = true).
    { rewrite Hmw3, Hmw2. cbn [with_actions mainWindow]. rewrite Hmw1.
      reflexivity. }
    destruct (trayIconExists cfg); cbn [record set_tray mainWindow]; exact Hwin. }
  split.
  { subst n2 n1. destruct (isDev cfg), (responded (oracle n)); lia. }
  split.
  { rewrite !timer_total_app, !timer_total_error_box, timer_total_startup_tail,
      Ht1.
    change (timer_total [ALog "App starting..."; ACreateMenu; ACreateWindow])
      with 0.
    destruct (isDev cfg), (responded (oracle n)); lia. }
  split.
  { rewrite !error_boxes_app, !error_boxes_unless, error_boxes_startup_tail,
      He1, He2, He3.
    rewrite !app_nil_r. reflexivity. }
  exists ([ALog "App starting..."; ACreateMenu; ACreateWindow]
          ++ acts1 ++ (if b1 then [] else [AErrorBox "Ollama Not Found"])
          ++ acts2 ++ (if b2 then [] else [AErrorBox "Backend Error"])
          ++ acts3 ++ (if trayIconExists cfg then [ACreateTray] else [])).
  unfold startup_tail. rewrite <- !app_assoc. reflexivity.
Qed.

End StartupBudget.

(* ===================================================================== *)
(** ** Invariants through the callbacks that start children *)
(* ===================================================================== *)

Section LaunchRules.

Variable cfg : Config.
Variable Inv : World -> Prop.
Hypothesis Hstable : stable Inv.

(** [startBackend] keeps an invariant that survives the launch of the
    backend: the spawn, the store of the handle and the four listeners, taken
    together. *)
Lemma wp_startBackend_launch (Q : bool -> World -> Prop) (w : World) :
  (forall w1 : World,
     Inv w1 ->
     Inv (mkWorld (mainWindow w1) (tray w1) (Some (length (children w1)))
            (frontendProcess w1) (children w1 ++ [backend_child cfg])
            (history w1 ++ tl (backend_launch cfg (length (children w1)))))) ->
  (forall b w', Inv w' -> Q b w') ->
  Inv w -> wp Inv (startBackend cfg) Q w.
Proof.
  intros Hlaunch HQ Hw. unfold startBackend. cbn [bind await log call].
  apply wp_await; [apply (stable_record Inv Hstable), Hw|].
  intros [|] w1 Hw1.
  - apply wp_log. apply HQ, (stable_record Inv Hstable), Hw1.
  - apply wp_log, wp_spawn, wp_write.
    eapply wp_on; [read_stored|].
    eapply wp_on; [read_stored|].
    eapply wp_on; [read_stored|].
    eapply wp_on; [read_stored|].
    apply wp_waitForService; [exact Hstable|exact HQ|].
    match goal with |- Inv ?W =>
      replace W with
        (mkWorld (mainWindow w1) (tray w1) (Some (length (children w1)))
           (frontendProcess w1) (children w1 ++ [backend_child cfg])
           (history w1 ++ tl (backend_launch cfg (length (children w1)))))
    end.
    + apply Hlaunch, Hw1.
    + flatten_world. reflexivity.
Qed.

Lemma wp_startFrontend_launch (Q : bool -> World -> Prop) (w : World) :
  (forall w1 : World,
     Inv w1 ->
     Inv (mkWorld (mainWindow w1) (tray w1) (backendProcess w1)
            (Some (length (children w1))) (children w1 ++ [frontend_child cfg])
            (history w1 ++ tl (frontend_launch cfg (length (children w1)))))) ->
  (forall b w', Inv w' -> Q b w') ->
  Inv w -> wp Inv (startFrontend cfg) Q w.
Proof.
  intros Hlaunch HQ Hw. unfold startFrontend.
  destruct (isDev cfg); [|apply HQ, Hw].
  cbn [bind await log call].
  apply wp_await; [apply (stable_record Inv Hstable), Hw|].
  intros [|] w1 Hw1.
  - apply wp_log. apply HQ, (stable_record Inv Hstable), Hw1.
  - apply wp_log, wp_spawn, wp_write.
    eapply wp_on; [read_stored|].
    eapply wp_on; [read_stored|].
    apply wp_waitForService; [exact Hstable|exact HQ|].
    match goal with |- Inv ?W =>
      replace W with
        (mkWorld (mainWindow w1) (tray w1) (backendProcess w1)
           (Some (length (children w1))) (children w1 ++ [frontend_child cfg])
           (history w1 ++ tl (frontend_launch cfg (length (children w1)))))
    end.
    + apply Hlaunch, Hw1.
    + flatten_world. reflexivity.
Qed.

Lemma wp_checkOllama_launch (Q : bool -> World -> Prop) (w : World) :
  (forall (w1 : World) (hs : list Action),
     Inv w1 ->
     Inv (mkWorld (mainWindow w1) (tray w1) (backendProcess w1)
            (frontendProcess w1) (children w1 ++ [ollama_child]) hs)) ->
  (forall b w', Inv w' -> Q b w') ->
  Inv w -> wp Inv checkOllama Q w.
Proof.
  intros Hlaunch HQ Hw. unfold checkOllama. cbn [bind await log call].
  apply wp_await; [apply (stable_record Inv Hstable), Hw|].
  intros [|] w1 Hw1.
  - apply wp_log. apply HQ, (stable_record Inv Hstable), Hw1.
  - apply wp_log, wp_spawn, wp_unref.
    apply wp_await.
    + match goal with |- Inv ?W =>
        replace W with
          (mkWorld (mainWindow w1) (tray w1) (backendProcess w1)
             (frontendProcess w1) (children w1 ++ [ollama_child])
             (history w1
              ++ [ALog "Attempting to start Ollama...";
                  ASpawn (length (children w1)) ollamaSpec;
                  AUnref (length (children w1)); ATimer 3000]))
      end.
      * apply Hlaunch, Hw1.
      * cbn [issue]. unfold ollama_child. flatten_world. reflexivity.
    + intros _ w2 Hw2.
      apply wp_await; [apply (stable_record Inv Hstable), Hw2|].
      intros [|] w3 Hw3; apply wp_log;
        apply HQ, (stable_record Inv Hstable), Hw3.
Qed.

(** The two callbacks that start children keep [Inv] when the three
    launches do. *)
Lemma safe_restartBackendHandler_launch :
  (forall Q w, (forall b w', Inv w' -> Q b w') -> Inv w ->
               wp Inv (startBackend cfg) Q w) ->
  safe Inv (restartBackendHandler cfg).
Proof.
  intros HB w Hw. unfold restartBackendHandler. apply wp_bind.
  apply wp_killAndClear; [exact Hstable|exact Hw|].
  intros w1 Hw1. apply HB; [|exact Hw1]. intros b w2 Hw2. exact Hw2.
Qed.

Lemma safe_whenReady_launch :
  (forall Q w, (forall b w', Inv w' -> Q b w') -> Inv w ->
               wp Inv checkOllama Q w) ->
  (forall Q w, (forall b w', Inv w' -> Q b w') -> Inv w ->
               wp Inv (startBackend cfg) Q w) ->
  (forall Q w, (forall b w', Inv w' -> Q b w') -> Inv w ->
               wp Inv (startFrontend cfg) Q w) ->
  safe Inv (whenReady cfg).
Proof.
  intros HO HB HF w Hw. unfold whenReady.
  cbn [bind log call createMenu createWindow wp perform].
  apply wp_bind, HO;
    [|apply (stable_record Inv Hstable), (stable_window Inv Hstable),
        (stable_record Inv Hstable), (stable_record Inv Hstable), Hw].
  intros ollamaReady w1 Hw1. apply wp_bind.
  assert (Hbox : forall (ready : bool) (title : string) (Q : unit -> World -> Prop)
                        (w0 : World),
            (forall w', Inv w' -> Q tt w') -> Inv w0 ->
            wp Inv (if negb ready then call (EShowErrorBox title) else Ret tt)
               Q w0).
  { intros ready title Q w0 HQ Hw0. destruct ready; cbn.
    - apply HQ, Hw0.
    - apply HQ, (stable_record Inv Hstable), Hw0. }
  apply Hbox; [|exact Hw1]. intros w2 Hw2.
  apply wp_bind, HB; [|exact Hw2].
  intros backendReady w3 Hw3. apply wp_bind.
  apply Hbox; [|exact Hw3]. intros w4 Hw4.
  apply wp_bind.
  assert (Hfront : wp Inv
                      (if isDev cfg then bind (startFrontend cfg) (fun _ => Ret tt)
                       else Ret tt)
                      (fun _ w' => Inv w') w4).
  { destruct (isDev cfg); [|exact Hw4].
    apply wp_bind, HF; [|exact Hw4]. intros b w5 Hw5. exact Hw5. }
  eapply wp_mono; [|exact Hfront]. intros u w5 Hw5.
  unfold createTray. cbn [bind call log wp perform].
  destruct (trayIconExists cfg); cbn [wp].
  - apply (stable_record Inv Hstable), (stable_record Inv Hstable),
      (stable_tray Inv Hstable), Hw5.
  - apply (stable_record Inv Hstable), Hw5.
Qed.

End LaunchRules.

(* ===================================================================== *)
(** ** The shape of the children between two callbacks *)
(* ===================================================================== *)

Section WellFormed.

Variable cfg : Config.

Lemma well_formed_update (h : Handle) (f : Proc -> Proc) (w : World) :
  (forall p : Proc,
     p_spec (f p) = p_spec p /\ p_handlers (f p) = p_handlers p
     /\ p_unref (f p) = p_unref p) ->
  well_formed cfg w -> well_formed cfg (update_child h f w).
Proof.
  intros Hf (Hall & Hb & Hfr).
  assert (Hlook : forall (h' : Handle) (s : SpawnSpec),
             (exists p, children w !! h' = Some p /\ p_spec p = s) ->
             exists p, alter f h (children w) !! h' = Some p /\ p_spec p = s).
  { intros h' s (p & Hp & Hs). destruct (decide (h = h')) as [->|Hne].
    - exists (f p). rewrite list_lookup_alter_eq, Hp. split; [reflexivity|].
      destruct (Hf p) as (-> & _). exact Hs.
    - exists p. rewrite list_lookup_alter_ne by exact Hne. split; assumption. }
  split; [|split].
  - cbn. apply Forall_alter; [exact Hall|].
    intros p _ Hp. unfold child_ok in *.
    destruct (Hf p) as (-> & -> & ->). exact Hp.
  - intros h' Hh'. apply Hlook, Hb, Hh'.
  - intros h' Hh'. apply Hlook, Hfr, Hh'.
Qed.

Lemma well_formed_stable : stable (well_formed cfg).
Proof.
  constructor.
  - intros a w Hw. exact Hw.
  - intros b w Hw. exact Hw.
  - intros b w Hw. exact Hw.
  - intros h code w Hw. apply well_formed_update; [|exact Hw].
    intros p. repeat split.
  - intros sl w (Hall & Hb & Hfr). destruct sl; (split; [exact Hall|split]).
    + intros h Hh. discriminate Hh.
    + exact Hfr.
    + exact Hb.
    + intros h Hh. discriminate Hh.
  - intros sl h w Hw _. apply well_formed_update; [|exact Hw].
    intros p. unfold signal. destruct (live p); repeat split.
Qed.

Lemma well_formed_new_child (w : World) (p : Proc) (b f : option Handle)
    (mw tr : bool) (hs : list Action) :
  well_formed cfg w ->
  child_ok cfg p ->
  (b = backendProcess w
   \/ (b = Some (length (children w)) /\ p_spec p = backendSpec cfg)) ->
  (f = frontendProcess w
   \/ (f = Some (length (children w)) /\ p_spec p = frontendSpec cfg)) ->
  well_formed cfg (mkWorld mw tr b f (children w ++ [p]) hs).
Proof.
  intros (Hall & Hb & Hfr) Hp Hb' Hf'.
  assert (Hold : forall (h : Handle) (s : SpawnSpec),
             (exists q, children w !! h = Some q /\ p_spec q = s) ->
             exists q, (children w ++ [p]) !! h = Some q /\ p_spec q = s).
  { intros h s (q & Hq & Hs). exists q. split; [|exact Hs].
    apply lookup_app_l_Some, Hq. }
  split; [|split].
  - cbn. apply Forall_app. split; [exact Hall|]. constructor; [exact Hp|constructor].
  - intros h Hh. cbn in Hh |- *. destruct Hb' as [->|[-> Hs]].
    + apply Hold, Hb, Hh.
    + apply Some_eq_inv in Hh. subst h. exists p.
      split; [apply lookup_last|exact Hs].
  - intros h Hh. cbn in Hh |- *. destruct Hf' as [->|[-> Hs]].
    + apply Hold, Hfr, Hh.
    + apply Some_eq_inv in Hh. subst h. exists p.
      split; [apply lookup_last|exact Hs].
Qed.

Lemma safe_restart_well_formed :
  safe (well_formed cfg) (restartBackendHandler cfg).
Proof.
  apply safe_restartBackendHandler_launch; [exact well_formed_stable|].
  intros Q w HQ Hw.
  apply wp_startBackend_launch; [exact well_formed_stable| |exact HQ|exact Hw].
  intros w1 Hw1. apply well_formed_new_child; [exact Hw1| | |].
  - right. left. repeat split.
  - right. split; reflexivity.
  - left. reflexivity.
Qed.

Lemma safe_whenReady_well_formed : safe (well_formed cfg) (whenReady cfg).
Proof.
  apply safe_whenReady_launch; [exact well_formed_stable| | |].
  - intros Q w HQ Hw.
    apply wp_checkOllama_launch; [exact well_formed_stable| |exact HQ|exact Hw].
    intros w1 hs Hw1. apply well_formed_new_child; [exact Hw1| | |].
    + left. repeat split.
    + left. reflexivity.
    + left. reflexivity.
  - intros Q w HQ Hw.
    apply wp_startBackend_launch; [exact well_formed_stable| |exact HQ|exact Hw].
    intros w1 Hw1. apply well_formed_new_child; [exact Hw1| | |].
    + right. left. repeat split.
    + right. split; reflexivity.
    + left. reflexivity.
  - intros Q w HQ Hw.
    apply wp_startFrontend_launch; [exact well_formed_stable| |exact HQ|exact Hw].
    intros w1 Hw1. apply well_formed_new_child; [exact Hw1| | |].
    + right. right. repeat split.
    + left. reflexivity.
    + right. split; reflexivity.
Qed.

Lemma reachable_state_well_formed (st : State) :
  reachable cfg st -> state_inv (well_formed cfg) st.
Proof.
  induction 1 as [|ev st st' _ IH Hstep].
  - split; [|constructor]. split; [constructor|].
    split; intros h Hh; discriminate Hh.
  - eapply step_state_inv; [exact well_formed_stable| | |exact IH|exact Hstep].
    + intros _. exact safe_whenReady_well_formed.
    + intros args _. exact safe_restart_well_formed.
Qed.

(** The three launch commands differ, so the command of a well-formed child
    tells its listeners. *)
Lemma backend_is_not_ollama : backendSpec cfg <> ollamaSpec.
Proof.
  unfold backendSpec, ollamaSpec, pythonCmd.
  destruct (String.eqb (platform cfg) "darwin"); discriminate.
Qed.

Lemma backend_is_not_frontend : backendSpec cfg <> frontendSpec cfg.
Proof.
  unfold backendSpec, frontendSpec, pythonCmd.
  destruct (String.eqb (platform cfg) "darwin"); discriminate.
Qed.

Lemma frontend_is_not_ollama : frontendSpec cfg <> ollamaSpec.
Proof. unfold frontendSpec, ollamaSpec. discriminate. Qed.

Lemma child_ok_cases (p : Proc) :
  child_ok cfg p ->
  p_handlers p
  = (if is_runtime p then []
     else if is_backend cfg p
          then [OnStdout "Backend"; OnStderr "Backend Error"; OnErrorLog;
                OnExitClearBackend]
          else [OnStdout "Frontend"; OnStderr "Frontend Error"])
  /\ p_spec p
     = (if is_runtime p then ollamaSpec
        else if is_backend cfg p then backendSpec cfg else frontendSpec cfg)
  /\ p_unref p = is_runtime p.
Proof.
  unfold is_runtime, is_backend.
  intros [(Hs & Hh & Hu)|[(Hs & Hh & Hu)|(Hs & Hh & Hu)]];
    rewrite Hs, Hh, Hu; unfold backendSpec, frontendSpec, pythonCmd;
    destruct (String.eqb (platform cfg) "darwin");
    (split; [reflexivity|split; reflexivity]).
Qed.

End WellFormed.

(* ===================================================================== *)
(** ** No callback dereferences an empty variable *)
(* ===================================================================== *)

Section NeverThrows.

Lemma wpt_mono {A : Type} (p : Prog A) (Q Q' : A -> World -> Prop) :
  (forall a w, Q a w -> Q' a w) ->
  forall w : World, wpt p Q w -> wpt p Q' w.
Proof.
  intros HQ. induction p as [a|err|X e k IH|X pd k IH]; intros w; cbn [wpt].
  - apply HQ.
  - auto.
  - destruct (perform e w) as [[x|] w']; [apply IH|auto].
  - intros [Hs Hk]. split; [exact Hs|]. intros x w'. apply IH, Hk.
Qed.

Lemma wpt_bind {A B : Type} (p : Prog A) (f : A -> Prog B)
    (Q : B -> World -> Prop) :
  forall w : World,
    wpt p (fun a w' => wpt (f a) Q w') w -> wpt (bind p f) Q w.
Proof.
  induction p as [a|err|X e k IH|X pd k IH]; intros w; cbn [wpt bind].
  - auto.
  - auto.
  - destruct (perform e w) as [[x|] w']; [apply IH|auto].
  - intros [Hs Hk]. split; [exact Hs|]. intros x w'. apply IH, Hk.
Qed.

Lemma wpt_log {A : Type} (msg : string) (k : unit -> Prog A)
    (Q : A -> World -> Prop) (w : World) :
  wpt (k tt) Q (record (ALog msg) w) -> wpt (Do (ELog msg) k) Q w.
Proof. intros H. exact H. Qed.

Lemma wpt_spawn {A : Type} (s : SpawnSpec) (k : Handle -> Prog A)
    (Q : A -> World -> Prop) (w : World) :
  wpt (k (length (children w))) Q
     (record (ASpawn (length (children w)) s)
        (set_children (children w ++ [fresh_proc s]) w)) ->
  wpt (Do (ESpawn s) k) Q w.
Proof. intros H. exact H. Qed.

Lemma wpt_write {A : Type} (sl : Slot) (v : option Handle) (k : unit -> Prog A)
    (Q : A -> World -> Prop) (w : World) :
  wpt (k tt) Q (write_slot sl v w) -> wpt (Do (EWriteSlot sl v) k) Q w.
Proof. intros H. exact H. Qed.

Lemma wpt_on {A : Type} (sl : Slot) (hk : HandlerKind) (h : Handle)
    (k : unit -> Prog A) (Q : A -> World -> Prop) (w : World) :
  read_slot sl w = Some h ->
  wpt (k tt) Q (record (AOn h hk) (update_child h (add_handler hk) w)) ->
  wpt (Do (EOnSlot sl hk) k) Q w.
Proof. intros Hsl H. cbn [wpt perform]. rewrite Hsl. exact H. Qed.

Lemma wpt_unref {A : Type} (h : Handle) (k : unit -> Prog A)
    (Q : A -> World -> Prop) (w : World) :
  wpt (k tt) Q (record (AUnref h) (update_child h mark_unref w)) ->
  wpt (Do (EUnref h) k) Q w.
Proof. intros H. exact H. Qed.

(** A probe of a port in range, a timer and the file dialog are never
    rejected. *)
Lemma probe_not_rejected (port : Z) (a : Answer) (err : string) :
  valid_port port = true -> settle (PCheck port) a <> Some (Rejected err).
Proof.
  intros Hv. destruct a; cbn [settle]; try discriminate.
  rewrite checkService_value by exact Hv. discriminate.
Qed.

Lemma timer_not_rejected (ms : Z) (a : Answer) (err : string) :
  settle (PTimer ms) a <> Some (Rejected err).
Proof. destruct a; cbn [settle]; discriminate. Qed.

Lemma dialog_not_rejected (a : Answer) (err : string) :
  settle POpenDialog a <> Some (Rejected err).
Proof. destruct a; cbn [settle]; discriminate. Qed.

Lemma wpt_probe {A : Type} (port : Z) (k : bool -> Prog A)
    (Q : A -> World -> Prop) (w : World) :
  valid_port port = true ->
  (forall x w', wpt (k x) Q w') -> wpt (Await (PCheck port) k) Q w.
Proof.
  intros Hv Hk. split; [|exact Hk].
  intros a err. apply probe_not_rejected, Hv.
Qed.

Lemma wpt_timer {A : Type} (ms : Z) (k : unit -> Prog A)
    (Q : A -> World -> Prop) (w : World) :
  (forall x w', wpt (k x) Q w') -> wpt (Await (PTimer ms) k) Q w.
Proof. intros Hk. split; [|exact Hk]. intros a err. apply timer_not_rejected. Qed.

(** The loop of [waitForService] ends within [maxAttempts - i] turns, so
    the fuel [waitForService] gives it is never used up. *)
Lemma wpt_waitForService_loop (port maxAttempts : Z) (Q : bool -> World -> Prop) :
  valid_port port = true ->
  (forall b w, Q b w) ->
  forall (fuel : nat) (i : Z) (w : World),
    maxAttempts - i <= Z.of_nat fuel ->
    wpt (waitForService_loop fuel port i maxAttempts) Q w.
Proof.
  intros Hv HQ. induction fuel as [|fuel IH]; intros i w Hfuel;
    cbn [waitForService_loop]; destruct (Z.ltb_spec i maxAttempts).
  - lia.
  - apply HQ.
  - cbn [bind await]. apply wpt_probe; [exact Hv|].
    intros [|] w1; cbn [bind].
    + apply HQ.
    + apply wpt_timer. intros _ w2. apply IH. lia.
  - apply HQ.
Qed.

Lemma wpt_waitForService (port maxAttempts : Z) (Q : bool -> World -> Prop)
    (w : World) :
  valid_port port = true ->
  (forall b w', Q b w') -> wpt (waitForService port maxAttempts) Q w.
Proof. intros Hv HQ. apply wpt_waitForService_loop; [exact Hv|exact HQ|lia]. Qed.

Lemma wpt_checkOllama (Q : bool -> World -> Prop) (w : World) :
  (forall b w', Q b w') -> wpt checkOllama Q w.
Proof.
  intros HQ. unfold checkOllama. cbn [bind await log call].
  apply wpt_probe; [reflexivity|]. intros [|] w1.
  - apply wpt_log. apply HQ.
  - apply wpt_log, wpt_spawn, wpt_unref, wpt_timer. intros _ w2.
    apply wpt_probe; [reflexivity|].
    intros [|] w3; apply wpt_log; apply HQ.
Qed.

Section WithConfig.

Variable cfg : Config.

(** The four listeners of the backend are attached in the callback that
    stores the handle, before anything can clear it. *)
Lemma wpt_startBackend (Q : bool -> World -> Prop) (w : World) :
  (forall b w', Q b w') -> wpt (startBackend cfg) Q w.
Proof.
  intros HQ. unfold startBackend. cbn [bind await log call].
  apply wpt_probe; [reflexivity|]. intros [|] w1.
  - apply wpt_log. apply HQ.
  - apply wpt_log, wpt_spawn, wpt_write.
    eapply wpt_on; [read_stored|].
    eapply wpt_on; [read_stored|].
    eapply wpt_on; [read_stored|].
    eapply wpt_on; [read_stored|].
    apply wpt_waitForService; [reflexivity|exact HQ].
Qed.

Lemma wpt_startFrontend (Q : bool -> World -> Prop) (w : World) :
  (forall b w', Q b w') -> wpt (startFrontend cfg) Q w.
Proof.
  intros HQ. unfold startFrontend. destruct (isDev cfg); [|apply HQ].
  cbn [bind await log call].
  apply wpt_probe; [reflexivity|]. intros [|] w1.
  - apply wpt_log. apply HQ.
  - apply wpt_log, wpt_spawn, wpt_write.
    eapply wpt_on; [read_stored|].
    eapply wpt_on; [read_stored|].
    apply wpt_waitForService; [reflexivity|exact HQ].
Qed.

Lemma wpt_killAndClear (sl : Slot) (Q : unit -> World -> Prop) (w : World) :
  (forall w', Q tt w') -> wpt (killAndClear sl) Q w.
Proof.
  intros HQ. unfold killAndClear. cbn [bind call wpt perform].
  destruct (read_slot sl w) as [h|] eqn:Hslot.
  - cbn [bind call wpt perform]. rewrite Hslot. cbn [bind call wpt perform].
    apply HQ.
  - cbn [bind wpt]. apply HQ.
Qed.

(** [checkAllServices] sends the status only after it has tested
    [mainWindow], in the same callback. *)
Lemma wpt_checkAllServices (Q : StatusResult -> World -> Prop) (w : World) :
  (forall r w', Q r w') -> wpt checkAllServices Q w.
Proof.
  intros HQ. unfold checkAllServices. cbn [bind await].
  apply wpt_probe; [reflexivity|]. intros ollama w1.
  apply wpt_probe; [reflexivity|]. intros backend w2.
  cbn [bind call wpt perform].
  destruct (mainWindow w2) eqn:Hwin; cbn [bind call wpt perform].
  - rewrite Hwin. cbn [bind wpt]. apply HQ.
  - apply HQ.
Qed.

Lemma never_throws_whenReady : never_throws (silent (whenReady cfg)).
Proof.
  intros w. unfold silent. apply wpt_bind. unfold whenReady.
  cbn [bind log call createMenu createWindow wpt perform].
  apply wpt_bind, wpt_checkOllama. intros ollamaReady w1. apply wpt_bind.
  assert (Hbox : forall (ready : bool) (title : string) (Q : unit -> World -> Prop)
                        (w0 : World),
            (forall w', Q tt w') ->
            wpt (if negb ready then call (EShowErrorBox title) else Ret tt) Q w0).
  { intros ready title Q w0 HQ. destruct ready; cbn; apply HQ. }
  apply Hbox. intros w2. apply wpt_bind, wpt_startBackend.
  intros backendReady w3. apply wpt_bind, Hbox. intros w4. apply wpt_bind.
  assert (Hfront : forall w0,
             wpt (if isDev cfg then bind (startFrontend cfg) (fun _ => Ret tt)
                  else Ret tt)
                 (fun _ _ => True) w0).
  { intros w0. destruct (isDev cfg); [|exact I].
    apply wpt_bind, wpt_startFrontend. intros b w5. exact I. }
  eapply wpt_mono; [|apply Hfront]. intros u w5 _.
  unfold createTray. cbn [bind call log wpt perform].
  destruct (trayIconExists cfg); cbn [wpt]; exact I.
Qed.

Lemma never_throws_ipcHandler (ch : Channel) (args : list JsVal) :
  never_throws (replying (ipcHandler cfg ch args)).
Proof.
  intros w. unfold replying. apply wpt_bind.
  destruct ch; cbn [ipcHandler].
  - apply wpt_bind, wpt_checkAllServices. intros r w'. exact I.
  - apply wpt_bind. unfold restartBackendHandler.
    apply wpt_bind, wpt_killAndClear. intros w1.
    apply wpt_startBackend. intros b w2. exact I.
  - cbn [bind await]. split; [intros a err; apply dialog_not_rejected|].
    intros paths w'. exact I.
  - exact I.
Qed.

Lemma never_throws_trayCheck : never_throws (silent checkAllServices).
Proof.
  intros w. unfold silent. apply wpt_bind, wpt_checkAllServices.
  intros r w'. exact I.
Qed.

Lemma advance_task_fine (p : Task) :
  forall w : World,
    wpt p (fun _ _ => True) w -> task_fine (fst (advance p w)).
Proof.
  induction p as [a|err|X e k IH|X pd k IH]; intros w; cbn [wpt advance].
  - intros _. split; [discriminate|]. intros a' p' H. discriminate H.
  - intros [].
  - destruct (perform e w) as [[x|] w']; [apply IH|intros []].
  - intros [Hnr Hk]. split; [discriminate|].
    intros a p' Hres. cbn [fst resume] in Hres.
    destruct (settle pd a) as [[|x|err]|] eqn:Hs; try discriminate Hres.
    + apply Some_eq_inv in Hres. subst p'. intros w'. apply Hk.
    + exfalso. exact (Hnr a err Hs).
Qed.

Lemma start_task_fine (p : Task) (st : State) :
  never_throws p -> Forall task_fine (tasks st) ->
  Forall task_fine (tasks (start_task p st)).
Proof.
  intros Hp Hts. unfold start_task.
  pose proof (advance_task_fine p (world st) (Hp _)) as Ht.
  destruct (advance p (world st)) as [t w'].
  cbn [tasks]. apply Forall_app. split; [exact Hts|].
  constructor; [exact Ht|constructor].
Qed.

Lemma step_tasks_fine (ev : Event) (st st' : State) :
  Forall task_fine (tasks st) -> step cfg ev st = Some st' ->
  Forall task_fine (tasks st').
Proof.
  intros Hts. unfold step.
  destruct (quitting st); [discriminate|].
  destruct ev as [|method args| |i a|h code|h data|h data|h message| | | |].
  - destruct (started st); [discriminate|]. intros H.
    apply Some_eq_inv in H. subst st'.
    apply start_task_fine; [apply never_throws_whenReady|exact Hts].
  - destruct (mainWindow (world st)); [|discriminate].
    destruct (bridgeTask cfg method args) as [p|] eqn:Hp; intros H;
      apply Some_eq_inv in H; subst st'; [|exact Hts].
    destruct (bridgeTask_channel cfg method args p Hp) as (ch & -> & _).
    apply start_task_fine; [apply never_throws_ipcHandler|exact Hts].
  - destruct (tray (world st)); [|discriminate]. intros H.
    apply Some_eq_inv in H. subst st'.
    apply start_task_fine; [apply never_throws_trayCheck|exact Hts].
  - destruct (tasks st !! i) as [t|] eqn:Ht; [|discriminate].
    destruct (resume t a) as [p|] eqn:Hres; [|discriminate].
    pose proof (Forall_lookup_1 _ _ _ _ Hts Ht) as [_ Hfine].
    pose proof (advance_task_fine p (world st) (Hfine a p Hres _)) as Hp.
    destruct (advance p (world st)) as [t' w']. intros H.
    apply Some_eq_inv in H. subst st'. cbn [tasks].
    apply Forall_insert; assumption.
  - destruct (children (world st) !! h) as [p|]; [|discriminate].
    destruct (live p); [|discriminate]. intros H.
    apply Some_eq_inv in H. subst st'. exact Hts.
  - destruct (children (world st) !! h) as [p|]; [|discriminate]. intros H.
    apply Some_eq_inv in H. subst st'. exact Hts.
  - destruct (children (world st) !! h) as [p|]; [|discriminate]. intros H.
    apply Some_eq_inv in H. subst st'. exact Hts.
  - destruct (children (world st) !! h) as [p|]; [|discriminate]. intros H.
    apply Some_eq_inv in H. subst st'. exact Hts.
  - destruct (mainWindow (world st)); [|discriminate]. intros H.
    apply Some_eq_inv in H. subst st'. exact Hts.
  - destruct (mainWindow (world st)); intros H;
      apply Some_eq_inv in H; subst st'; exact Hts.
  - destruct (mainWindow (world st)); [discriminate|].
    destruct (negb (String.eqb (platform cfg) "darwin")); intros H;
      apply Some_eq_inv in H; subst st'; exact Hts.
  - intros H. apply Some_eq_inv in H. subst st'. exact Hts.
Qed.

Lemma reachable_tasks_fine (st : State) :
  reachable cfg st -> Forall task_fine (tasks st).
Proof.
  induction 1 as [|ev st st' _ IH Hstep].
  - constructor.
  - exact (step_tasks_fine ev st st' IH Hstep).
Qed.

End WithConfig.

End NeverThrows.

(* ===================================================================== *)
(** ** What holds in every state the loop can reach *)
(* ===================================================================== *)

Section Reachable.

Variable cfg : Config.

Lemma runtime_is_not_backend (p : Proc) :
  is_runtime p = true -> is_backend cfg p = false.
Proof.
  unfold is_runtime, is_backend. intros H. apply String.eqb_eq in H.
  rewrite H. unfold pythonCmd.
  destruct (String.eqb (platform cfg) "darwin"); reflexivity.
Qed.

Lemma is_backend_backendSpec (p : Proc) :
  p_spec p = backendSpec cfg -> is_backend cfg p = true /\ is_runtime p = false.
Proof.
  unfold is_runtime, is_backend. intros ->. cbn [backendSpec sp_cmd].
  rewrite String.eqb_refl. split; [reflexivity|]. unfold pythonCmd.
  destruct (String.eqb (platform cfg) "darwin"); reflexivity.
Qed.

Lemma is_backend_frontendSpec (p : Proc) :
  p_spec p = frontendSpec cfg -> is_backend cfg p = false /\ is_runtime p = false.
Proof.
  unfold is_runtime, is_backend. intros ->. cbn [frontendSpec sp_cmd].
  split; [|reflexivity]. unfold pythonCmd.
  destruct (String.eqb (platform cfg) "darwin"); reflexivity.
Qed.

Lemma reachable_child_ok (st : State) (h : Handle) (p : Proc) :
  reachable cfg st -> children (world st) !! h = Some p -> child_ok cfg p.
Proof.
  intros Hreach Hp.
  destruct (reachable_state_well_formed cfg st Hreach) as [(Hall & _) _].
  exact (Forall_lookup_1 _ _ _ _ Hall Hp).
Qed.

(** Between two callbacks every child has the shape its launch gave it:
    the command line tells the listeners.  A runtime child is detached,
    unreferenced, has no listener and has never been signalled; a backend
    child has its four listeners, each once; a dev-server child has its two
    and none for 'exit' or 'error'.  The handle stored in [backendProcess]
    refers to a backend child and the one in [frontendProcess] to a
    dev-server child. *)
Theorem children_keep_their_shape (st : State) (h : Handle) (p : Proc) :
  reachable cfg st ->
  children (world st) !! h = Some p ->
  p_spec p
  = (if is_runtime p then ollamaSpec
     else if is_backend cfg p then backendSpec cfg else frontendSpec cfg)
  /\ p_handlers p
     = (if is_runtime p then []
        else if is_backend cfg p
             then [OnStdout "Backend"; OnStderr "Backend Error"; OnErrorLog;
                   OnExitClearBackend]
             else [OnStdout "Frontend"; OnStderr "Frontend Error"])
  /\ p_unref p = is_runtime p
  /\ (if is_runtime p then p_signalled p = false else True)
  /\ (if decide (backendProcess (world st) = Some h)
      then is_backend cfg p = true /\ is_runtime p = false else True)
  /\ (if decide (frontendProcess (world st) = Some h)
      then is_backend cfg p = false /\ is_runtime p = false else True).
Proof.
  intros Hreach Hp.
  destruct (child_ok_cases cfg p (reachable_child_ok st h p Hreach Hp))
    as (Hh & Hs & Hu).
  destruct (reachable_state_well_formed cfg st Hreach) as [(_ & Hb & Hf) _].
  destruct (reachable_runtime_untouched cfg st Hreach) as [[Hrt _] _].
  split; [exact Hs|]. split; [exact Hh|]. split; [exact Hu|].
  split; [|split].
  - destruct (is_runtime p) eqn:Hr; [|exact I]. exact (Hrt h p Hp Hr).
  - destruct (decide (backendProcess (world st) = Some h)) as [Hsl|_]; [|exact I].
    destruct (Hb h Hsl) as (q & Hq & Hspec).
    rewrite Hp in Hq. apply Some_eq_inv in Hq. subst q.
    apply is_backend_backendSpec, Hspec.
  - destruct (decide (frontendProcess (world st) = Some h)) as [Hsl|_]; [|exact I].
    destruct (Hf h Hsl) as (q & Hq & Hspec).
    rewrite Hp in Hq. apply Some_eq_inv in Hq. subst q.
    apply is_backend_frontendSpec, Hspec.
Qed.

(** What a child writes is logged under the name of its kind, once; a
    child of the runtime has no listener for its output.  An 'error' event of
    a backend child is logged by the listener [startBackend] attached; the
    dev server and the runtime have no 'error' listener, so theirs ends in the
    'uncaughtException' listener of the process.  None of the three events
    changes a handle, a child or a task. *)
Theorem child_events_by_kind (st : State) (h : Handle) (p : Proc)
    (text : string) :
  reachable cfg st -> quitting st = false ->
  children (world st) !! h = Some p ->
  step cfg (EvChildStdout h text) st
  = Some (with_world
            (if is_runtime p then world st
             else record
                    (ALog ("[" +:+ (if is_backend cfg p then "Backend"
                                    else "Frontend") +:+ "] " +:+ text))
                    (world st)) st)
  /\ step cfg (EvChildStderr h text) st
     = Some (with_world
               (if is_runtime p then world st
                else record
                       (ALog ("[" +:+ (if is_backend cfg p then "Backend Error"
                                       else "Frontend Error") +:+ "] " +:+ text))
                       (world st)) st)
  /\ step cfg (EvChildError h text) st
     = Some (with_world
               (record
                  (ALog ((if is_backend cfg p then "Backend process error: "
                          else "Uncaught exception: ") +:+ text))
                  (world st)) st).
Proof.
  intros Hreach Hq Hp.
  destruct (child_ok_cases cfg p (reachable_child_ok st h p Hreach Hp))
    as (Hh & _ & _).
  pose proof (runtime_is_not_backend p) as Hexcl.
  unfold step. rewrite Hq, Hp.
  unfold run_stdout_handlers, run_stderr_handlers, run_error_handlers.
  rewrite Hh.
  destruct (is_runtime p).
  - rewrite (Hexcl eq_refl). repeat split.
  - destruct (is_backend cfg p); repeat split.
Qed.

Lemma step_child_exit (st : State) (h : Handle) (p : Proc) (code : option Z) :
  reachable cfg st -> quitting st = false ->
  children (world st) !! h = Some p -> live p = true ->
  exists st' : State,
    step cfg (EvChildExit h code) st = Some st'
    /\ tasks st' = tasks st
    /\ quitting st' = false
    /\ children (world st') = alter (mark_exit code) h (children (world st))
    /\ frontendProcess (world st') = frontendProcess (world st)
    /\ backendProcess (world st')
       = (if is_backend cfg p then None else backendProcess (world st))
    /\ history (world st')
       = history (world st)
         ++ (if is_backend cfg p
             then [ALog ("Backend exited with code " +:+ code_text code)]
             else [])
    /\ mainWindow (world st') = mainWindow (world st).
Proof.
  intros Hreach Hq Hp Hlive.
  destruct (child_ok_cases cfg p (reachable_child_ok st h p Hreach Hp))
    as (Hh & _ & _).
  pose proof (runtime_is_not_backend p) as Hexcl.
  unfold step. rewrite Hq, Hp, Hlive. eexists. split; [reflexivity|].
  split; [reflexivity|]. split; [exact Hq|].
  unfold run_exit_handlers. rewrite Hh.
  destruct (is_runtime p).
  - rewrite (Hexcl eq_refl). cbn. rewrite app_nil_r. repeat split.
  - destruct (is_backend cfg p); cbn; rewrite ?app_nil_r; repeat split.
Qed.

(** The exit of a child is recorded on the child.  If it is a backend
    child, its listener logs the exit and empties [backendProcess], whatever
    handle is stored there; the exit of the dev server or of the runtime runs
    no listener, so [frontendProcess] keeps the handle of a dev server that
    has exited.  No exit starts or signals anything. *)
Theorem child_exit_by_kind (st : State) (h : Handle) (p : Proc)
    (code : option Z) :
  reachable cfg st -> quitting st = false ->
  children (world st) !! h = Some p -> live p = true ->
  exists st' : State,
    step cfg (EvChildExit h code) st = Some st'
    /\ tasks st' = tasks st
    /\ children (world st') = alter (mark_exit code) h (children (world st))
    /\ frontendProcess (world st') = frontendProcess (world st)
    /\ backendProcess (world st')
       = (if is_backend cfg p then None else backendProcess (world st))
    /\ history (world st')
       = history (world st)
         ++ (if is_backend cfg p
             then [ALog ("Backend exited with code " +:+ code_text code)]
             else [])
    /\ mainWindow (world st') = mainWindow (world st).
Proof.
  intros Hreach Hq Hp Hlive.
  destruct (step_child_exit st h p code Hreach Hq Hp Hlive)
    as (st' & Hstep & Ht & _ & Hc & Hf & Hb & Hh & Hw).
  exists st'. repeat split; assumption.
Qed.

Lemma children_kill_and_clear (sl : Slot) (w : World) :
  children (kill_and_clear sl w)
  = match read_slot sl w with
    | Some h => alter signal h (children w)
    | None => children w
    end.
Proof.
  unfold kill_and_clear. destruct (read_slot sl w) as [h|]; [|reflexivity].
  rewrite children_write_slot. reflexivity.
Qed.

(** After a restart has stored the handle of a new backend, the exit of a
    backend child spawned earlier empties [backendProcess]: the new child
    is no longer referred to, and when the application quits the 'before-quit'
    listener signals the dev server at most and leaves the new backend as it
    was. *)
Theorem exit_of_replaced_backend_loses_new_handle (st : State)
    (h h' : Handle) (p p' : Proc) (code : option Z) :
  reachable cfg st -> quitting st = false ->
  children (world st) !! h = Some p -> live p = true ->
  is_backend cfg p = true ->
  backendProcess (world st) = Some h' -> h' <> h ->
  children (world st) !! h' = Some p' ->
  exists st1 st2 : State,
    step cfg (EvChildExit h code) st = Some st1
    /\ backendProcess (world st1) = None
    /\ children (world st1) !! h' = Some p'
    /\ step cfg EvBeforeQuit st1 = Some st2
    /\ history (world st2)
       = history (world st)
         ++ [ALog ("Backend exited with code " +:+ code_text code);
             ALog "App quitting..."]
         ++ kill_of (frontendProcess (world st))
    /\ children (world st2) !! h' = Some p'.
Proof.
  intros Hreach Hq Hp Hlive Hback Hstored Hne Hp'.
  destruct (step_child_exit st h p code Hreach Hq Hp Hlive)
    as (st1 & Hstep & _ & Hq1 & Hc & Hf & Hb & Hh & _).
  rewrite Hback in Hb, Hh.
  assert (Hp1 : children (world st1) !! h' = Some p').
  { rewrite Hc, list_lookup_alter_ne by (intros E; apply Hne; symmetry; exact E).
    exact Hp'. }
  exists st1, (deliver_quit st1).
  split; [exact Hstep|]. split; [exact Hb|]. split; [exact Hp1|].
  split; [unfold step; rewrite Hq1; reflexivity|].
  cbn [deliver_quit world]. unfold run_listener.
  rewrite advance_beforeQuit. cbn [snd].
  assert (Hnone : kill_and_clear backendSlot
                    (record (ALog "App quitting...") (world st1))
                  = record (ALog "App quitting...") (world st1)).
  { unfold kill_and_clear. cbn [read_slot record backendProcess].
    rewrite Hb. reflexivity. }
  rewrite Hnone. split.
  - rewrite history_kill_and_clear.
    cbn [read_slot record frontendProcess history].
    rewrite Hf, Hh, <- !app_assoc. reflexivity.
  - rewrite children_kill_and_clear.
    cbn [read_slot record frontendProcess children].
    rewrite Hf.
    destruct (frontendProcess (world st)) as [hf|] eqn:Hfront; [|exact Hp1].
    rewrite list_lookup_alter_ne; [exact Hp1|].
    intros ->.
    destruct (reachable_state_well_formed cfg st Hreach)
      as [(_ & Hwb & Hwf) _].
    destruct (Hwb h' Hstored) as (q & Hq' & Hspec).
    destruct (Hwf h' Hfront) as (q' & Hq'' & Hspec').
    rewrite Hq' in Hq''. apply Some_eq_inv in Hq''. subst q'.
    rewrite Hspec in Hspec'. exact (backend_is_not_frontend cfg Hspec').
Qed.

(** No callback of the shell throws, in any order of events: every task of
    a reachable state is suspended on a promise or has returned, and the
    synchronous listeners return too.  A listener is attached to a child and a
    status is sent to the window only in the callback that has just stored the
    handle or tested the window, and no promise the shell awaits is ever
    rejected. *)
Theorem no_callback_throws (st : State) (i : nat) (t : Task) :
  reachable cfg st ->
  tasks st !! i = Some t ->
  (forall err : string, t <> Throw err)
  /\ (forall (a : Answer) (p : Task),
        resume t a = Some p ->
        forall (w : World) (err : string), fst (advance p w) <> Throw err)
  /\ fst (advance beforeQuit (world st)) = Ret tt
  /\ fst (advance (createWindow) (world st)) = Ret tt
  /\ fst (advance (windowAllClosed cfg) (world st)) = Ret tt.
Proof.
  intros Hreach Ht.
  pose proof (Forall_lookup_1 _ _ _ _ (reachable_tasks_fine cfg st Hreach) Ht)
    as [Hno Hres].
  split; [exact Hno|]. split.
  - intros a p Hp w err.
    destruct (advance_task_fine p w (Hres a p Hp w)) as [Hfine _].
    apply Hfine.
  - split; [rewrite advance_beforeQuit; reflexivity|].
    split; [reflexivity|].
    unfold windowAllClosed.
    destruct (negb (String.eqb (platform cfg) "darwin")); reflexivity.
Qed.

End Reachable.

(* ===================================================================== *)
(** ** Restart requests in flight together *)
(* ===================================================================== *)

Section Overlap.

Variable cfg : Config.

(** Resuming a suspended restart handler with a probe that found the port
    down. *)
Lemma step_resume_restart (st : State) (i : nat) (o : NetOutcome) :
  quitting st = false ->
  tasks st !! i = Some (restart_suspended cfg) ->
  responded o = false ->
  exists (t : Task) (w' : World),
    step cfg (EvResume i (AnsNet o)) st
    = Some (mkState w' (<[i := t]> (tasks st)) (started st) false)
    /\ children w' = children (world st) ++ [backend_child cfg]
    /\ backendProcess w' = Some (length (children (world st)))
    /\ frontendProcess w' = frontendProcess (world st)
    /\ history w'
       = history (world st)
         ++ tl (backend_launch cfg (length (children (world st))))
         ++ [AProbe BACKEND_PORT].
Proof.
  intros Hq Hi Ho.
  destruct (advance_restart_launch cfg (world st))
    as (t & w' & Hadv & _ & Hc & Hb & Hf & Hh).
  exists t, w'. split; [|repeat split; assumption].
  unfold step. rewrite Hq.
  destruct (tasks st !! i) as [t0|] eqn:Hi0; [|discriminate Hi].
  apply Some_eq_inv in Hi. subst t0.
  unfold restart_suspended. cbn [resume settle].
  rewrite checkService_value by reflexivity. rewrite Ho, Hadv. reflexivity.
Qed.

(** Two restart handlers suspended on their probes, both resumed with the
    port found down: each spawns a backend and stores its handle, the second
    over the first.  Neither signals anything, so the child spawned first is
    left running with no variable referring to it. *)
Theorem overlapping_restarts_spawn_twice (st : State) (i j : nat)
    (o1 o2 : NetOutcome) :
  quitting st = false -> i <> j ->
  tasks st !! i = Some (restart_suspended cfg) ->
  tasks st !! j = Some (restart_suspended cfg) ->
  responded o1 = false -> responded o2 = false ->
  exists st2 : State,
    run cfg [EvResume i (AnsNet o1); EvResume j (AnsNet o2)] st = Some st2
    /\ children (world st2)
       = children (world st) ++ [backend_child cfg; backend_child cfg]
    /\ backendProcess (world st2) = Some (S (length (children (world st))))
    /\ kills (history (world st2)) = kills (history (world st))
    /\ spawns (history (world st2))
       = spawns (history (world st)) ++ [pythonCmd cfg; pythonCmd cfg].
Proof.
  intros Hq Hij Hi Hj Ho1 Ho2.
  destruct (step_resume_restart st i o1 Hq Hi Ho1)
    as (t1 & w1 & Hstep1 & Hc1 & Hb1 & Hf1 & Hh1).
  set (st1 := mkState w1 (<[i := t1]> (tasks st)) (started st) false) in *.
  assert (Hj1 : tasks st1 !! j = Some (restart_suspended cfg)).
  { cbn [st1 tasks]. rewrite list_lookup_insert_ne by exact Hij. exact Hj. }
  destruct (step_resume_restart st1 j o2 eq_refl Hj1 Ho2)
    as (t2 & w2 & Hstep2 & Hc2 & Hb2 & Hf2 & Hh2).
  cbn [st1 world] in Hc2, Hb2, Hf2, Hh2.
  eexists. split.
  { cbn [run]. rewrite Hstep1, Hstep2. reflexivity. }
  cbn [world].
  split; [rewrite Hc2, Hc1, <- app_assoc; reflexivity|].
  split.
  { rewrite Hb2, Hc1, length_app. cbn [length].
    rewrite Nat.add_1_r. reflexivity. }
  rewrite Hh2, Hh1.
  split.
  - rewrite !kills_app. cbn. rewrite !app_nil_r. reflexivity.
  - rewrite !spawns_app. cbn. rewrite ?app_nil_r, <- ?app_assoc. reflexivity.
Qed.

End Overlap.

(* ===================================================================== *)
(** ** Windows *)
(* ===================================================================== *)

Section Windows.

Variable cfg : Config.

(** When the last window has been closed: on macOS the listener of
    'window-all-closed' does nothing, the application, its tasks and its
    children go on as they were; elsewhere it quits, and the 'before-quit'
    listener signals the stored backend and dev server and clears both
    handles.  On 'activate' a window is created when there is none, and
    nothing else happens: no service is probed or started again. *)
Theorem closing_the_last_window (st : State) :
  quitting st = false -> mainWindow (world st) = false ->
  (exists st' : State,
     step cfg EvWindowAllClosed st = Some st'
     /\ tasks st' = tasks st
     /\ if String.eqb (platform cfg) "darwin"
        then world st' = world st /\ quitting st' = false
        else quitting st' = true
             /\ history (world st')
                = history (world st)
                  ++ [AQuit; ALog "App quitting..."]
                  ++ kill_of (backendProcess (world st))
                  ++ kill_of (frontendProcess (world st))
             /\ backendProcess (world st') = None
             /\ frontendProcess (world st') = None)
  /\ step cfg EvActivate st
     = Some (with_world
               (record ACreateWindow (set_mainWindow true (world st))) st).
Proof.
  intros Hq Hwin. split.
  - unfold step. rewrite Hq, Hwin. unfold windowAllClosed.
    destruct (String.eqb (platform cfg) "darwin"); cbn [negb].
    + eexists. split; [reflexivity|]. split; [reflexivity|].
      split; [reflexivity|exact Hq].
    + eexists. split; [reflexivity|]. split; [reflexivity|].
      split; [reflexivity|].
      cbn [deliver_quit with_world world]. unfold run_listener.
      rewrite advance_beforeQuit. cbn [snd call advance perform].
      split.
      { rewrite !history_kill_and_clear. cbn [read_slot].
        rewrite frontend_after_backend_cleared.
        cbn [record history frontendProcess backendProcess].
        rewrite <- !app_assoc. reflexivity. }
      split.
      { rewrite backend_after_frontend_cleared.
        apply (read_slot_kill_and_clear_same backendSlot). }
      apply (read_slot_kill_and_clear_same frontendSlot).
  - unfold step. rewrite Hq, Hwin. reflexivity.
Qed.

End Windows.

(* ===================================================================== *)
(** ** The first event of a request settles the probe *)
(* ===================================================================== *)

Section FirstEvent.

(** Whatever events a request delivers and in whatever order, the promise
    of [checkService] is settled by the first of them and keeps that value: a
    response that arrives first gives true even if an 'error' follows, an
    'error' or a 'timeout' that comes first gives false even if a response
    follows.  No event rejects the promise, and it stays pending as long as
    the request delivers no event. *)
Theorem checkService_first_event_wins (evs : list ReqEvent) :
  checkService_promise evs
  = match evs with
    | [] => Pending
    | ev :: _ => Resolved (event_value ev)
    end.
Proof.
  destruct evs as [|ev evs]; [reflexivity|].
  unfold checkService_promise. cbn [fold_left].
  destruct ev; apply settled_promise_is_final.
Qed.

End FirstEvent.

(* ===================================================================== *)
(** ** The general statements on sample runs *)
(* ===================================================================== *)

Lemma after_restart_run :
  run mac_release restart_events initial = Some after_restart.
Proof. vm_compute. reflexivity. Qed.

Lemma after_restart_reachable : reachable mac_release after_restart.
Proof.
  apply (run_reachable mac_release restart_events initial).
  - apply reachable_initial.
  - exact after_restart_run.
Qed.

Lemma after_two_requests_run :
  run mac_release two_requests_events initial = Some after_two_requests.
Proof. vm_compute. reflexivity. Qed.

Lemma after_two_requests_reachable : reachable mac_release after_two_requests.
Proof.
  apply (run_reachable mac_release two_requests_events initial).
  - apply reachable_initial.
  - exact after_two_requests_run.
Qed.

(** After a restart, child 1 is the stored backend: it has the four
    listeners of a backend child. *)
Lemma children_keep_their_shape_witness :
  reachable mac_release after_restart
  /\ children (world after_restart) !! 1%nat = Some (backend_child mac_release)
  /\ backendProcess (world after_restart) = Some 1%nat
  /\ p_handlers (backend_child mac_release)
     = [OnStdout "Backend"; OnStderr "Backend Error"; OnErrorLog;
        OnExitClearBackend]
  /\ is_backend mac_release (backend_child mac_release) = true.
Proof.
  split; [exact after_restart_reachable|]. split; [reflexivity|].
  split; [reflexivity|].
  destruct (children_keep_their_shape mac_release after_restart 1%nat
              (backend_child mac_release) after_restart_reachable eq_refl)
    as (_ & Hh & _ & _ & Hb & _).
  split; [exact Hh|]. exact (proj1 Hb).
Defined.

(** A line written by the stored backend after a restart. *)
Lemma child_events_by_kind_witness :
  reachable mac_release after_restart
  /\ quitting after_restart = false
  /\ children (world after_restart) !! 1%nat = Some (backend_child mac_release)
  /\ step mac_release (EvChildStdout 1%nat "ready") after_restart
     = Some (with_world
               (record (ALog "[Backend] ready") (world after_restart))
               after_restart)
  /\ step mac_release (EvChildError 1%nat "spawn python3 ENOENT") after_restart
     = Some (with_world
               (record (ALog "Backend process error: spawn python3 ENOENT")
                  (world after_restart))
               after_restart).
Proof.
  split; [exact after_restart_reachable|]. split; [reflexivity|].
  split; [reflexivity|].
  destruct (child_events_by_kind mac_release after_restart 1%nat
              (backend_child mac_release) "ready"
              after_restart_reachable eq_refl eq_refl)
    as (Hout & _ & _).
  destruct (child_events_by_kind mac_release after_restart 1%nat
              (backend_child mac_release) "spawn python3 ENOENT"
              after_restart_reachable eq_refl eq_refl)
    as (_ & _ & Herr).
  split; [exact Hout|exact Herr].
Defined.

(** The exit of the signalled child 0 after a restart empties the variable
    that holds the handle of child 1. *)
Lemma child_exit_by_kind_witness :
  reachable mac_release after_restart
  /\ quitting after_restart = false
  /\ children (world after_restart) !! 0%nat = Some (signal (backend_child mac_release))
  /\ live (signal (backend_child mac_release)) = true
  /\ backendProcess (world after_restart) = Some 1%nat
  /\ exists st' : State,
       step mac_release (EvChildExit 0%nat None) after_restart = Some st'
       /\ backendProcess (world st') = None
       /\ history (world st')
          = history (world after_restart)
            ++ [ALog "Backend exited with code null"].
Proof.
  split; [exact after_restart_reachable|]. split; [reflexivity|].
  split; [reflexivity|]. split; [reflexivity|]. split; [reflexivity|].
  destruct (child_exit_by_kind mac_release after_restart 0%nat
              (signal (backend_child mac_release)) None
              after_restart_reachable eq_refl eq_refl eq_refl)
    as (st' & Hstep & _ & _ & _ & Hb & Hh & _).
  exists st'. split; [exact Hstep|]. split; [exact Hb|exact Hh].
Defined.

Lemma exit_of_replaced_backend_loses_new_handle_witness :
  reachable mac_release after_restart
  /\ quitting after_restart = false
  /\ children (world after_restart) !! 0%nat = Some (signal (backend_child mac_release))
  /\ backendProcess (world after_restart) = Some 1%nat
  /\ children (world after_restart) !! 1%nat = Some (backend_child mac_release)
  /\ exists st1 st2 : State,
       step mac_release (EvChildExit 0%nat (Some 1)) after_restart = Some st1
       /\ backendProcess (world st1) = None
       /\ children (world st1) !! 1%nat = Some (backend_child mac_release)
       /\ step mac_release EvBeforeQuit st1 = Some st2
       /\ history (world st2)
          = history (world after_restart)
            ++ [ALog ("Backend exited with code " +:+ code_text (Some 1));
                ALog "App quitting..."]
            ++ kill_of (frontendProcess (world after_restart))
       /\ children (world st2) !! 1%nat = Some (backend_child mac_release).
Proof.
  split; [exact after_restart_reachable|]. split; [reflexivity|].
  split; [reflexivity|]. split; [reflexivity|]. split; [reflexivity|].
  apply (exit_of_replaced_backend_loses_new_handle mac_release after_restart
           0%nat 1%nat (signal (backend_child mac_release))
           (backend_child mac_release) (Some 1)).
  - exact after_restart_reachable.
  - reflexivity.
  - reflexivity.
  - reflexivity.
  - reflexivity.
  - reflexivity.
  - discriminate.
  - reflexivity.
Defined.

(** The two restart handlers suspended after two requests never throw. *)
Lemma no_callback_throws_witness :
  reachable mac_release after_two_requests
  /\ tasks after_two_requests !! 2%nat = Some (restart_suspended mac_release)
  /\ (forall err : string, restart_suspended mac_release <> Throw err)
  /\ fst (advance beforeQuit (world after_two_requests)) = Ret tt.
Proof.
  split; [exact after_two_requests_reachable|]. split; [reflexivity|].
  destruct (no_callback_throws mac_release after_two_requests 2%nat
              (restart_suspended mac_release)
              after_two_requests_reachable eq_refl)
    as (Hno & _ & Hquit & _).
  split; [exact Hno|exact Hquit].
Defined.

(** Two requests after start-up, both probes refused: children 1 and 2 are
    spawned, child 2 is stored, nothing new is signalled. *)
Lemma overlapping_restarts_spawn_twice_witness :
  quitting after_two_requests = false
  /\ tasks after_two_requests !! 1%nat = Some (restart_suspended mac_release)
  /\ tasks after_two_requests !! 2%nat = Some (restart_suspended mac_release)
  /\ length (children (world after_two_requests)) = 1%nat
  /\ exists st2 : State,
       run mac_release
           [EvResume 1%nat (AnsNet Refused); EvResume 2%nat (AnsNet Refused)]
           after_two_requests
       = Some st2
       /\ children (world st2)
          = children (world after_two_requests)
            ++ [backend_child mac_release; backend_child mac_release]
       /\ backendProcess (world st2)
          = Some (S (length (children (world after_two_requests))))
       /\ kills (history (world st2))
          = kills (history (world after_two_requests))
       /\ spawns (history (world st2))
          = spawns (history (world after_two_requests))
            ++ [pythonCmd mac_release; pythonCmd mac_release].
Proof.
  split; [reflexivity|]. split; [reflexivity|]. split; [reflexivity|].
  split; [reflexivity|].
  apply (overlapping_restarts_spawn_twice mac_release after_two_requests
           1%nat 2%nat Refused Refused).
  - reflexivity.
  - discriminate.
  - reflexivity.
  - reflexivity.
  - reflexivity.
  - reflexivity.
Defined.

(** The window of the macOS build is closed after start-up: the
    application stays as it is, and 'activate' opens a window again. *)
Lemma closing_the_last_window_witness :
  step mac_release EvWindowClosed after_startup
  = Some (with_world (set_mainWindow false (world after_startup)) after_startup)
  /\ quitting (with_world (set_mainWindow false (world after_startup))
                 after_startup) = false
  /\ (exists st' : State,
        step mac_release EvWindowAllClosed
             (with_world (set_mainWindow false (world after_startup))
                after_startup)
        = Some st'
        /\ world st' = set_mainWindow false (world after_startup)
        /\ quitting st' = false)
  /\ step mac_release EvActivate
          (with_world (set_mainWindow false (world after_startup))
             after_startup)
     = Some (with_world
               (record ACreateWindow (world after_startup))
               (with_world (set_mainWindow false (world after_startup))
                  after_startup)).
Proof.
  split; [reflexivity|]. split; [reflexivity|].
  destruct (closing_the_last_window mac_release
              (with_world (set_mainWindow false (world after_startup))
                 after_startup) eq_refl eq_refl)
    as [(st' & Hstep & _ & Hw & Hq) Hact].
  split; [|exact Hact].
  exists st'. split; [exact Hstep|]. split; [exact Hw|exact Hq].
Defined.

(* ===================================================================== *)
(** ** [waitForService] for every bound *)
(* ===================================================================== *)

Section WaitResult.

(** For every bound and every port that [http.request] accepts,
    [waitForService(port, maxAttempts)] returns true exactly when one of its
    first [maxAttempts] probes gets a response, and stops at the first that
    does.  It pauses one second after each unanswered probe, the last one
    included, so it returns false only after [maxAttempts] probes and as many
    pauses.  With a bound of zero or less it returns false at once, without a
    probe or a pause, whatever the port.  With a bound of one or more and a
    port out of range, its first call of [checkService] is rejected and it
    throws that error without a pause. *)
Theorem waitForService_result (port maxAttempts : Z)
    (oracle : nat -> NetOutcome) (n : nat) (w : World) :
  if valid_port port || (maxAttempts <=? 0)
  then
    exists m : nat,
      exec (waitForService port maxAttempts) oracle n w
      = (Returned (any_responded oracle n (Z.to_nat maxAttempts)),
         with_actions
           (wait_actions port (any_responded oracle n (Z.to_nat maxAttempts)) m)
           w,
         (n + if any_responded oracle n (Z.to_nat maxAttempts)
              then S m else m)%nat)
      /\ timer_total
           (wait_actions port (any_responded oracle n (Z.to_nat maxAttempts)) m)
         = 1000 * Z.of_nat m
      /\ (if any_responded oracle n (Z.to_nat maxAttempts)
          then (m < Z.to_nat maxAttempts)%nat
               /\ responded (oracle (n + m)%nat) = true
          else m = Z.to_nat maxAttempts)
      /\ (forall j : nat, (j < m)%nat -> responded (oracle (n + j)%nat) = false)
  else
    exec (waitForService port maxAttempts) oracle n w
    = (Threw "ERR_SOCKET_BAD_PORT", with_actions [AProbe port] w, S n).
Proof.
  destruct (Z.leb_spec maxAttempts 0) as [Hneg|Hpos].
  - rewrite orb_true_r.
    exists O. replace (Z.to_nat maxAttempts) with O by lia.
    cbn [any_responded]. split; [|split; [reflexivity|split; [reflexivity|]]].
    + unfold waitForService, wait_actions.
      replace (Z.to_nat maxAttempts) with O by lia.
      cbn [waitForService_loop].
      destruct (Z.ltb_spec 0 maxAttempts) as [Hlt|_]; [lia|].
      cbn [exec]. rewrite with_actions_nil, Nat.add_0_r. reflexivity.
    + intros j Hj. lia.
  - rewrite orb_false_r. destruct (valid_port port) eqn:Hv.
    + destruct (first_responded oracle (Z.to_nat maxAttempts) n)
        as [[Hnone Hall]|[Hsome (m & Hm & Hok & Hbefore)]].
      * exists (Z.to_nat maxAttempts). rewrite Hnone.
        split; [|split; [apply timer_total_wait|split; [reflexivity|exact Hall]]].
        unfold waitForService, wait_actions.
        apply (waitForService_loop_exhausted port maxAttempts oracle).
        -- lia.
        -- lia.
        -- intros j Hj. apply (responded_probe_fails _ _ Hv), Hall, Hj.
      * exists m. rewrite Hsome.
        split; [|split; [apply timer_total_wait
                        |split; [split; assumption|exact Hbefore]]].
        unfold waitForService, wait_actions.
        apply (waitForService_loop_success port maxAttempts oracle m).
        -- lia.
        -- lia.
        -- intros j Hj. apply (responded_probe_fails _ _ Hv), Hbefore, Hj.
        -- apply (responded_probe_succeeds _ _ Hv), Hok.
    + unfold waitForService.
      destruct (Z.to_nat maxAttempts) as [|fuel] eqn:Hfuel; [lia|].
      cbn [waitForService_loop].
      destruct (Z.ltb_spec 0 maxAttempts) as [_|Hge]; [|lia].
      cbn [bind await exec].
      rewrite checkService_bad_port by exact Hv. reflexivity.
Qed.

End WaitResult.

(* ===================================================================== *)
(** ** The replies of the bridge *)
(* ===================================================================== *)

Section BridgeReplies.

Variable cfg : Config.



End BridgeReplies.


